(** * Captain Hooks: the security validator and the skill activation scorer

    A shallow embedding of [hooks/security-validator.hook.ts] (both the
    hardened revision and the earlier one kept in the tree),
    [hooks/lib/paths.ts], [hooks/lib/stdin.ts] and
    [hooks/skill-eval.hook.ts], followed by the properties the
    specification states about them.

    Conventions of the embedding:
    - a JavaScript string is a [string] that holds the text in UTF-8, the
      form in which it arrives on standard input and lies in the files: an
      ASCII character is one byte, any other character a sequence of bytes
      from 128 on (the word characters of a regular expression are the
      ASCII letters, digits and the underscore);
    - a JavaScript number is a [float], the binary64 number of IEEE 754
      with its rounding, infinities and [NaN]; a count of matches or a
      length, an integer far below 2^53, is a [nat];
    - what the hooks read from their surroundings is explicit: the home
      directory, the working directory, the clock and the state of the
      files they open are arguments, and so are the parts of the engine
      that are not written out here: the regular expressions,
      [String.prototype.toLowerCase], and the order [Array.prototype.sort]
      leaves when the comparison it is given is not an order;
    - [process.exit] ends the run: a hook is a function to the text it
      printed (if any) and its exit status. *)

From Stdlib Require Import ZArith Floats Ascii String Lia Permutation Sorted.
From stdpp Require Import base option list strings gmap.

Close Scope float_scope.
Close Scope Z_scope.
Set Warnings "-register-all".

(** ** JavaScript strings *)

Module Str.

(** [\w] of a regular expression without the [u] flag. *)
Definition isWordChar (c : ascii) : bool :=
  let n := nat_of_ascii c in
  ((65 <=? n) && (n <=? 90)) || ((97 <=? n) && (n <=? 122))
  || ((48 <=? n) && (n <=? 57)) || (n =? 95).

(** The text with the given bytes, each written as its number. *)
Definition utf8 (bytes : list ascii) : string :=
  fold_right String EmptyString bytes.

(** The characters [String.prototype.trim] removes, the white space and
    the line terminators of the language: U+0009 to U+000D, U+0020,
    U+00A0, U+1680, U+2000 to U+200A, U+2028, U+2029, U+202F, U+205F,
    U+3000 and U+FEFF. *)
Definition whiteSpace : list string :=
  Eval cbv in
  map utf8
    [ [ "009" ]; [ "010" ]; [ "011" ]; [ "012" ]; [ "013" ]; [ "032" ];
      [ "194"; "160" ];
      [ "225"; "154"; "128" ];
      [ "226"; "128"; "128" ]; [ "226"; "128"; "129" ];
      [ "226"; "128"; "130" ]; [ "226"; "128"; "131" ];
      [ "226"; "128"; "132" ]; [ "226"; "128"; "133" ];
      [ "226"; "128"; "134" ]; [ "226"; "128"; "135" ];
      [ "226"; "128"; "136" ]; [ "226"; "128"; "137" ];
      [ "226"; "128"; "138" ];
      [ "226"; "128"; "168" ]; [ "226"; "128"; "169" ];
      [ "226"; "128"; "175" ];
      [ "226"; "129"; "159" ];
      [ "227"; "128"; "128" ];
      [ "239"; "187"; "191" ] ]%char.

(** The same read backwards. *)
Definition whiteSpaceReversed : list string :=
  Eval cbv in map String.rev whiteSpace.

(** What [String.prototype.toLowerCase] makes of ASCII text: the letters
    [A] to [Z] become [a] to [z]. *)
Definition asciiLowerChar (c : ascii) : ascii :=
  let n := nat_of_ascii c in
  if (65 <=? n) && (n <=? 90) then ascii_of_nat (n + 32) else c.

Fixpoint asciiLower (s : string) : string :=
  match s with
  | EmptyString => EmptyString
  | String c s' => String (asciiLowerChar c) (asciiLower s')
  end.

(** [s.startsWith(p)] *)
Definition startsWith (s p : string) : bool := String.prefix p s.

(** [stripPrefix p s] is what follows [p] in [s] when [s] starts with [p]. *)
Fixpoint stripPrefix (p s : string) : option string :=
  match p with
  | EmptyString => Some s
  | String a p' =>
      match s with
      | EmptyString => None
      | String b s' => if Ascii.eqb a b then stripPrefix p' s' else None
      end
  end.

(** [s.includes(p)] *)
Fixpoint includes (s p : string) : bool :=
  String.prefix p s ||
  match s with
  | EmptyString => false
  | String _ s' => includes s' p
  end.

Fixpoint drop (n : nat) (s : string) : string :=
  match n with
  | O => s
  | S k => match s with
           | EmptyString => EmptyString
           | String _ s' => drop k s'
           end
  end.

(** [s.endsWith(p)] *)
Definition endsWith (s p : string) : bool :=
  String.prefix (String.rev p) (String.rev s).

(** What follows the first of [ws] that [s] starts with. *)
Fixpoint stripAny (ws : list string) (s : string) : option string :=
  match ws with
  | [] => None
  | w :: ws' =>
      match stripPrefix w s with
      | Some rest => Some rest
      | None => stripAny ws' s
      end
  end.

(** [s] without the texts of [ws] it starts with, one after the other.
    Each of them has a character at least, so [n] steps are enough for a
    text of [n] characters. *)
Fixpoint stripAll (ws : list string) (n : nat) (s : string) : string :=
  match n with
  | O => s
  | S k =>
      match stripAny ws s with
      | Some rest => stripAll ws k rest
      | None => s
      end
  end.

Definition trimStart (s : string) : string :=
  stripAll whiteSpace (String.length s) s.

(** The end of [s] is the start of [s] read backwards. *)
Definition trimEnd (s : string) : string :=
  String.rev (stripAll whiteSpaceReversed (String.length s) (String.rev s)).

(** [s.trim()] *)
Definition trim (s : string) : string := trimEnd (trimStart s).

(** [s.split(sep)] for a one-character separator; [cur] is the piece
    being read, reversed. *)
Fixpoint split_go (sep : ascii) (cur : string) (s : string) : list string :=
  match s with
  | EmptyString => [String.rev cur]
  | String c s' =>
      if Ascii.eqb c sep
      then String.rev cur :: split_go sep EmptyString s'
      else split_go sep (String c cur) s'
  end.

Definition split (sep : ascii) (s : string) : list string :=
  split_go sep EmptyString s.

(** [parts.join(sep)] *)
Fixpoint join (sep : string) (parts : list string) : string :=
  match parts with
  | [] => EmptyString
  | [p] => p
  | p :: ps => p +:+ sep +:+ join sep ps
  end.

(** Every character of [s] satisfies [f]. *)
Fixpoint allChars (f : ascii -> bool) (s : string) : bool :=
  match s with
  | EmptyString => true
  | String c s' => f c && allChars f s'
  end.

(** The first character of [s] is a word character. At the end of a
    word this is the negation of [\b]. *)
Definition headIsWord (s : string) : bool :=
  match s with
  | EmptyString => false
  | String c _ => isWordChar c
  end.

(** *** [s.replace(/re/g, rep)]

    A regular expression is given by what it matches at the head of the
    rest of the input: [m rest = Some n] when it matches the first [n]
    characters of [rest]. The expressions replaced in this program match
    at least one character. The scan goes left to right and resumes
    after each match; [skip] counts the characters of the current match
    that are still to be passed over. *)
Definition Matcher := string -> option nat.

Fixpoint replaceAll_go (m : Matcher) (rep : string) (skip : nat) (s : string)
  : string :=
  match s with
  | EmptyString => EmptyString
  | String c s' =>
      match skip with
      | S k => replaceAll_go m rep k s'
      | O =>
          match m s with
          | Some (S k) => rep +:+ replaceAll_go m rep k s'
          | _ => String c (replaceAll_go m rep 0 s')
          end
      end
  end.

Definition replaceAll (m : Matcher) (rep : string) (s : string) : string :=
  replaceAll_go m rep 0 s.

End Str.

(** ** JavaScript numbers *)

Module Num.

Abbreviation number := float.

(** [!x] for a number: zero and [NaN] are falsy. *)
Definition falsy (x : number) : bool :=
  PrimFloat.eqb x 0 || PrimFloat.is_nan x.

(** The number that holds the integer [n] (exactly, below 2^53). *)
Definition ofNat (n : nat) : number :=
  PrimFloat.of_uint63 (Uint63.of_Z (Z.of_nat n)).

End Num.

(** ** JSON values, as [JSON.parse] returns them *)

Module Json.

Inductive json :=
| JNull
| JBool (b : bool)
| JNum (x : Num.number)
| JStr (s : string)
| JArr (items : list json)
| JObj (members : list (string * json)).

(** The members of an object are kept in the order of the text; a name
    written twice denotes its last value. *)
Fixpoint lookupLast (k : string) (members : list (string * json))
  : option json :=
  match members with
  | [] => None
  | (k', v) :: rest =>
      match lookupLast k rest with
      | Some v' => Some v'
      | None => if String.eqb k k' then Some v else None
      end
  end.

(** [v.k] for the property names this program reads ([tool_name],
    [session_id], [tool_input], [command], [file_path]); none of them is
    inherited, and an array has none of them. [None] is [undefined]. *)
Definition getProp (v : json) (k : string) : option json :=
  match v with
  | JObj members => lookupLast k members
  | _ => None
  end.

(** [typeof v] *)
Definition typeof (v : option json) : string :=
  match v with
  | None => "undefined"
  | Some JNull => "object"
  | Some (JBool _) => "boolean"
  | Some (JNum _) => "number"
  | Some (JStr _) => "string"
  | Some (JArr _) => "object"
  | Some (JObj _) => "object"
  end.

(** [!v] is false *)
Definition truthy (v : json) : bool :=
  match v with
  | JNull => false
  | JBool b => b
  | JNum x => negb (Num.falsy x)
  | JStr s => negb (String.eqb s "")
  | JArr _ => true
  | JObj _ => true
  end.

End Json.

(** ** [hooks/lib/stdin.ts] *)

Module Stdin.
Import Json.

(** What happens on standard input within the time allowed. *)
Inductive Arrival :=
| TimedOut
| Text (text : string).

Section WithParser.
(** [JSON.parse]; [None] when it throws. *)
Variable JSON_parse : string -> option json.

(** [readStdin]: [null] on a timeout, on blank input and on text that
    is not JSON. *)
Definition readStdin (a : Arrival) : json :=
  match a with
  | TimedOut => JNull
  | Text text =>
      if String.eqb (Str.trim text) "" then JNull
      else match JSON_parse text with
           | Some v => v
           | None => JNull
           end
  end.
End WithParser.

End Stdin.

(** ** [hooks/lib/paths.ts] and the platform's [path.resolve] *)

Module Paths.

(** The replacement text of [String.prototype.replace] for a regular
    expression without groups: [$$] is a dollar, [$&] the match, [$`]
    what precedes it and [$'] what follows it. *)
Fixpoint substitution (matched before after : string) (rep : string)
  : string :=
  match rep with
  | EmptyString => EmptyString
  | String a rest =>
      if Ascii.eqb a "$" then
        match rest with
        | String c rest' =>
            if Ascii.eqb c "$" then
              String "$" (substitution matched before after rest')
            else if Ascii.eqb c "&" then
              matched +:+ substitution matched before after rest'
            else if Ascii.eqb c "`" then
              before +:+ substitution matched before after rest'
            else if Ascii.eqb c "'" then
              after +:+ substitution matched before after rest'
            else String a (substitution matched before after rest)
        | EmptyString => String a EmptyString
        end
      else String a (substitution matched before after rest)
  end.

(** [/^tok(?=\/|$)/]: [path] starts with [tok], and a slash or nothing
    follows. Gives what follows. *)
Definition tokenAtHead (tok path : string) : option string :=
  match Str.stripPrefix tok path with
  | Some rest =>
      match rest with
      | EmptyString => Some rest
      | String c _ => if Ascii.eqb c "/" then Some rest else None
      end
  | None => None
  end.

(** [path.replace(/^tok(?=\/|$)/, rep)] *)
Definition replaceHead (tok rep path : string) : string :=
  match tokenAtHead tok path with
  | Some rest => substitution tok "" rest rep +:+ rest
  | None => path
  end.

Section WithEnvironment.
(** [os.homedir()] and [process.cwd()] *)
Variable home : string.
Variable cwd : string.

Definition expandPath (path : string) : string :=
  replaceHead "~" home
    (replaceHead "${HOME}" home
       (replaceHead "$HOME" home path)).

(** [path.resolve(p)] on a POSIX platform: a relative path is taken
    from the working directory; empty and [.] segments disappear, a
    [..] segment removes the segment before it (none at the root);
    the result starts with a slash and does not end with one, the
    root apart. [stack] is the path so far, last segment first. *)
Fixpoint normalizeSegments (stack : list string) (segs : list string)
  : list string :=
  match segs with
  | [] => rev stack
  | seg :: rest =>
      if String.eqb seg "" || String.eqb seg "." then
        normalizeSegments stack rest
      else if String.eqb seg ".." then
        normalizeSegments (tail stack) rest
      else normalizeSegments (seg :: stack) rest
  end.

Definition resolve (p : string) : string :=
  let full := if Str.startsWith p "/" then p else cwd +:+ "/" +:+ p in
  "/" +:+ Str.join "/" (normalizeSegments [] (Str.split "/" full)).

End WithEnvironment.

End Paths.

(** ** What a security hook hands back to the host *)

Module Host.

Inductive Decision := Block | Ask.

(** The JSON document printed on standard output:
    [{ continue: true }] or [{ decision, message }]. *)
Inductive Output :=
| Continue
| Verdict (decision : Decision) (message : string).

Record Outcome := {
  stdout : option Output;
  exitCode : Z
}.

(** [console.log(JSON.stringify(o)); process.exit(0)] *)
Definition emit (o : Output) : Outcome :=
  {| stdout := Some o; exitCode := 0 |}.

(** [process.exit(2)] with nothing printed *)
Definition hardExit : Outcome :=
  {| stdout := None; exitCode := 2 |}.

Definition decisionOf (o : Outcome) : option Decision :=
  match stdout o with
  | Some (Verdict d _) => Some d
  | _ => None
  end.

(** The host lets the tool run: it was told to continue. *)
Definition allows (o : Outcome) : bool :=
  match stdout o with
  | Some Continue => true
  | _ => false
  end.

(** The state of a file the hook opens. *)
Inductive File :=
| Missing                      (* [existsSync] is false *)
| Unreadable                   (* [readFileSync] throws *)
| Contents (content : string).

(** A double quote, for the messages that quote their subject. *)
Definition dq : string := String (ascii_of_nat 34) EmptyString.

(** [a || b] on results where [None] is falsy. *)
Definition orEmpty {A} (l : option (list A)) : list A :=
  match l with
  | Some l => l
  | None => []
  end.

End Host.

(** ** The security validator, hardened revision *)

Module Validator.
Import Json Host.

Record HookInput := {
  tool_name : string;
  tool_input : json;
  session_id : string
}.

Definition KNOWN_TOOLS : list string :=
  ["Bash"; "Write"; "Edit"; "Read"; "Glob"; "Grep"].

(** A compiled pattern: [regex] is [RegExp.prototype.test] of the
    compiled expression (no [g] or [y] flag, so it keeps no state). *)
Record CompiledPattern := {
  regex : string -> bool;
  source : string
}.

Record Commands := {
  block : option (list CompiledPattern);
  confirm : option (list CompiledPattern)
}.

Record PathRules := {
  zeroAccess : option (list string);
  confirmWrite : option (list string)
}.

Record SecurityPatterns := {
  commands : option Commands;
  paths : option PathRules
}.

(** [patterns.commands?.block || []] and its three siblings *)
Definition blockOf (p : SecurityPatterns) : list CompiledPattern :=
  orEmpty (c ← commands p; block c).
Definition confirmOf (p : SecurityPatterns) : list CompiledPattern :=
  orEmpty (c ← commands p; confirm c).
Definition zeroAccessOf (p : SecurityPatterns) : list string :=
  orEmpty (r ← paths p; zeroAccess r).
Definition confirmWriteOf (p : SecurityPatterns) : list string :=
  orEmpty (r ← paths p; confirmWrite r).

(** [{}], returned when the pattern file does not exist *)
Definition noPatterns : SecurityPatterns :=
  {| commands := None; paths := None |}.

(** [{ commands: {}, paths: {} }], where the scan of the file starts *)
Definition emptyPatterns : SecurityPatterns :=
  {| commands := Some {| block := None; confirm := None |};
     paths := Some {| zeroAccess := None; confirmWrite := None |} |}.

(** [x.list = x.list || []; x.list.push(v)] *)
Definition push {A} (l : option (list A)) (v : A) : option (list A) :=
  Some (orEmpty l ++ [v]).

Definition pushBlock (p : SecurityPatterns) (c : CompiledPattern) :=
  {| commands := cs ← commands p;
                 Some {| block := push (block cs) c; confirm := confirm cs |};
     paths := paths p |}.
Definition pushConfirm (p : SecurityPatterns) (c : CompiledPattern) :=
  {| commands := cs ← commands p;
                 Some {| block := block cs; confirm := push (confirm cs) c |};
     paths := paths p |}.
Definition pushZeroAccess (p : SecurityPatterns) (v : string) :=
  {| commands := commands p;
     paths := rs ← paths p;
              Some {| zeroAccess := push (zeroAccess rs) v;
                      confirmWrite := confirmWrite rs |} |}.
Definition pushConfirmWrite (p : SecurityPatterns) (v : string) :=
  {| commands := commands p;
     paths := rs ← paths p;
              Some {| zeroAccess := zeroAccess rs;
                      confirmWrite := push (confirmWrite rs) v |} |}.

(** [s.slice(0, -1)] *)
Definition dropLast (s : string) : string :=
  String.rev (Str.drop 1 (String.rev s)).

Definition isQuote (c : ascii) : bool :=
  Ascii.eqb c (ascii_of_nat 34) || Ascii.eqb c "'".

(** [s.replace(/^["']|["']$/g, '')]: a quote at the very start goes, and
    so does a quote at the very end of what remains. *)
Definition stripQuotes (s : string) : string :=
  let s1 := match s with
            | String c rest => if isQuote c then rest else s
            | EmptyString => s
            end in
  match String.rev s1 with
  | String c rest => if isQuote c then String.rev rest else s1
  | EmptyString => s1
  end.

(** [/\$\{HOME\}/] and [/\$HOME\b/] at the head of the rest of the input *)
Definition bracedHome : Str.Matcher := fun rest =>
  match Str.stripPrefix "${HOME}" rest with
  | Some _ => Some 7
  | None => None
  end.

Definition bareHome : Str.Matcher := fun rest =>
  match Str.stripPrefix "$HOME" rest with
  | Some after => if Str.headIsWord after then None else Some 5
  | None => None
  end.

(** A character that is neither [$] nor [~]: no token starts with it and
    it is not what replaces a token. *)
Definition unmarked (c : ascii) : bool :=
  negb (Ascii.eqb c "$") && negb (Ascii.eqb c "~").

Definition normalizeHomeTokens (command : string) : string :=
  Str.replaceAll bareHome "~" (Str.replaceAll bracedHome "~" command).

Definition extractCommand (input : json) : option string :=
  match getProp input "command" with
  | Some (JStr s) => Some s
  | _ => None
  end.

Definition extractPath (input : json) : option string :=
  match getProp input "file_path" with
  | Some (JStr s) => Some s
  | _ => None
  end.

Definition validateInput (raw : json) : option HookInput :=
  if negb (truthy raw) || negb (String.eqb (typeof (Some raw)) "object")
  then None
  else
    match getProp raw "tool_name" with
    | Some (JStr name) =>
        match getProp raw "session_id" with
        | Some (JStr sid) =>
            match getProp raw "tool_input" with
            | Some ti =>
                if negb (String.eqb (typeof (Some ti)) "object") then None
                else match ti with
                     | JNull => None
                     | _ => Some {| tool_name := name; tool_input := ti;
                                    session_id := sid |}
                     end
            | None => None
            end
        | _ => None
        end
    | _ => None
    end.

Section WithEnvironment.
(** [os.homedir()], [process.cwd()] and [new RegExp(pattern, flags)],
    which gives the compiled expression's [test], or [None] when the
    pattern is not a regular expression (a [SyntaxError]). *)
Variable home : string.
Variable cwd : string.
Variable RegExp : string -> string -> option (string -> bool).

Abbreviation expandPath := (Paths.expandPath home).
Abbreviation resolve := (Paths.resolve cwd).

(** The scan of [patterns.yaml], one line at a time. *)
Record Scan := {
  patterns : SecurityPatterns;
  currentSection : string;
  currentSubSection : string
}.

Definition scanLine (st : Scan) (line : string) : Scan :=
  let trimmed := Str.trim line in
  if String.eqb trimmed "" || Str.startsWith trimmed "#" then st
  else if String.eqb trimmed "commands:" then
    {| patterns := patterns st; currentSection := "commands";
       currentSubSection := currentSubSection st |}
  else if String.eqb trimmed "paths:" then
    {| patterns := patterns st; currentSection := "paths";
       currentSubSection := currentSubSection st |}
  else if Str.endsWith trimmed ":" && negb (Str.startsWith trimmed "-") then
    {| patterns := patterns st; currentSection := currentSection st;
       currentSubSection := Str.trim (dropLast trimmed) |}
  else if Str.startsWith trimmed "- " then
    let value := stripQuotes (Str.drop 2 trimmed) in
    let store p := {| patterns := p; currentSection := currentSection st;
                      currentSubSection := currentSubSection st |} in
    if String.eqb (currentSection st) "commands" then
      match RegExp value "" with
      | Some test =>
          let compiled := {| regex := test; source := value |} in
          if String.eqb (currentSubSection st) "block" then
            store (pushBlock (patterns st) compiled)
          else if String.eqb (currentSubSection st) "confirm" then
            store (pushConfirm (patterns st) compiled)
          else st
      | None => st              (* logged and skipped *)
      end
    else if String.eqb (currentSection st) "paths" then
      if String.eqb (currentSubSection st) "zeroAccess" then
        store (pushZeroAccess (patterns st) (expandPath value))
      else if String.eqb (currentSubSection st) "confirmWrite" then
        store (pushConfirmWrite (patterns st) value)
      else st
    else st
  else st.

(** [loadPatterns]; [None] is [null], the result when reading the
    file throws. *)
Definition loadPatterns (file : File) : option SecurityPatterns :=
  match file with
  | Missing => Some noPatterns
  | Unreadable => None
  | Contents content =>
      Some (patterns
              (fold_left scanLine (Str.split (ascii_of_nat 10) content)
                 {| patterns := emptyPatterns; currentSection := "";
                    currentSubSection := "" |}))
  end.

Definition commandReferencesProtectedPath
  (command : string) (protectedPaths : list string) : bool :=
  let normalized := normalizeHomeTokens command in
  existsb (fun protectedPath =>
    let expandedProtected := resolve (expandPath protectedPath) in
    Str.includes normalized expandedProtected ||
    (let home' := resolve (expandPath "~") in
     Str.startsWith expandedProtected home' &&
     (let suffix := Str.drop (String.length home') expandedProtected in
      negb (String.eqb suffix "") &&
      Str.includes normalized ("~" +:+ suffix))))
    protectedPaths.

(** The first pattern of the list that matches, as the [for] loops
    over the compiled patterns find it. *)
Definition firstMatch (ps : list CompiledPattern) (text : string)
  : option CompiledPattern :=
  find (fun p => regex p text) ps.

(** The part of [main] under [if (input.tool_name === 'Bash')]:
    [Some] outcome when the hook exits there. *)
Definition checkBash (input : HookInput) (ps : SecurityPatterns)
  : option Outcome :=
  if negb (String.eqb (tool_name input) "Bash") then None
  else
    match extractCommand (tool_input input) with
    | None =>
        Some (emit (Verdict Block
                      "Blocked: Bash command is missing or not a string"))
    | Some cmd =>
        if String.eqb cmd "" then
          Some (emit (Verdict Block
                        "Blocked: Bash command is missing or not a string"))
        else
          let cmdForPolicy := normalizeHomeTokens cmd in
          match firstMatch (blockOf ps) cmdForPolicy with
          | Some p =>
              Some (emit (Verdict Block
                ("Blocked by security policy: command matches "
                   +:+ dq +:+ source p +:+ dq)))
          | None =>
              if commandReferencesProtectedPath cmdForPolicy
                   (zeroAccessOf ps)
              then Some (emit (Verdict Block
                "Blocked by security policy: command references a protected path"))
              else
                match firstMatch (confirmOf ps) cmdForPolicy with
                | Some p =>
                    Some (emit (Verdict Ask
                      ("Security check: command matches "
                         +:+ dq +:+ source p +:+ dq +:+ ". Proceed?")))
                | None => None
                end
          end
    end.

(** The part of [main] that checks [file_path], for any tool. *)
Definition checkPath (input : HookInput) (ps : SecurityPatterns)
  : option Outcome :=
  match extractPath (tool_input input) with
  | None => None
  | Some filePath =>
      if String.eqb filePath "" then None
      else
        let expanded := resolve (expandPath filePath) in
        if existsb (fun protected_path =>
                      Str.startsWith expanded (resolve protected_path))
             (zeroAccessOf ps)
        then Some (emit (Verdict Block
               ("Blocked: " +:+ dq +:+ filePath +:+ dq
                  +:+ " is in a protected path")))
        else if (String.eqb (tool_name input) "Write"
                 || String.eqb (tool_name input) "Edit")
                && existsb (fun confirmPath =>
                              Str.includes expanded confirmPath)
                     (confirmWriteOf ps)
        then Some (emit (Verdict Ask
               ("Security check: writing to " +:+ dq +:+ filePath +:+ dq
                  +:+ ". Proceed?")))
        else None
  end.

(** [main] once standard input has been read: [raw] is what
    [readStdin] returned, [file] the state of [security/patterns.yaml].
    The note written to the log for a tool outside [KNOWN_TOOLS]
    goes to standard error and changes nothing here. *)
Definition run (raw : json) (file : File) : Outcome :=
  match validateInput raw with
  | None => hardExit
  | Some input =>
      match loadPatterns file with
      | None =>
          emit (Verdict Block
            "Security patterns failed to load — blocking all operations")
      | Some ps =>
          match checkBash input ps with
          | Some o => o
          | None =>
              match checkPath input ps with
              | Some o => o
              | None => emit Continue
              end
          end
      end
  end.

Variable JSON_parse : string -> option json.

Definition main (input : Stdin.Arrival) (file : File) : Outcome :=
  run (Stdin.readStdin JSON_parse input) file.

End WithEnvironment.

End Validator.

(** ** The security validator, earlier revision

    [hooks/security-validator.hook.ts] as the tree still has it: patterns
    are kept as text and compiled at each test, the command is matched as
    given, and [loadPatterns] has no [null] result. *)

Module LegacyValidator.
Import Json Host.

Abbreviation HookInput := Validator.HookInput.
Abbreviation validateInput := Validator.validateInput.
Abbreviation extractCommand := Validator.extractCommand.
Abbreviation extractPath := Validator.extractPath.

Record Commands := {
  block : option (list string);
  confirm : option (list string)
}.

Record SecurityPatterns := {
  commands : option Commands;
  paths : option Validator.PathRules
}.

Definition blockOf (p : SecurityPatterns) : list string :=
  orEmpty (c ← commands p; block c).
Definition confirmOf (p : SecurityPatterns) : list string :=
  orEmpty (c ← commands p; confirm c).
Definition zeroAccessOf (p : SecurityPatterns) : list string :=
  orEmpty (r ← paths p; Validator.zeroAccess r).
Definition confirmWriteOf (p : SecurityPatterns) : list string :=
  orEmpty (r ← paths p; Validator.confirmWrite r).

Definition noPatterns : SecurityPatterns :=
  {| commands := None; paths := None |}.

Definition emptyPatterns : SecurityPatterns :=
  {| commands := Some {| block := None; confirm := None |};
     paths := Some {| Validator.zeroAccess := None;
                      Validator.confirmWrite := None |} |}.

Definition pushBlock (p : SecurityPatterns) (v : string) :=
  {| commands := cs ← commands p;
                 Some {| block := Validator.push (block cs) v;
                         confirm := confirm cs |};
     paths := paths p |}.
Definition pushConfirm (p : SecurityPatterns) (v : string) :=
  {| commands := cs ← commands p;
                 Some {| block := block cs;
                         confirm := Validator.push (confirm cs) v |};
     paths := paths p |}.
Definition pushZeroAccess (p : SecurityPatterns) (v : string) :=
  {| commands := commands p;
     paths := rs ← paths p;
              Some {| Validator.zeroAccess :=
                        Validator.push (Validator.zeroAccess rs) v;
                      Validator.confirmWrite := Validator.confirmWrite rs |} |}.
Definition pushConfirmWrite (p : SecurityPatterns) (v : string) :=
  {| commands := commands p;
     paths := rs ← paths p;
              Some {| Validator.zeroAccess := Validator.zeroAccess rs;
                      Validator.confirmWrite :=
                        Validator.push (Validator.confirmWrite rs) v |} |}.

Section WithEnvironment.
Variable home : string.
Variable cwd : string.
Variable RegExp : string -> string -> option (string -> bool).

Abbreviation expandPath := (Paths.expandPath home).
Abbreviation resolve := (Paths.resolve cwd).

Record Scan := {
  patterns : SecurityPatterns;
  currentSection : string;
  currentSubSection : string
}.

Definition scanLine (st : Scan) (line : string) : Scan :=
  let trimmed := Str.trim line in
  if String.eqb trimmed "" || Str.startsWith trimmed "#" then st
  else if String.eqb trimmed "commands:" then
    {| patterns := patterns st; currentSection := "commands";
       currentSubSection := currentSubSection st |}
  else if String.eqb trimmed "paths:" then
    {| patterns := patterns st; currentSection := "paths";
       currentSubSection := currentSubSection st |}
  else if Str.endsWith trimmed ":" && negb (Str.startsWith trimmed "-") then
    {| patterns := patterns st; currentSection := currentSection st;
       currentSubSection := Str.trim (Validator.dropLast trimmed) |}
  else if Str.startsWith trimmed "- " then
    let value := Validator.stripQuotes (Str.drop 2 trimmed) in
    let store p := {| patterns := p; currentSection := currentSection st;
                      currentSubSection := currentSubSection st |} in
    if String.eqb (currentSection st) "commands" then
      if String.eqb (currentSubSection st) "block" then
        store (pushBlock (patterns st) value)
      else if String.eqb (currentSubSection st) "confirm" then
        store (pushConfirm (patterns st) value)
      else st
    else if String.eqb (currentSection st) "paths" then
      if String.eqb (currentSubSection st) "zeroAccess" then
        store (pushZeroAccess (patterns st) (expandPath value))
      else if String.eqb (currentSubSection st) "confirmWrite" then
        store (pushConfirmWrite (patterns st) value)
      else st
    else st
  else st.

(** [loadPatterns]: the [catch] logs the failure and returns [{}]. *)
Definition loadPatterns (file : File) : SecurityPatterns :=
  match file with
  | Missing => noPatterns
  | Unreadable => noPatterns
  | Contents content =>
      patterns
        (fold_left scanLine (Str.split (ascii_of_nat 10) content)
           {| patterns := emptyPatterns; currentSection := "";
              currentSubSection := "" |})
  end.

(** [new RegExp(pattern).test(cmd)] inside [try]: a pattern that does not
    compile matches nothing. *)
Definition testPattern (cmd pattern : string) : bool :=
  match RegExp pattern "" with
  | Some test => test cmd
  | None => false
  end.

Definition checkBash (input : HookInput) (ps : SecurityPatterns)
  : option Outcome :=
  if negb (String.eqb (Validator.tool_name input) "Bash") then None
  else
    match extractCommand (Validator.tool_input input) with
    | None => None
    | Some cmd =>
        if String.eqb cmd "" then None
        else
          match find (testPattern cmd) (blockOf ps) with
          | Some pattern =>
              Some (emit (Verdict Block
                ("Blocked by security policy: command matches "
                   +:+ dq +:+ pattern +:+ dq)))
          | None =>
              match find (testPattern cmd) (confirmOf ps) with
              | Some pattern =>
                  Some (emit (Verdict Ask
                    ("Security check: command matches "
                       +:+ dq +:+ pattern +:+ dq +:+ ". Proceed?")))
              | None => None
              end
          end
    end.

Definition checkPath (input : HookInput) (ps : SecurityPatterns)
  : option Outcome :=
  match extractPath (Validator.tool_input input) with
  | None => None
  | Some filePath =>
      if String.eqb filePath "" then None
      else
        let expanded := resolve (expandPath filePath) in
        if existsb (fun protected_path =>
                      Str.startsWith expanded (resolve protected_path))
             (zeroAccessOf ps)
        then Some (emit (Verdict Block
               ("Blocked: " +:+ dq +:+ filePath +:+ dq
                  +:+ " is in a protected path")))
        else if (String.eqb (Validator.tool_name input) "Write"
                 || String.eqb (Validator.tool_name input) "Edit")
                && existsb (fun confirmPath =>
                              Str.includes filePath confirmPath)
                     (confirmWriteOf ps)
        then Some (emit (Verdict Ask
               ("Security check: writing to " +:+ dq +:+ filePath +:+ dq
                  +:+ ". Proceed?")))
        else None
  end.

Definition run (raw : json) (file : File) : Outcome :=
  match validateInput raw with
  | None => hardExit
  | Some input =>
      let ps := loadPatterns file in
      match checkBash input ps with
      | Some o => o
      | None =>
          match checkPath input ps with
          | Some o => o
          | None => emit Continue
          end
      end
  end.

End WithEnvironment.

End LegacyValidator.

(** ** The skill activation evaluator, [hooks/skill-eval.hook.ts] *)

Module SkillEval.
Import Json Host Num.

(** A computation that may throw. *)
Inductive Result (A : Type) :=
| Ok (a : A)
| Throw.
Arguments Ok {A} a.
Arguments Throw {A}.

#[global] Instance result_ret : MRet Result := fun _ a => Ok a.
#[global] Instance result_bind : MBind Result := fun _ _ f m =>
  match m with
  | Ok a => f a
  | Throw => Throw
  end.

Record Weights := {
  keyword : number;
  pattern : number;
  directory : number;
  intent : number;
  filePath : number;
  content : number
}.

(** [Partial<Weights>] *)
Record PartialWeights := {
  keyword' : option number;
  pattern' : option number;
  directory' : option number;
  intent' : option number;
  filePath' : option number;
  content' : option number
}.

Record Triggers := {
  keywords : option (list string);
  patterns : option (list string);
  fileTypes : option (list string);
  directories : option (list string);
  intents : option (list string);
  contentPatterns : option (list string)
}.

Inductive RuleType := proactive | reactive | guard.
Inductive Enforcement := suggest | inject | require.

Record Rule := {
  skill : string;
  type : RuleType;
  enforcement : Enforcement;
  priority : option number;
  triggers : Triggers;
  weights : option PartialWeights;
  threshold : option number;
  suggestion : string;
  cooldown : option number
}.

Record Defaults := {
  defaultWeights : Weights;
  defaultThreshold : number
}.

Record Exclusions := {
  prefixes : list string;
  exclusionPatterns : list string
}.

Record Settings := {
  maxSuggestions : Z;
  showScores : bool
}.

Record SkillRules := {
  version : string;
  defaults : Defaults;
  rules : list Rule;
  exclusions : Exclusions;
  settings : Settings
}.

Record ScoredMatch := {
  rule : Rule;
  normalizedScore : number;
  finalScore : number
}.

(** One entry of [dims] in [scoreRule]. *)
Record Dim := {
  count : nat;
  total : nat;
  weight : number
}.

(** [a ?? b] *)
Definition orDefault {A} (a : option A) (b : A) : A :=
  match a with
  | Some x => x
  | None => b
  end.

(** [{ ...defaultWeights, ...rule.weights }] *)
Definition mergeWeights (d : Weights) (o : option PartialWeights) : Weights :=
  match o with
  | None => d
  | Some w =>
      {| keyword := orDefault (keyword' w) (keyword d);
         pattern := orDefault (pattern' w) (pattern d);
         directory := orDefault (directory' w) (directory d);
         intent := orDefault (intent' w) (intent d);
         filePath := orDefault (filePath' w) (filePath d);
         content := orDefault (content' w) (content d) |}
  end.

(** The characters [escapeRegex] puts a backslash before. *)
Definition isRegexSpecial (c : ascii) : bool :=
  existsb (Ascii.eqb c)
    [ "."; "*"; "+"; "?"; "^"; "$"; "{"; "}"; "("; ")"; "|"; "["; "]"; "\" ]%char.

Fixpoint escapeRegex (s : string) : string :=
  match s with
  | EmptyString => EmptyString
  | String c s' =>
      if isRegexSpecial c then String "\" (String c (escapeRegex s'))
      else String c (escapeRegex s')
  end.

Definition intentKeywords : list (string * list string) :=
  [ ("debug",    ["bug"; "error"; "fix"; "broken"; "crash"; "fail"; "debug"; "issue"]);
    ("create",   ["create"; "new"; "add"; "build"; "scaffold"; "generate"; "init"]);
    ("deploy",   ["deploy"; "ship"; "release"; "publish"; "push"; "launch"]);
    ("test",     ["test"; "spec"; "coverage"; "assert"; "expect"; "tdd"]);
    ("refactor", ["refactor"; "clean"; "reorganize"; "restructure"; "simplify"]);
    ("research", ["research"; "investigate"; "explore"; "understand"; "analyze"]);
    ("review",   ["review"; "feedback"; "check"; "audit"; "inspect"]);
    ("extend",   ["extend"; "plugin"; "hook"; "skill"; "customize"; "configure"]);
    ("capture",  ["note"; "capture"; "remember"; "save"; "jot"; "log"; "record"]) ].

(** The properties every object literal inherits. [intentKeywords[name]]
    is one of them for these names: a value that is truthy and cannot be
    iterated, so the loop over it throws. *)
Definition inheritedNames : list string :=
  [ "constructor"; "hasOwnProperty"; "isPrototypeOf"; "propertyIsEnumerable";
    "toLocaleString"; "toString"; "valueOf"; "__proto__";
    "__defineGetter__"; "__defineSetter__";
    "__lookupGetter__"; "__lookupSetter__" ].

Fixpoint assoc {A} (k : string) (l : list (string * A)) : option A :=
  match l with
  | [] => None
  | (k', v) :: rest => if String.eqb k k' then Some v else assoc k rest
  end.

(** The number of elements of [l] that satisfy [f]: a loop that counts. *)
Definition countIf {A} (f : A -> bool) (l : list A) : nat :=
  length (filter (fun x => f x = true) l).

Definition matchDirectories (cwd : string) (directories : list string) : nat :=
  countIf (fun dir => Str.includes cwd dir) directories.

Definition matchFileTypes (prompt : string) (fileTypes : list string) : nat :=
  countIf (fun ft => Str.includes prompt ft) fileTypes.

Fixpoint matchIntents_go (lower : string) (intents : list string)
  : Result nat :=
  match intents with
  | [] => Ok 0
  | intent :: rest =>
      match assoc intent intentKeywords with
      | Some family =>
          n ← matchIntents_go lower rest;
          Ok (if existsb (fun word => Str.includes lower word) family
              then S n else n)
      | None =>
          if existsb (String.eqb intent) inheritedNames then Throw
          else matchIntents_go lower rest
      end
  end.

(** The cooldown table and the clock: [Date.now()] is read several times
    in one run, the [n]-th reading being [clock n]. *)
Record World := {
  cooldownMap : gmap string number;
  ticks : nat
}.

Section WithEnvironment.
(** [process.cwd()], [new RegExp(pattern, flags)] (as for the validator),
    the clock, [Number.prototype.toFixed(0)], the state of the [SKILL.md]
    of each skill, and [JSON.parse] at the type the program gives its
    result. *)
Variable cwd : string.
Variable RegExp : string -> string -> option (string -> bool).
Variable clock : nat -> number.
Variable toFixed0 : number -> string.
Variable skillFile : string -> File.
Variable JSON_parse : string -> option SkillRules.

(** [String.prototype.toLowerCase], which lowers every cased letter of
    Unicode and is the engine's. *)
Variable toLowerCase : string -> string.

(** The engine's [Array.prototype.sort] for a comparison that is not an
    order: given the final scores of the matches in the order of the
    array, the positions to take them from, one after the other (see
    [arrange]). *)
Variable sortOrder : list number -> list nat.

Definition matchIntents (prompt : string) (intents : list string)
  : Result nat :=
  matchIntents_go (toLowerCase prompt) intents.

Definition Date_now (w : World) : number * World :=
  (clock (ticks w), {| cooldownMap := cooldownMap w; ticks := S (ticks w) |}).

Definition isOnCooldown (skill : string) (cooldownSeconds : number)
  (w : World) : bool * World :=
  match cooldownMap w !! skill with
  | None => (false, w)
  | Some lastFired =>
      if falsy lastFired then (false, w)
      else
        let (now, w') := Date_now w in
        ((now - lastFired <? cooldownSeconds * 1000)%float, w')
  end.

Definition recordFire (skill : string) (w : World) : World :=
  let (now, w') := Date_now w in
  {| cooldownMap := <[skill := now]> (cooldownMap w'); ticks := ticks w' |}.

(** [new RegExp(...)] outside any [try]: a failure to compile throws. *)
Fixpoint matchKeywords_go (lower : string) (keywords : list string)
  : Result nat :=
  match keywords with
  | [] => Ok 0
  | kw :: rest =>
      match RegExp ("\b" +:+ escapeRegex kw +:+ "\b") "i" with
      | Some test =>
          n ← matchKeywords_go lower rest;
          Ok (if test lower then S n else n)
      | None => Throw
      end
  end.

Definition matchKeywords (prompt : string) (keywords : list string)
  : Result nat :=
  matchKeywords_go (toLowerCase prompt) keywords.

(** [new RegExp(pat, 'i').test(text)] inside [try]: a pattern that does
    not compile is skipped. *)
Definition testPattern (text pat : string) : bool :=
  match RegExp pat "i" with
  | Some test => test text
  | None => false
  end.

Definition matchPatterns (prompt : string) (patterns : list string) : nat :=
  countIf (testPattern prompt) patterns.

(** [if (list?.length) dims.push(d)] *)
Definition present {A} (l : option (list A)) : option (list A) :=
  match l with
  | Some (x :: l') => Some (x :: l')
  | _ => None
  end.

Definition dimOf {A} (l : option (list A)) (f : list A -> Result nat)
  (w : number) : Result (list Dim) :=
  match present l with
  | Some l' => n ← f l'; Ok [ {| count := n; total := length l'; weight := w |} ]
  | None => Ok []
  end.

Definition dimensions (prompt : string) (t : Triggers) (w : Weights)
  : Result (list Dim) :=
  k ← dimOf (keywords t) (matchKeywords prompt) (keyword w);
  p ← dimOf (patterns t) (fun l => Ok (matchPatterns prompt l)) (pattern w);
  d ← dimOf (directories t) (fun l => Ok (matchDirectories cwd l)) (directory w);
  i ← dimOf (intents t) (matchIntents prompt) (intent w);
  f ← dimOf (fileTypes t) (fun l => Ok (matchFileTypes prompt l)) (filePath w);
  Ok (k ++ p ++ d ++ i ++ f).

Definition totalMatches (dims : list Dim) : nat :=
  fold_left (fun s d => s + count d) dims 0.
Definition rawScore (dims : list Dim) : number :=
  fold_left (fun s d => s + ofNat (count d) * weight d)%float dims 0%float.
Definition maxScore (dims : list Dim) : number :=
  fold_left (fun s d => s + ofNat (total d) * weight d)%float dims 0%float.

Definition scoreRule (prompt : string) (rule : Rule)
  (defaultWeights : Weights) (defaultThreshold : number)
  : Result (option ScoredMatch) :=
  let weights := mergeWeights defaultWeights (weights rule) in
  let threshold := orDefault (threshold rule) defaultThreshold in
  dims ← dimensions prompt (triggers rule) weights;
  if Nat.eqb (length dims) 0 then Ok None
  else if Nat.eqb (totalMatches dims) 0 then Ok None
  else
    let normalizedScore := (rawScore dims / maxScore dims * 100)%float in
    if (normalizedScore <? threshold)%float then Ok None
    else
      let priority := orDefault (priority rule) 5%float in
      let finalScore := (normalizedScore * (priority / 10))%float in
      Ok (Some {| rule := rule; normalizedScore := normalizedScore;
                  finalScore := finalScore |}).

Definition isExcluded (prompt : string) (e : Exclusions) : bool :=
  let trimmed := toLowerCase (Str.trim prompt) in
  existsb (fun prefix => Str.startsWith trimmed (toLowerCase prefix))
    (prefixes e)
  || existsb (testPattern trimmed) (exclusionPatterns e).

Definition loadSkillContext (skillName : string) : option string :=
  match skillFile skillName with
  | Contents c => Some c
  | _ => None
  end.

(** [rule.cooldown &&]: present and truthy *)
Definition hasCooldown (r : Rule) : option number :=
  match cooldown r with
  | Some c => if falsy c then None else Some c
  | None => None
  end.

(** The loop of [main] over [rules.rules], which fills [matches]. *)
Fixpoint collect (prompt : string) (d : Defaults) (rs : list Rule) (w : World)
  : Result (list ScoredMatch * World) :=
  match rs with
  | [] => Ok ([], w)
  | r :: rest =>
      match type r with
      | proactive =>
          let (cooling, w1) :=
            match hasCooldown r with
            | Some c => isOnCooldown (skill r) c w
            | None => (false, w)
            end in
          if cooling then collect prompt d rest w1
          else
            scored ← scoreRule prompt r (defaultWeights d) (defaultThreshold d);
            '(ms, w2) ← collect prompt d rest w1;
            Ok (match scored with
                | Some m => m :: ms
                | None => ms
                end, w2)
      | _ => collect prompt d rest w
      end
  end.

(** What the loop collects: the matches of proactive rules of the list
    that were not on cooldown when they were considered. The table is not
    touched. *)
Definition Considered (prompt : string) (d : Defaults) (rs : list Rule)
  (w : World) (m : ScoredMatch) : Prop :=
  In (rule m) rs /\
  type (rule m) = proactive /\
  scoreRule prompt (rule m) (defaultWeights d) (defaultThreshold d)
    = Ok (Some m) /\
  forall c, hasCooldown (rule m) = Some c ->
    exists w0, cooldownMap w0 = cooldownMap w /\ ticks w <= ticks w0 /\
               (isOnCooldown (skill (rule m)) c w0).1 = false.

(** The comparison function of the sort. *)
Definition compareFn (a b : ScoredMatch) : number :=
  (finalScore b - finalScore a)%float.

(** The stable sort: it keeps the order of two matches unless the
    comparison of the earlier with the later is positive ([NaN], which
    the sort takes as zero, is not). *)
Fixpoint insertSorted (x : ScoredMatch) (l : list ScoredMatch)
  : list ScoredMatch :=
  match l with
  | [] => [x]
  | y :: l' =>
      if (0 <? compareFn x y)%float then y :: insertSorted x l'
      else x :: y :: l'
  end.

Fixpoint sortStable (l : list ScoredMatch) : list ScoredMatch :=
  match l with
  | [] => []
  | x :: l' => insertSorted x (sortStable l')
  end.

(** No final score is [NaN]: the comparison function is then an order
    on the matches, final score descending (two infinite scores of the
    same sign give [NaN], which the sort takes as zero: they are
    equal). *)
Definition comparable (l : list ScoredMatch) : bool :=
  forallb (fun m => negb (PrimFloat.is_nan (finalScore m))) l.

(** The element of [l] at position [i], the last one if [l] is shorter,
    and the others in their order. *)
Fixpoint pick {A} (i : nat) (l : list A) {struct l} : option (A * list A) :=
  match l with
  | [] => None
  | x :: l' =>
      match i with
      | O => Some (x, l')
      | S j =>
          match pick j l' with
          | Some (y, rest) => Some (y, x :: rest)
          | None => Some (x, l')
          end
      end
  end.

(** The elements of [l] taken from the positions [order] names, each
    position counted in what is left; what is left at the end follows in
    its order. Every rearrangement of [l] is [arrange order l] for some
    [order], and nothing else is. *)
Fixpoint arrange {A} (order : list nat) (l : list A) : list A :=
  match order with
  | [] => l
  | i :: order' =>
      match pick i l with
      | Some (x, rest) => x :: arrange order' rest
      | None => []
      end
  end.

(** [matches.sort((a, b) => b.finalScore - a.finalScore)]. When the
    comparison function is an order the result is that of the stable
    sort, in every engine. With a [NaN] among the final scores it is not
    an order, and the result is the rearrangement the engine makes. *)
Definition sort (l : list ScoredMatch) : list ScoredMatch :=
  if comparable l then sortStable l
  else arrange (sortOrder (map finalScore l)) l.

(** [a.slice(0, n)] for an integer [n] *)
Definition slice0 {A} (l : list A) (n : Z) : list A :=
  if (n <? 0)%Z then take (Z.to_nat (Z.of_nat (length l) + n)) l
  else take (Z.to_nat n) l.

(** [top]: the matches that are shown, in the order they are shown. *)
Definition ranked (s : Settings) (matches : list ScoredMatch)
  : list ScoredMatch :=
  slice0 (sort matches) (maxSuggestions s).

Definition nl : string := String (ascii_of_nat 10) EmptyString.

(** The text pushed on [parts] for one match. *)
Definition part (s : Settings) (m : ScoredMatch) : string :=
  let scoreStr :=
    if showScores s
    then " [score: " +:+ toFixed0 (normalizedScore m) +:+ "]"
    else "" in
  let hint := "Skill suggestion: " +:+ suggestion (rule m) +:+ scoreStr in
  match enforcement (rule m) with
  | inject =>
      match loadSkillContext (skill (rule m)) with
      | Some ctx =>
          if String.eqb ctx "" then hint
          else "--- Auto-loaded skill: " +:+ skill (rule m) +:+ scoreStr
                 +:+ " ---" +:+ nl +:+ ctx
      | None => hint
      end
  | require =>
      "REQUIRED: " +:+ suggestion (rule m) +:+ scoreStr +:+ nl
        +:+ "Please acknowledge before proceeding."
  | suggest => hint
  end.

(** The loop of [main] over [top]: each match fires, then is rendered. *)
Fixpoint fireAll (top : list ScoredMatch) (w : World) : World :=
  match top with
  | [] => w
  | m :: rest => fireAll rest (recordFire (skill (rule m)) w)
  end.

Definition render (s : Settings) (top : list ScoredMatch) : string :=
  "<system-reminder>" +:+ nl +:+ Str.join (nl +:+ nl) (map (part s) top)
    +:+ nl +:+ "</system-reminder>".

(** A run of the hook: what it printed, its exit status, and the table
    and clock it leaves. *)
Record Run := {
  printed : option string;
  status : Z;
  world : World
}.

Definition silent (w : World) : Run :=
  {| printed := None; status := 0; world := w |}.

(** [input?.prompt] as [main] goes on with it. A prompt that is absent or
    falsy ends the run at once; a truthy prompt that is not a string ends
    it no later than [prompt.trim()] in [isExcluded], whose [TypeError]
    the final [catch] turns into the same silent exit. *)
Definition promptOf (raw : json) : option string :=
  match getProp raw "prompt" with
  | Some (JStr p) => if String.eqb p "" then None else Some p
  | _ => None
  end.

(** [main] up to the choice of [top]: either the run ends with nothing to
    show, or [top] has been computed from the parsed rules. [raw] is what
    [readStdin] returned, [file] the state of [skills/skill-rules.json],
    [w] the cooldown table and the clock at the start. *)
Inductive Stage :=
| Quiet (w : World)
| Ranked (s : Settings) (top : list ScoredMatch) (w : World).

Definition evaluate (raw : json) (file : File) (w : World) : Stage :=
  match promptOf raw with
  | None => Quiet w
  | Some prompt =>
      match file with
      | Missing => Quiet w
      | Unreadable => Quiet w
      | Contents text =>
          match JSON_parse text with
          | None => Quiet w
          | Some rules =>
              if isExcluded prompt (exclusions rules) then Quiet w
              else
                match collect prompt (defaults rules) (SkillEval.rules rules) w with
                | Throw => Quiet w        (* [main().catch] *)
                | Ok ([], w1) => Quiet w1
                | Ok (matches, w1) =>
                    Ranked (settings rules)
                      (ranked (settings rules) matches) w1
                end
          end
      end
  end.

(** The matches [main] shows, in order: its [top]. *)
Definition selected (raw : json) (file : File) (w : World)
  : list ScoredMatch :=
  match evaluate raw file w with
  | Quiet _ => []
  | Ranked _ top _ => top
  end.

(** [main]: every match of [top] fires and is rendered, and the parts are
    printed if there are any. Every path ends in [process.exit(0)]. *)
Definition run (raw : json) (file : File) (w : World) : Run :=
  match evaluate raw file w with
  | Quiet w' => silent w'
  | Ranked s top w1 =>
      {| printed := match top with
                    | [] => None
                    | _ => Some (render s top)
                    end;
         status := 0;
         world := fireAll top w1 |}
  end.

End WithEnvironment.

End SkillEval.

(** ** The specification's wording, for comparison with the code *)

Module Wording.
Import Json Host.

(** *** Text normalizer: each home-directory token becomes [~] *)

(** A braced token [${HOME}] starts [s]. *)
Definition BracedAt (s : string) : Prop :=
  exists rest, s = "${HOME}" +:+ rest.

(** A bare token [$HOME] starts [s] and ends at a word boundary. *)
Definition BareAt (s : string) : Prop :=
  exists rest, s = "$HOME" +:+ rest /\ Str.headIsWord rest = false.

(** [TokensReplaced input output]: reading [input] from the left, each
    token is replaced by [~] and every other character is kept. *)
Inductive TokensReplaced : string -> string -> Prop :=
| TR_end :
    TokensReplaced "" ""
| TR_braced rest out :
    TokensReplaced rest out ->
    TokensReplaced ("${HOME}" +:+ rest) ("~" +:+ out)
| TR_bare rest out :
    Str.headIsWord rest = false ->
    TokensReplaced rest out ->
    TokensReplaced ("$HOME" +:+ rest) ("~" +:+ out)
| TR_keep c rest out :
    ~ BracedAt (String c rest) ->
    ~ BareAt (String c rest) ->
    TokensReplaced rest out ->
    TokensReplaced (String c rest) (String c out).

(** *** Paths *)

(** The canonical path [canon] is the protected path [prot] or lies
    below it. *)
Definition Under (canon prot : string) : Prop :=
  canon = prot \/ prot = "/" \/ exists rest, canon = prot +:+ "/" +:+ rest.

(** The home directory is an absolute path and has no dollar sign in it
    (a dollar sign in a replacement text is not taken literally). *)
Definition PlainHome (home : string) : Prop :=
  Str.startsWith home "/" = true /\
  Str.allChars (fun c => negb (Ascii.eqb c "$")) home = true.

(** What can follow a home-directory token at the head of a path:
    nothing, or a slash and the rest. *)
Definition FollowsToken (rest : string) : Prop :=
  rest = "" \/ exists r, rest = "/" +:+ r.

(** A segment of a path that is a name: not empty, not [.] or [..], and
    without a slash. *)
Definition PlainSegment (seg : string) : Prop :=
  seg <> "" /\ seg <> "." /\ seg <> ".." /\
  Str.allChars (fun c => negb (Ascii.eqb c "/")) seg = true.

(** *** Pattern lists *)

(** [p] is the first pattern of [ps], in the order declared, that matches
    [text]. *)
Definition FirstMatch (ps : list Validator.CompiledPattern) (text : string)
  (p : Validator.CompiledPattern) : Prop :=
  exists before after,
    ps = before ++ p :: after /\
    Validator.regex p text = true /\
    Forall (fun q => Validator.regex q text = false) before.

Definition NoMatch (ps : list Validator.CompiledPattern) (text : string)
  : Prop :=
  Forall (fun q => Validator.regex q text = false) ps.

(** The three answers of the validator to a command. *)
Definition blockedBy (p : Validator.CompiledPattern) : Outcome :=
  emit (Verdict Block
          ("Blocked by security policy: command matches "
             +:+ dq +:+ Validator.source p +:+ dq)).

Definition blockedForPath : Outcome :=
  emit (Verdict Block
          "Blocked by security policy: command references a protected path").

Definition askedBy (p : Validator.CompiledPattern) : Outcome :=
  emit (Verdict Ask
          ("Security check: command matches "
             +:+ dq +:+ Validator.source p +:+ dq +:+ ". Proceed?")).

(** *** Malformed input of the security validator *)

(** A field that is absent or is not a string. *)
Definition NotAString (field : option json) : Prop :=
  forall s, field <> Some (JStr s).

(** A field that is absent, [null], a truth value, a number or a string.
    What is left is an object or a list: a list is an object to
    [typeof]. *)
Definition NotAnObject (field : option json) : Prop :=
  match field with
  | Some (JObj _) | Some (JArr _) => False
  | _ => True
  end.

(** The payload is not an object with members of its own, or it lacks
    [tool_name], [session_id] or [tool_input], or has one of them of the
    wrong type. *)
Definition MalformedPayload (raw : json) : Prop :=
  match raw with
  | JObj members =>
      NotAString (lookupLast "tool_name" members)
      \/ NotAString (lookupLast "session_id" members)
      \/ NotAnObject (lookupLast "tool_input" members)
  | _ => True
  end.

(** A [Write], [Edit] or [Read] invocation that carries the non-empty
    string [fp] as its [file_path]. *)
Definition PathInvocation (raw : json) (fp : string) : Prop :=
  exists input,
    Validator.validateInput raw = Some input /\
    (Validator.tool_name input = "Write"
     \/ Validator.tool_name input = "Edit"
     \/ Validator.tool_name input = "Read") /\
    Validator.extractPath (Validator.tool_input input) = Some fp /\
    fp <> "".


(** The host does not run the tool: the hook printed a block decision, or
    it ended with the status 2 that the host takes as a block. *)
Definition Blocked (o : Outcome) : Prop :=
  decisionOf o = Some Block \/ exitCode o = 2%Z.

(** *** Activation rules *)

(** No trigger dimension of the rule has a match. *)
Definition NoDimensionMatched (dims : list SkillEval.Dim) : Prop :=
  Forall (fun d => SkillEval.count d = 0) dims.

(** Every trigger list of the rule is absent or empty. *)
Definition NoTriggers (t : SkillEval.Triggers) : Prop :=
  SkillEval.present (SkillEval.keywords t) = None /\
  SkillEval.present (SkillEval.patterns t) = None /\
  SkillEval.present (SkillEval.directories t) = None /\
  SkillEval.present (SkillEval.intents t) = None /\
  SkillEval.present (SkillEval.fileTypes t) = None.

(** The rule has a cooldown and its skill is on cooldown during the run
    that starts in [w]: it fired, and less than the cooldown has passed at
    every reading of the clock from then on. *)
Definition OnCooldown (clock : nat -> Num.number) (w : SkillEval.World)
  (r : SkillEval.Rule) : Prop :=
  exists (c lastFired : Num.number),
    SkillEval.hasCooldown r = Some c /\
    SkillEval.cooldownMap w !! SkillEval.skill r = Some lastFired /\
    Num.falsy lastFired = false /\
    forall n, SkillEval.ticks w <= n ->
              (clock n - lastFired <? c * 1000)%float = true.

(** The skills of the matches shown. *)
Definition skillsOf (top : list SkillEval.ScoredMatch) : list string :=
  map (fun m => SkillEval.skill (SkillEval.rule m)) top.

(** *** Scores *)

(** The sum of [f d] over the dimensions [dims], taken in their order
    from zero. *)
Definition sumOver (f : SkillEval.Dim -> Num.number)
  (dims : list SkillEval.Dim) : Num.number :=
  fold_left (fun acc d => (acc + f d)%float) dims 0%float.

End Wording.

(** ** Sample surroundings and inputs *)

Module Sample.
Import Json Host.

(** A regular-expression engine for the expressions of the samples.
    A pattern made of letters, digits and spaces only matches where it
    occurs. The same between two [\b], as [matchKeywords] builds it,
    matches where it occurs as a whole word; with the flag [i] letters
    match in either case. Any other pattern is refused. *)
Definition plainChar (c : ascii) : bool :=
  Str.isWordChar c || Ascii.eqb c " ".

Definition lastIsWord (prev : bool) (s : string) : bool :=
  match String.rev s with
  | EmptyString => prev
  | String c _ => Str.isWordChar c
  end.

(** [\b lit \b] at the head of [s], the character before being a word
    character or not according to [prev]. *)
Definition wordAt (prev : bool) (lit s : string) : bool :=
  match Str.stripPrefix lit s with
  | Some rest =>
      xorb prev (Str.headIsWord s)
      && xorb (lastIsWord prev lit) (Str.headIsWord rest)
  | None => false
  end.

Fixpoint wordIn (prev : bool) (lit s : string) : bool :=
  wordAt prev lit s ||
  match s with
  | EmptyString => false
  | String c s' => wordIn (Str.isWordChar c) lit s'
  end.

Definition fold (flags s : string) : string :=
  if Str.includes flags "i" then Str.asciiLower s else s.

Definition plainRegExp (pattern flags : string) : option (string -> bool) :=
  if Str.allChars plainChar pattern then
    Some (fun text => Str.includes (fold flags text) (fold flags pattern))
  else
    match Str.stripPrefix "\b" pattern with
    | Some rest =>
        let lit := Validator.dropLast (Validator.dropLast rest) in
        if Str.endsWith rest "\b" && Str.allChars plainChar lit then
          Some (fun text => wordIn false (fold flags lit) (fold flags text))
        else None
    | None => None
    end.

Definition home : string := "/home/u".
Definition cwd : string := "/work".

(** A [patterns.yaml] with one rule of each kind. *)
Definition patternsYaml : string :=
"commands:
  block:
    - mkfs
  confirm:
    - git push
paths:
  zeroAccess:
    - ~/.ssh
  confirmWrite:
    - .env
".

Definition payload (tool : string) (toolInput : list (string * json)) : json :=
  JObj [ ("tool_name", JStr tool);
         ("tool_input", JObj toolInput);
         ("session_id", JStr "s1") ].

(** The same once validated. *)
Definition inputOf (tool : string) (toolInput : list (string * json))
  : Validator.HookInput :=
  {| Validator.tool_name := tool;
     Validator.tool_input := JObj toolInput;
     Validator.session_id := "s1" |}.

(** What [loadPatterns] makes of [patternsYaml]. *)
Definition patterns : Validator.SecurityPatterns :=
  default Validator.noPatterns
    (Validator.loadPatterns home plainRegExp (Contents patternsYaml)).

Definition bash (command : string) : json :=
  payload "Bash" [ ("command", JStr command) ].

Definition onPath (tool path : string) : json :=
  payload tool [ ("file_path", JStr path) ].

(** Activation rules: a rule that matches a request to create something,
    a rule whose only trigger list is empty, a guard, and a rule whose
    skill fired a second ago. *)
Definition weights : SkillEval.Weights :=
  {| SkillEval.keyword := 2; SkillEval.pattern := 3;
     SkillEval.directory := 5; SkillEval.intent := 4;
     SkillEval.filePath := 1; SkillEval.content := 1 |}%float.

Definition triggersOf (kw intents : option (list string))
  : SkillEval.Triggers :=
  {| SkillEval.keywords := kw; SkillEval.patterns := None;
     SkillEval.fileTypes := None; SkillEval.directories := None;
     SkillEval.intents := intents; SkillEval.contentPatterns := None |}.

Definition ruleOf (skill : string) (type : SkillEval.RuleType)
  (t : SkillEval.Triggers) (cooldown : option Num.number) : SkillEval.Rule :=
  {| SkillEval.skill := skill; SkillEval.type := type;
     SkillEval.enforcement := SkillEval.suggest;
     SkillEval.priority := Some 7%float; SkillEval.triggers := t;
     SkillEval.weights := None; SkillEval.threshold := None;
     SkillEval.suggestion := "Use " +:+ skill;
     SkillEval.cooldown := cooldown |}.

Definition createSkill : SkillEval.Rule :=
  ruleOf "CreateSkill" SkillEval.proactive
    (triggersOf (Some ["skill"; "workflow"]) (Some ["create"])) (Some 60%float).

Definition idle : SkillEval.Rule :=
  ruleOf "Idle" SkillEval.proactive (triggersOf (Some []) None) None.

Definition guardian : SkillEval.Rule :=
  ruleOf "Guardian" SkillEval.guard (triggersOf None (Some ["create"])) None.

Definition deploy : SkillEval.Rule :=
  ruleOf "Deploy" SkillEval.proactive
    (triggersOf None (Some ["create"; "deploy"])) (Some 60%float).

Definition skillRules : SkillEval.SkillRules :=
  {| SkillEval.version := "1";
     SkillEval.defaults :=
       {| SkillEval.defaultWeights := weights;
          SkillEval.defaultThreshold := 30%float |};
     SkillEval.rules := [createSkill; idle; guardian; deploy];
     SkillEval.exclusions :=
       {| SkillEval.prefixes := ["/"; "hello"];
          SkillEval.exclusionPatterns := [] |};
     SkillEval.settings :=
       {| SkillEval.maxSuggestions := 3%Z; SkillEval.showScores := false |} |}.

(** The rules file holds [skillRules] when its text is [rules], and is
    not JSON otherwise. *)
Definition parseRules (text : string) : option SkillEval.SkillRules :=
  if String.eqb text "rules" then Some skillRules else None.

(** The clock stands still during a run; [Deploy] fired a second before. *)
Definition clock (n : nat) : Num.number := 1000000%float.

Definition world0 : SkillEval.World :=
  {| SkillEval.cooldownMap := {[ "Deploy" := 999000%float ]};
     SkillEval.ticks := 0 |}.

Definition toFixed0 (x : Num.number) : string := "".
Definition skillFile (skill : string) : File := Missing.

(** The sample texts are ASCII, which every engine lowers letter by
    letter. *)
Definition toLowerCase : string -> string := Str.asciiLower.

(** An engine that leaves the matches as they are when it cannot compare
    them. *)
Definition sortOrder (scores : list Num.number) : list nat := [].

Definition prompting (prompt : string) : json :=
  JObj [ ("prompt", JStr prompt); ("session_id", JStr "s1") ].

Definition request : string := "create a new skill for my project".

(** The dimensions of [createSkill] for [request]: one of two keywords
    and the one intent. *)
Definition requestDims : list SkillEval.Dim :=
  [ {| SkillEval.count := 1; SkillEval.total := 2; SkillEval.weight := 2%float |};
    {| SkillEval.count := 1; SkillEval.total := 1; SkillEval.weight := 4%float |} ].

Definition evalRun (prompt : string) (file : File) : SkillEval.Run :=
  SkillEval.run cwd plainRegExp clock toFixed0 skillFile parseRules
    toLowerCase sortOrder (prompting prompt) file world0.

Definition evalSelected (prompt : string) (file : File)
  : list SkillEval.ScoredMatch :=
  SkillEval.selected cwd plainRegExp clock parseRules toLowerCase sortOrder
    (prompting prompt) file world0.

End Sample.

(** ** What a hook that injects context hands back *)

Module Hook.

(** The text printed on standard output, if any, and the exit status. *)
Record Exit := {
  said : option string;
  code : Z
}.

(** [process.exit(0)] with nothing printed *)
Definition quiet : Exit := {| said := None; code := 0 |}.

(** [console.log(text); process.exit(0)] *)
Definition say (text : string) : Exit := {| said := Some text; code := 0 |}.

End Hook.

(** ** The format reminder, [hooks/format-enforcer.hook.ts] *)

Module FormatEnforcer.
Import Json Host Hook.

Definition SKIP_PREFIXES : list string :=
  ["/"; "hi"; "hello"; "hey"; "thanks"; "ok"; "yes"; "no"; "bye"].

Definition defaultFormat : string :=
"SUMMARY: [One sentence]
ACTIONS: [Steps taken]
RESULTS: [Outcomes]
NEXT: [Next steps]".

(** The first occurrence of [sep] in [s]: what precedes it and what
    follows it. *)
Fixpoint cut (sep s : string) : option (string * string) :=
  match Str.stripPrefix sep s with
  | Some after => Some (EmptyString, after)
  | None =>
      match s with
      | EmptyString => None
      | String c s' =>
          match cut sep s' with
          | Some (before, after) => Some (String c before, after)
          | None => None
          end
      end
  end.

(** A code fence, and the opening fence of the format block up to the
    word the block starts with. *)
Definition fence : string := "```".
Definition opening : string :=
"```
SUMMARY:".

(** [content.match(/```\n(SUMMARY:[\s\S]*?)```/)]: the group of the
    leftmost match, which is the shortest at its place. *)
Fixpoint formatMatch (content : string) : option string :=
  let later :=
    match content with
    | EmptyString => None
    | String _ rest => formatMatch rest
    end in
  match Str.stripPrefix opening content with
  | Some rest =>
      match cut fence rest with
      | Some (body, _) => Some ("SUMMARY:" +:+ body)
      | None => later
      end
  | None => later
  end.

(** The text printed around the format. *)
Definition reminder (format : string) : string :=
  "<system-reminder>" +:+ SkillEval.nl
  +:+ "Response format for task-based responses:" +:+ SkillEval.nl
  +:+ format +:+ SkillEval.nl
  +:+ "For simple answers, respond naturally." +:+ SkillEval.nl
  +:+ "</system-reminder>".

Section WithEngine.
(** [String.prototype.toLowerCase] *)
Variable toLowerCase : string -> string.

(** [main] once standard input has been read: [raw] is what [readStdin]
    returned, [claudeMd] the state of [CLAUDE.md]. A prompt that is
    truthy and not a string ends the run at [prompt.trim()], whose
    [TypeError] the final [catch] turns into a silent exit. *)
Definition main (raw : json) (claudeMd : File) : Exit :=
  match SkillEval.promptOf raw with
  | None => quiet
  | Some prompt =>
      let lower := toLowerCase (Str.trim prompt) in
      if existsb (fun p => Str.startsWith lower p) SKIP_PREFIXES then quiet
      else
        let format :=
          match claudeMd with
          | Contents content =>
              match formatMatch content with
              | Some block => Str.trim block
              | None => defaultFormat
              end
          | _ => defaultFormat
          end in
        say (reminder format)
  end.

End WithEngine.
End FormatEnforcer.

(** ** The identity loader, [hooks/lib/identity.ts] *)

Module Identity.
Import Json Host SkillEval.

(** [v.k] where [v] may be [null]: reading a property of [null] throws. *)
Definition member (v : json) (k : string) : Result (option json) :=
  match v with
  | JNull => Throw
  | _ => Ok (getProp v k)
  end.

(** [v?.k] *)
Definition optMember (v : option json) (k : string) : option json :=
  match v with
  | None | Some JNull => None
  | Some v' => getProp v' k
  end.

(** [a ?? b] *)
Definition orElse (a : option json) (b : json) : json :=
  match a with
  | None | Some JNull => b
  | Some v => v
  end.

Section WithParser.
Variable JSON_parse : string -> option json.

(** [load]: [cached] is the module's variable of that name, [null] at
    first; [file] is the state of [settings.json]. Gives the settings and
    the new value of [cached]. *)
Definition load (file : File) (cached : json) : json * json :=
  if truthy cached then (cached, cached)
  else
    match file with
    | Missing => (JObj [], cached)
    | Unreadable => (JObj [], cached)
    | Contents text =>
        match JSON_parse text with
        | Some v => (v, v)
        | None => (JObj [], cached)
        end
    end.

Definition getIdentityName (file : File) (cached : json)
  : Result json * json :=
  let (s, c) := load file cached in
  (identity ← member s "identity";
   Ok (orElse (optMember identity "name") (JStr "Assistant")), c).

Definition getDisplayName (file : File) (cached : json)
  : Result json * json :=
  let (s, c) := load file cached in
  match member s "identity" with
  | Throw => (Throw, c)
  | Ok identity =>
      match optMember identity "displayName" with
      | None | Some JNull => getIdentityName file c
      | Some v => (Ok v, c)
      end
  end.

Definition getPrincipalName (file : File) (cached : json)
  : Result json * json :=
  let (s, c) := load file cached in
  (principal ← member s "principal";
   Ok (orElse (optMember principal "name") (JStr "User")), c).

End WithParser.
End Identity.

(** ** The session context loader, [hooks/context-loader.hook.ts] *)

Module ContextLoader.
Import Json Host Hook SkillEval.

Section WithEnvironment.
(** [JSON.parse], and the text a value that is not a string takes in a
    template literal. *)
Variable JSON_parse : string -> option json.
Variable String_ : json -> string.

Definition display (v : json) : string :=
  match v with
  | JStr s => s
  | _ => String_ v
  end.

(** A file that is there and can be read gives one part; a file that
    cannot be read is logged and left out. *)
Definition filePart (title : string) (file : File) : list string :=
  match file with
  | Contents content => [title +:+ nl +:+ content]
  | _ => []
  end.

(** [main] once standard input has been read; [settings], [core] and
    [claudeMd] are the states of [settings.json], [skills/CORE/SKILL.md]
    and [CLAUDE.md]. The [cached] of the identity loader starts as
    [null]. *)
Definition main (raw : json) (settings core claudeMd : File) : Exit :=
  match getProp raw "session_id" with
  | None => quiet
  | Some sid =>
      if negb (truthy sid) then quiet
      else
        let (aiName, c) := Identity.getIdentityName JSON_parse settings JNull in
        let (userName, _) := Identity.getPrincipalName JSON_parse settings c in
        match aiName, userName with
        | Ok ai, Ok user =>
            let parts :=
              ("You are " +:+ display ai +:+ ", " +:+ display user
                 +:+ "'s AI assistant.")
              :: filePart "--- CORE Skill ---" core
              ++ filePart "--- Project Instructions ---" claudeMd in
            say ("<system-reminder>" +:+ nl +:+ Str.join (nl +:+ nl) parts
                   +:+ nl +:+ "</system-reminder>")
        | _, _ => quiet            (* [main().catch] *)
        end
  end.

End WithEnvironment.
End ContextLoader.

(** ** Terms of the further properties *)

Module Terms.
Import Json Host.

(** *** The pattern file *)

(** The lines of a file. *)
Definition linesOf (content : string) : list string :=
  Str.split (ascii_of_nat 10) content.

(** The value of a list entry [- value] of [patterns.yaml]. *)
Definition entryOf (line : string) : string :=
  Validator.stripQuotes (Str.drop 2 (Str.trim line)).

(** A line that is neither blank nor a comment. *)
Definition significant (line : string) : bool :=
  negb (String.eqb (Str.trim line) "" || Str.startsWith (Str.trim line) "#").

(** A list entry: a line that, white space around it aside, starts with
    a hyphen and a space. *)
Definition isEntry (line : string) : bool :=
  Str.startsWith (Str.trim line) "- ".

(** [v] is the value of a list entry among the [lines]. *)
Definition EntryOf (lines : list string) (v : string) : Prop :=
  exists line, In line lines /\ isEntry line = true /\ v = entryOf line.

(** Every rule of [ps] is a list entry of one of the [lines]: a command
    pattern is the entry compiled, a zero-access path the entry expanded,
    a confirm-write path the entry itself. *)
Definition FromLines (home : string)
  (RegExp : string -> string -> option (string -> bool))
  (lines : list string) (ps : Validator.SecurityPatterns) : Prop :=
  (forall p, In p (Validator.blockOf ps) \/ In p (Validator.confirmOf ps) ->
     EntryOf lines (Validator.source p) /\
     RegExp (Validator.source p) "" = Some (Validator.regex p))
  /\ (forall z, In z (Validator.zeroAccessOf ps) ->
        exists v, EntryOf lines v /\ z = Paths.expandPath home v)
  /\ (forall c, In c (Validator.confirmWriteOf ps) -> EntryOf lines c).

(** The scans of the two revisions are in the same section and have
    gathered the same path rules. *)
Definition SamePaths (a : Validator.Scan) (b : LegacyValidator.Scan) : Prop :=
  Validator.currentSection a = LegacyValidator.currentSection b /\
  Validator.currentSubSection a = LegacyValidator.currentSubSection b /\
  Validator.paths (Validator.patterns a)
  = LegacyValidator.paths (LegacyValidator.patterns b).

(** *** Home tokens in paths and commands *)

Definition homeTokens : list string := ["~"; "$HOME"; "${HOME}"].

(** No dollar sign occurs in [s]. *)
Definition dollarFree (s : string) : bool :=
  Str.allChars (fun c => negb (Ascii.eqb c "$")) s.

(** The characters a home token has after its dollar sign. *)
Definition insideToken (c : ascii) : bool :=
  existsb (Ascii.eqb c) [ "{"; "H"; "O"; "M"; "E"; "}" ]%char.

(** A text that no token can run into: its first character is not one a
    token has after its dollar sign. *)
Definition startsApart (x : string) : bool :=
  match x with
  | EmptyString => false
  | String c _ => negb (insideToken c)
  end.

(** The command spells the protected path [target]: as it is, or, when
    it lies below the home directory, with a home token in place of the
    home directory. *)
Definition Spells (home cwd : string) (cmd target : string) : Prop :=
  (exists pre post, cmd = pre +:+ target +:+ post)
  \/ (exists pre post tok r,
        In tok homeTokens /\
        target = Paths.resolve cwd (Paths.expandPath home "~") +:+ "/" +:+ r /\
        cmd = pre +:+ tok +:+ ("/" +:+ r) +:+ post).

(** The answer of the validator to a [Bash] invocation without a
    command. *)
Definition noCommand : Outcome :=
  emit (Verdict Block "Blocked: Bash command is missing or not a string").

(** *** White space around a text *)

(** A text of white space only, ASCII or not. *)
Inductive Blank : string -> Prop :=
| Blank_empty : Blank ""
| Blank_more (w s : string) :
    In w Str.whiteSpace -> Blank s -> Blank (w +:+ s).

(** A character of ASCII. *)
Definition isAsciiChar (c : ascii) : bool := nat_of_ascii c <? 128.

(** ASCII text. *)
Definition isAscii (s : string) : bool := Str.allChars isAsciiChar s.

(** A character of ASCII other than its white space (tab to carriage
    return, and the space). *)
Definition inked (c : ascii) : bool :=
  let n := nat_of_ascii c in
  isAsciiChar c && negb (((9 <=? n) && (n <=? 13)) || (n =? 32)).

(** An ASCII text that is not empty and neither starts nor ends with
    white space. *)
Definition solid (p : string) : bool :=
  isAscii p &&
  match p, String.rev p with
  | String a _, String z _ => inked a && inked z
  | _, _ => false
  end.

(** What [toLowerCase] makes of a text that starts with ASCII: the
    letters [A] to [Z] of that start become [a] to [z] and its other
    characters stay, whatever follows. Every engine does so; beyond ASCII
    the lowering of a letter can depend on its neighbours. *)
Definition LowersAscii (toLowerCase : string -> string) : Prop :=
  forall a b, isAscii a = true ->
    exists b', toLowerCase (a +:+ b) = Str.asciiLower a +:+ b'.

(** No backtick occurs in [s]. *)
Definition fenceFree (s : string) : bool :=
  Str.allChars (fun c => negb (Ascii.eqb c "`")) s.

(** *** Matches *)

(** The comparison function of the sort does not put [b] before [a]. *)
Definition InOrder (a b : SkillEval.ScoredMatch) : Prop :=
  (0 <? SkillEval.compareFn a b)%float = false.

(** The match the loop of [main] keeps for a rule that is not on
    cooldown, if it keeps one. *)
Definition kept (cwd : string)
  (RegExp : string -> string -> option (string -> bool))
  (toLowerCase : string -> string)
  (prompt : string) (d : SkillEval.Defaults) (r : SkillEval.Rule)
  : option SkillEval.ScoredMatch :=
  match SkillEval.type r with
  | SkillEval.proactive =>
      match SkillEval.scoreRule cwd RegExp toLowerCase prompt r
              (SkillEval.defaultWeights d) (SkillEval.defaultThreshold d) with
      | SkillEval.Ok (Some m) => Some m
      | _ => None
      end
  | _ => None
  end.

(** *** Settings *)

(** The settings file cannot be used: it is absent, cannot be read, or is
    not JSON. *)
Definition Unusable (JSON_parse : string -> option json) (file : File)
  : Prop :=
  file = Missing \/ file = Unreadable
  \/ exists text, file = Contents text /\ JSON_parse text = None.

End Terms.

(** ** Further sample inputs *)

Module Cases.
Import Json Host.

(** A byte order mark (U+FEFF) and a no-break space (U+00A0). *)
Definition byteOrderMark : string := Str.utf8 [ "239"; "187"; "191" ]%char.
Definition noBreakSpace : string := Str.utf8 [ "194"; "160" ]%char.

(** A margin of white space: a no-break space and a space. *)
Definition margin : string := noBreakSpace +:+ " ".

(** The sample pattern file with a byte order mark at its start, a
    comment, a blank line and other indentation. *)
Definition patternsYamlAnnotated : string :=
byteOrderMark +:+
"commands:
# what the validator refuses
    block:
  - mkfs

  confirm:
        - git push
paths:
  zeroAccess:
    - ~/.ssh
  # writes that need a yes
  confirmWrite:
    - .env
".

(** A pattern file whose section headers are misspelt. *)
Definition patternsYamlNoHeader : string :=
"Commands:
  block:
    - mkfs
".

(** A cooldown table without entries, as a process has it when it
    starts. *)
Definition fresh : SkillEval.World :=
  {| SkillEval.cooldownMap := ∅; SkillEval.ticks := 0 |}.

(** The match of [Sample.createSkill] for [Sample.request]. *)
Definition createSkillMatch : SkillEval.ScoredMatch :=
  {| SkillEval.rule := Sample.createSkill;
     SkillEval.normalizedScore := 75%float;
     SkillEval.finalScore := 52.5%float |}.

(** Rules among which one names the intent [constructor]. *)
Definition trap : SkillEval.Rule :=
  Sample.ruleOf "Trap" SkillEval.proactive
    (Sample.triggersOf None (Some ["constructor"])) None.

Definition trapRules : SkillEval.SkillRules :=
  {| SkillEval.version := "1";
     SkillEval.defaults := SkillEval.defaults Sample.skillRules;
     SkillEval.rules := [Sample.createSkill; trap];
     SkillEval.exclusions := SkillEval.exclusions Sample.skillRules;
     SkillEval.settings := SkillEval.settings Sample.skillRules |}.

Definition parseTrapRules (text : string) : option SkillEval.SkillRules :=
  if String.eqb text "trap" then Some trapRules else None.

(** A [CLAUDE.md] with a format block. *)
Definition claudeMd : string :=
"# Project

```
SUMMARY: one line
DONE: what changed
```
".

(** A [settings.json] that names the assistant and the principal. *)
Definition settingsValue : json :=
  JObj [ ("identity", JObj [ ("name", JStr "Hook") ]);
         ("principal", JObj [ ("name", JStr "Ada") ]) ].

Definition parseSettings (text : string) : option json :=
  if String.eqb text "settings" then Some settingsValue
  else if String.eqb text "null" then Some JNull
  else None.

Definition session : json := JObj [ ("session_id", JStr "s1") ].

(** The names of the samples are strings; no other value is displayed. *)
Definition String_ (v : json) : string := "".

End Cases.

(** * Properties *)

(** ** Facts about strings *)

Module StrFacts.
Import Str.

Lemma app_cons (a : ascii) (s t : string) :
  String a s +:+ t = String a (s +:+ t).
Proof. reflexivity. Qed.

Lemma app_nil_l (t : string) : "" +:+ t = t.
Proof. reflexivity. Qed.

Lemma stripPrefix_Some (p s r : string) :
  stripPrefix p s = Some r <-> s = p +:+ r.
Proof.
  revert s. induction p as [|a p IH]; intros s; simpl.
  - rewrite app_nil_l. split; congruence.
  - rewrite app_cons. destruct s as [|b s].
    + split; discriminate.
    + destruct (Ascii.eqb_spec a b) as [->|Hne].
      * rewrite IH. split; congruence.
      * split; [discriminate|]. intros H. inversion H. congruence.
Qed.

Lemma stripPrefix_cons (a b : ascii) (p s : string) :
  stripPrefix (String a p) (String b s) =
  if Ascii.eqb a b then stripPrefix p s else None.
Proof. reflexivity. Qed.

Lemma stripPrefix_app (p r : string) : stripPrefix p (p +:+ r) = Some r.
Proof. by apply stripPrefix_Some. Qed.

Lemma replaceAll_go_skip (m : Matcher) (rep : string) (n : nat) (s : string) :
  replaceAll_go m rep n s = replaceAll m rep (drop n s).
Proof.
  revert s. induction n as [|n IH]; intros s; [done|].
  destruct s as [|c s]; simpl; [done|]. apply IH.
Qed.

Lemma replaceAll_nil (m : Matcher) (rep : string) : replaceAll m rep "" = "".
Proof. reflexivity. Qed.

Lemma replaceAll_cons (m : Matcher) (rep : string) (c : ascii) (s : string) :
  replaceAll m rep (String c s) =
  match m (String c s) with
  | Some (S k) => rep +:+ replaceAll m rep (drop k s)
  | _ => String c (replaceAll m rep s)
  end.
Proof.
  unfold replaceAll at 1. simpl.
  destruct (m (String c s)) as [[|k]|]; try done.
  by rewrite replaceAll_go_skip.
Qed.

Lemma eqb_neq_str (a b : string) : a <> b -> String.eqb a b = false.
Proof. by intros H; apply String.eqb_neq. Qed.

Lemma app_assoc (a b c : string) : (a +:+ b) +:+ c = a +:+ (b +:+ c).
Proof. induction a as [|x a IH]; [done|]. by rewrite !app_cons, IH. Qed.

Lemma split_go_app (sep : ascii) (cur a b : string) :
  split_go sep cur (a +:+ String sep b) =
  split_go sep cur a ++ split_go sep "" b.
Proof.
  revert cur. induction a as [|c a IH]; intros cur.
  - rewrite app_nil_l. simpl. by rewrite Ascii.eqb_refl.
  - rewrite app_cons. simpl. destruct (Ascii.eqb c sep); [|apply IH].
    by rewrite IH.
Qed.

Lemma split_app (sep : ascii) (a b : string) :
  split sep (a +:+ String sep b) = split sep a ++ split sep b.
Proof. apply split_go_app. Qed.

Lemma split_go_plain (sep : ascii) (cur seg : string) :
  allChars (fun c => negb (Ascii.eqb c sep)) seg = true ->
  split_go sep cur seg = [String.rev (String.rev_app seg cur)].
Proof.
  revert cur. induction seg as [|c seg IH]; intros cur H; [done|].
  simpl in H. apply andb_prop in H as [Hc H]. apply negb_true_iff in Hc.
  simpl. rewrite Hc. by rewrite IH.
Qed.

Lemma rev_app_app (s t : string) :
  String.rev_app s t = String.rev s +:+ t.
Proof.
  revert t. unfold String.rev. induction s as [|c s IH]; intros t; [done|].
  simpl. rewrite IH, (IH (String c "")). by rewrite app_assoc.
Qed.

Lemma app_nil_r (s : string) : s +:+ "" = s.
Proof. induction s as [|c s IH]; [done|]. by rewrite app_cons, IH. Qed.

Lemma srev_app_distr (s t : string) :
  String.rev (s +:+ t) = String.rev t +:+ String.rev s.
Proof.
  induction s as [|c s IH].
  - by rewrite app_nil_l, app_nil_r.
  - rewrite app_cons. unfold String.rev at 1 3. simpl.
    rewrite !rev_app_app. fold (String.rev (s +:+ t)). rewrite IH.
    by rewrite app_assoc.
Qed.

Lemma srev_involutive (s : string) : String.rev (String.rev s) = s.
Proof.
  induction s as [|c s IH]; [done|].
  unfold String.rev at 2. simpl. rewrite rev_app_app, srev_app_distr, IH.
  done.
Qed.

Lemma split_plain (sep : ascii) (seg : string) :
  allChars (fun c => negb (Ascii.eqb c sep)) seg = true ->
  split sep seg = [seg].
Proof.
  intros H. unfold split. rewrite split_go_plain by done.
  by rewrite rev_app_app, app_nil_r, srev_involutive.
Qed.

End StrFacts.

(** ** The text normalizer *)

Module NormalizerFacts.
Import Str StrFacts Validator Wording.

Abbreviation B := (replaceAll bracedHome "~").
Abbreviation R := (replaceAll bareHome "~").

Lemma bracedHome_spec (s : string) :
  (bracedHome s = Some 7 /\ BracedAt s) \/ (bracedHome s = None /\ ~ BracedAt s).
Proof.
  unfold bracedHome, BracedAt.
  destruct (stripPrefix "${HOME}" s) as [r|] eqn:E.
  - left. split; [done|]. exists r. by apply stripPrefix_Some.
  - right. split; [done|]. intros [r Hr]. apply stripPrefix_Some in Hr. congruence.
Qed.

Lemma bareHome_spec (s : string) :
  (bareHome s = Some 5 /\ BareAt s) \/ (bareHome s = None /\ ~ BareAt s).
Proof.
  unfold bareHome, BareAt.
  destruct (stripPrefix "$HOME" s) as [r|] eqn:E.
  - apply stripPrefix_Some in E. destruct (headIsWord r) eqn:W.
    + right. split; [done|]. intros (r' & Hr & W'). subst s.
      apply (inj (String.app "$HOME")) in Hr. congruence.
    + left. split; [done|]. by exists r.
  - right. split; [done|]. intros (r & Hr & _).
    apply stripPrefix_Some in Hr. congruence.
Qed.

Lemma B_braced (r : string) : B ("${HOME}" +:+ r) = "~" +:+ B r.
Proof. reflexivity. Qed.

Lemma B_keep (c : ascii) (s : string) :
  bracedHome (String c s) = None -> B (String c s) = String c (B s).
Proof. intros H. by rewrite replaceAll_cons, H. Qed.

Lemma R_bare (r : string) :
  headIsWord r = false -> R ("$HOME" +:+ r) = "~" +:+ R r.
Proof.
  intros W. change ("$HOME" +:+ r) with (String "$" ("HOME" +:+ r)).
  rewrite replaceAll_cons.
  assert (bareHome (String "$" ("HOME" +:+ r)) = Some 5) as ->.
  { unfold bareHome. change (String "$" ("HOME" +:+ r)) with ("$HOME" +:+ r).
    by rewrite stripPrefix_app, W. }
  reflexivity.
Qed.

Lemma R_keep (c : ascii) (s : string) :
  bareHome (String c s) = None -> R (String c s) = String c (R s).
Proof. intros H. by rewrite replaceAll_cons, H. Qed.

Lemma bracedHome_head (c : ascii) (s : string) :
  c <> "$"%char -> bracedHome (String c s) = None.
Proof.
  intros Hc. unfold bracedHome. rewrite stripPrefix_cons.
  destruct (Ascii.eqb_spec "$" c); congruence.
Qed.

Lemma bareHome_head (c : ascii) (s : string) :
  c <> "$"%char -> bareHome (String c s) = None.
Proof.
  intros Hc. unfold bareHome. rewrite stripPrefix_cons.
  destruct (Ascii.eqb_spec "$" c); congruence.
Qed.

Lemma headIsWord_B (s : string) : headIsWord (B s) = headIsWord s.
Proof.
  destruct s as [|c s]; [done|].
  destruct (bracedHome_spec (String c s)) as [[_ [r Hr]]|[Hn _]].
  - rewrite Hr. reflexivity.
  - by rewrite B_keep.
Qed.

(** A prefix free of [$] and [~] is read through the first pass. *)
Lemma stripPrefix_B (p s : string) :
  allChars unmarked p = true ->
  stripPrefix p (B s) = B <$> stripPrefix p s.
Proof.
  revert s. induction p as [|a p IH]; intros s Hp; [done|].
  simpl in Hp. apply andb_prop in Hp as [Ha Hp].
  apply andb_prop in Ha as [Ha1 Ha2].
  apply negb_true_iff in Ha1, Ha2.
  destruct s as [|c s]; [done|].
  destruct (bracedHome_spec (String c s)) as [[_ [r Hr]]|[Hn _]].
  - rewrite Hr, B_braced, !app_cons, !stripPrefix_cons.
    by rewrite Ha1, Ha2.
  - rewrite B_keep by done. rewrite !stripPrefix_cons.
    destruct (Ascii.eqb a c); [by apply IH|done].
Qed.

Lemma bareHome_B (s : string) : bareHome (B s) = bareHome s.
Proof.
  destruct s as [|c s]; [done|].
  destruct (bracedHome_spec (String c s)) as [[_ [r Hr]]|[Hn _]].
  - rewrite Hr. reflexivity.
  - rewrite B_keep by done. unfold bareHome.
    rewrite !(stripPrefix_cons "$").
    destruct (Ascii.eqb "$" c); [|done].
    rewrite (stripPrefix_B "HOME") by done.
    destruct (stripPrefix "HOME" s) as [r|]; simpl; [|done].
    by rewrite headIsWord_B.
Qed.

Lemma normalize_nil : normalizeHomeTokens "" = "".
Proof. reflexivity. Qed.

Lemma normalize_braced (r : string) :
  normalizeHomeTokens ("${HOME}" +:+ r) = "~" +:+ normalizeHomeTokens r.
Proof.
  unfold normalizeHomeTokens. rewrite B_braced.
  change ("~" +:+ B r) with (String "~" (B r)).
  by rewrite R_keep by (by apply bareHome_head).
Qed.

Lemma B_plain (p r : string) :
  allChars unmarked p = true -> B (p +:+ r) = p +:+ B r.
Proof.
  induction p as [|a p IH]; intros Hp; [done|].
  simpl in Hp. apply andb_prop in Hp as [Ha Hp].
  apply andb_prop in Ha as [Ha1 _]. apply negb_true_iff in Ha1.
  rewrite !app_cons, B_keep, IH; [done..|].
  apply bracedHome_head. intros ->. done.
Qed.

Lemma normalize_bare (r : string) :
  headIsWord r = false ->
  normalizeHomeTokens ("$HOME" +:+ r) = "~" +:+ normalizeHomeTokens r.
Proof.
  intros W. unfold normalizeHomeTokens.
  rewrite (app_cons "$" "HOME" r), B_keep by done.
  rewrite (B_plain "HOME") by done.
  rewrite <- (app_cons "$" "HOME"). apply R_bare. by rewrite headIsWord_B.
Qed.

Lemma normalize_keep (c : ascii) (s : string) :
  ~ BracedAt (String c s) -> ~ BareAt (String c s) ->
  normalizeHomeTokens (String c s) = String c (normalizeHomeTokens s).
Proof.
  intros Hb Hr. unfold normalizeHomeTokens.
  destruct (bracedHome_spec (String c s)) as [[_ ?]|[Hn _]]; [done|].
  rewrite B_keep by done. apply R_keep.
  rewrite <- (B_keep c s) by done. rewrite bareHome_B.
  by destruct (bareHome_spec (String c s)) as [[_ ?]|[? _]].
Qed.

End NormalizerFacts.

Module NormalizerProofs.
Import Str StrFacts Validator Wording NormalizerFacts.

Lemma length_app (s t : string) :
  String.length (s +:+ t) = String.length s + String.length t.
Proof. induction s as [|a s IH]; [done|]. rewrite app_cons. simpl. by rewrite IH. Qed.

Lemma normalize_replaces_tokens (c : string) :
  TokensReplaced c (normalizeHomeTokens c).
Proof.
  remember (String.length c) as n eqn:Hn.
  revert c Hn. induction (lt_wf n) as [n _ IH]. intros c ->.
  destruct c as [|a s]; [constructor|].
  destruct (bracedHome_spec (String a s)) as [[_ Hb]|[_ Hb]].
  { destruct Hb as [r Hr]. rewrite Hr, normalize_braced.
    constructor. eapply IH; [|done]. rewrite Hr, length_app. simpl. lia. }
  destruct (bareHome_spec (String a s)) as [[_ Hr]|[_ Hr]].
  { destruct Hr as (r & Hr & W). rewrite Hr, normalize_bare by done.
    constructor; [done|]. eapply IH; [|done]. rewrite Hr, length_app. simpl. lia. }
  rewrite normalize_keep by done. constructor; [done..|].
  eapply IH; [|done]. simpl. lia.
Qed.

Ltac same_rest :=
  match goal with
  | E : "" +:+ ?a = "" +:+ ?b |- _ => change (a = b) in E; subst
  end.

Ltac token_here :=
  exfalso;
  match goal with
  | H : ~ BracedAt _ |- _ => apply H; eexists; reflexivity
  | H : ~ BareAt _ |- _ => apply H; eexists; split; [reflexivity|eassumption]
  end.

Lemma TokensReplaced_functional (c o1 o2 : string) :
  TokensReplaced c o1 -> TokensReplaced c o2 -> o1 = o2.
Proof.
  intros H1. revert o2.
  induction H1 as [|r o H IH|r o W H IH|a r o Hb Hr H IH]; intros o2 H2;
    inversion H2; subst; try done; try same_rest; try token_here;
    f_equal; by apply IH.
Qed.

(** C5. The text normalizer is a function of its input alone, and its
    output is the input in which every braced token [${HOME}] and every
    word-bounded bare token [$HOME] has become [~], all other characters
    being kept as they are: [out] is the input with its tokens replaced
    exactly when [out] is what [normalizeHomeTokens] returns. *)
Theorem normalizer_replaces_exactly_the_tokens (c out : string) :
  TokensReplaced c out <-> out = normalizeHomeTokens c.
Proof.
  split.
  - intros H. eapply TokensReplaced_functional; [done|].
    apply normalize_replaces_tokens.
  - intros ->. apply normalize_replaces_tokens.
Qed.

End NormalizerProofs.

(** ** Paths *)

Module PathFacts.
Import Str StrFacts Paths Wording.

Lemma prefix_nil (s : string) : String.prefix "" s = true.
Proof. by destruct s. Qed.

Lemma prefix_cons (a b : ascii) (p s : string) :
  String.prefix (String a p) (String b s) =
  if Ascii.eqb a b then String.prefix p s else false.
Proof.
  simpl. destruct (ascii_dec a b) as [->|Hne].
  - by rewrite Ascii.eqb_refl.
  - by apply Ascii.eqb_neq in Hne as ->.
Qed.

Lemma prefix_app (p r : string) : String.prefix p (p +:+ r) = true.
Proof.
  induction p as [|a p IH]; [apply prefix_nil|].
  by rewrite app_cons, prefix_cons, Ascii.eqb_refl.
Qed.

Lemma prefix_refl (p : string) : String.prefix p p = true.
Proof.
  induction p as [|a p IH]; [done|]. by rewrite prefix_cons, Ascii.eqb_refl.
Qed.

Lemma resolve_absolute (cwd p : string) :
  exists t, resolve cwd p = String "/" t.
Proof. unfold resolve. eexists. reflexivity. Qed.

(** A path at or below a protected path starts with its text. *)
Lemma Under_prefix (cwd p prot : string) :
  Under (resolve cwd p) prot -> String.prefix prot (resolve cwd p) = true.
Proof.
  intros [->|[->|[rest ->]]].
  - apply prefix_refl.
  - destruct (resolve_absolute cwd p) as [t ->].
    by rewrite prefix_cons, prefix_nil.
  - apply prefix_app.
Qed.

Lemma substitution_plain (matched before after rep : string) :
  allChars (fun c => negb (Ascii.eqb c "$")) rep = true ->
  substitution matched before after rep = rep.
Proof.
  induction rep as [|a rep IH]; [done|]. simpl. intros H.
  apply andb_prop in H as [Ha H]. apply negb_true_iff in Ha.
  rewrite Ha. f_equal. by apply IH.
Qed.

Lemma tokenAtHead_app (tok rest : string) :
  FollowsToken rest -> tokenAtHead tok (tok +:+ rest) = Some rest.
Proof.
  intros H. unfold tokenAtHead. rewrite stripPrefix_app.
  by destruct H as [->|[r ->]].
Qed.

Lemma replaceHead_token (tok home rest : string) :
  PlainHome home -> FollowsToken rest ->
  replaceHead tok home (tok +:+ rest) = home +:+ rest.
Proof.
  intros [_ Hd] H. unfold replaceHead. rewrite tokenAtHead_app by done.
  by rewrite substitution_plain.
Qed.

Lemma replaceHead_other (tok rep : string) (a b : ascii) (tok' s : string) :
  tok = String a tok' -> a <> b ->
  replaceHead tok rep (String b s) = String b s.
Proof.
  intros -> Hne. unfold replaceHead, tokenAtHead. rewrite stripPrefix_cons.
  by apply Ascii.eqb_neq in Hne as ->.
Qed.

Lemma home_head (home : string) :
  PlainHome home -> exists t, home = String "/" t.
Proof.
  intros [Hs _]. unfold startsWith in Hs. destruct home as [|a t]; [done|].
  rewrite prefix_cons in Hs. destruct (Ascii.eqb_spec "/" a) as [<-|]; [|done].
  by exists t.
Qed.

Lemma replaceHead_home (tok rep home rest : string) (a : ascii) (tok' : string) :
  PlainHome home -> tok = String a tok' -> a <> "/"%char ->
  replaceHead tok rep (home +:+ rest) = home +:+ rest.
Proof.
  intros Hh -> Hne. destruct (home_head home Hh) as [t ->].
  rewrite app_cons. by eapply replaceHead_other.
Qed.

(** The three spellings of a path under the home directory expand to the
    same text. *)
Lemma expandPath_spellings (home rest : string) :
  PlainHome home -> FollowsToken rest ->
  expandPath home ("~" +:+ rest) = home +:+ rest /\
  expandPath home ("$HOME" +:+ rest) = home +:+ rest /\
  expandPath home ("${HOME}" +:+ rest) = home +:+ rest.
Proof.
  intros Hh Hr. unfold expandPath. repeat split.
  - rewrite (app_cons "~" "" rest), app_nil_l.
    rewrite (replaceHead_other "$HOME" home "$" "~" "HOME") by done.
    rewrite (replaceHead_other "${HOME}" home "$" "~" "{HOME}") by done.
    by apply (replaceHead_token "~").
  - rewrite (replaceHead_token "$HOME") by done.
    rewrite (replaceHead_home "${HOME}" home home rest "$" "{HOME}") by done.
    by rewrite (replaceHead_home "~" home home rest "~" "") by done.
  - assert (replaceHead "$HOME" home ("${HOME}" +:+ rest) = "${HOME}" +:+ rest)
      as ->.
    { unfold replaceHead, tokenAtHead. by rewrite !app_cons, !stripPrefix_cons. }
    rewrite (replaceHead_token "${HOME}") by done.
    by rewrite (replaceHead_home "~" home home rest "~" "") by done.
Qed.

Lemma normalizeSegments_app (stack a b : list string) :
  normalizeSegments stack (a ++ b) =
  normalizeSegments (rev (normalizeSegments stack a)) b.
Proof.
  revert stack. induction a as [|seg a IH]; intros stack; simpl.
  - by rewrite List.rev_involutive.
  - repeat case_match; apply IH.
Qed.

(** A segment followed by [..] leaves the stack as it was. *)
Lemma normalizeSegments_dotdot (stack a b : list string) (seg : string) :
  PlainSegment seg ->
  normalizeSegments stack (a ++ seg :: ".." :: b) =
  normalizeSegments stack (a ++ b).
Proof.
  intros (H1 & H2 & H3 & _). rewrite !normalizeSegments_app. simpl.
  by rewrite (eqb_neq_str _ _ H1), (eqb_neq_str _ _ H2), (eqb_neq_str _ _ H3).
Qed.

Lemma split_dotdot (p seg rest : string) :
  PlainSegment seg -> FollowsToken rest ->
  exists b,
    split "/" (p +:+ "/" +:+ seg +:+ "/.." +:+ rest)
      = split "/" p ++ seg :: ".." :: b /\
    split "/" (p +:+ rest) = split "/" p ++ b.
Proof.
  intros (_ & _ & _ & Hs) Hr.
  change (p +:+ "/" +:+ seg +:+ "/.." +:+ rest)
    with (p +:+ String "/" (seg +:+ String "/" (".." +:+ rest))).
  rewrite split_app, split_app, (split_plain "/" seg) by done.
  destruct Hr as [->|[q ->]].
  - exists []. rewrite !app_nil_r. split; [done|]. by rewrite List.app_nil_r.
  - exists (split "/" q).
    change (".." +:+ "/" +:+ q) with (".." +:+ String "/" q).
    change (p +:+ "/" +:+ q) with (p +:+ String "/" q).
    by rewrite !split_app.
Qed.

(** A [..] after a segment takes the path back: [p/seg/..rest] and
    [p rest] have the same canonical form. *)
Lemma resolve_traversal (cwd p seg rest : string) :
  p <> "" -> PlainSegment seg -> FollowsToken rest ->
  resolve cwd (p +:+ "/" +:+ seg +:+ "/.." +:+ rest) = resolve cwd (p +:+ rest).
Proof.
  intros Hp Hs Hr. unfold resolve.
  assert (forall t, startsWith (p +:+ t) "/" = startsWith p "/") as Hhead.
  { intros t. destruct p as [|c p]; [done|]. unfold startsWith.
    by rewrite app_cons, !prefix_cons, !prefix_nil. }
  rewrite !Hhead. f_equal. f_equal.
  destruct (startsWith p "/").
  - destruct (split_dotdot p seg rest Hs Hr) as (b & -> & ->).
    by apply normalizeSegments_dotdot.
  - rewrite <- !app_assoc.
    destruct (split_dotdot ((cwd +:+ "/") +:+ p) seg rest Hs Hr)
      as (b & Ha & Hb).
    rewrite !app_assoc in Ha, Hb. rewrite !app_assoc.
    rewrite Ha, Hb. by apply normalizeSegments_dotdot.
Qed.

End PathFacts.

(** ** The security validator *)

Module ValidatorProofs.
Import Json Host Wording Str StrFacts PathFacts.

Section WithEnvironment.
Variable home : string.
Variable cwd : string.
Variable RegExp : string -> string -> option (string -> bool).

Abbreviation run := (Validator.run home cwd RegExp).
Abbreviation legacyRun := (LegacyValidator.run home cwd RegExp).
Abbreviation loadPatterns := (Validator.loadPatterns home RegExp).
Abbreviation checkPath := (Validator.checkPath home cwd).
Abbreviation checkBash := (Validator.checkBash home cwd).
Abbreviation expandPath := (Paths.expandPath home).
Abbreviation resolve := (Paths.resolve cwd).

(** The hardened validator turns a pattern file it cannot read into a
    block decision for every well-formed invocation. *)
Lemma load_failure_blocks (raw : json) (input : Validator.HookInput) :
  Validator.validateInput raw = Some input ->
  run raw Unreadable =
  emit (Verdict Block
          "Security patterns failed to load — blocking all operations").
Proof. intros H. unfold Validator.run. by rewrite H. Qed.

(** Whatever arrives, an unreadable pattern file never leads the hardened
    validator to allow or to ask. *)
Lemma load_failure_never_permits (raw : json) :
  Blocked (run raw Unreadable).
Proof.
  unfold Validator.run. destruct (Validator.validateInput raw).
  - by left.
  - by right.
Qed.

(** The earlier validator has no pattern at all after a failed load ... *)
Lemma legacy_load_failure_no_rule :
  LegacyValidator.loadPatterns home Unreadable = LegacyValidator.noPatterns.
Proof. reflexivity. Qed.

(** ... and so lets every well-formed invocation through. *)
Lemma legacy_load_failure_permits (raw : json) (input : Validator.HookInput) :
  Validator.validateInput raw = Some input ->
  legacyRun raw Unreadable = emit Continue.
Proof.
  intros H. unfold LegacyValidator.run. rewrite H. simpl.
  unfold LegacyValidator.checkBash, LegacyValidator.checkPath. simpl.
  repeat case_match; try done.
  all: rewrite andb_false_r in *; done.
Qed.

(** *** Malformed input *)

(** [validateInput] refuses the malformed payloads and no other. *)
Lemma validateInput_refuses (raw : json) :
  Validator.validateInput raw = None <-> MalformedPayload raw.
Proof.
  unfold Validator.validateInput, MalformedPayload, NotAString, NotAnObject.
  destruct raw as [|b|x|s|items|members]; simpl; try done.
  - by destruct (negb b).
  - by destruct (negb (negb (Num.falsy x))).
  - by destruct (negb (negb (String.eqb s ""))).
  - destruct (lookupLast "tool_name" members) as [[|?|?|name|?|?]|];
      try (split; [intros _; left; by intros ?|done]).
    destruct (lookupLast "session_id" members) as [[|?|?|sid|?|?]|];
      try (split; [intros _; right; left; by intros ?|done]).
    destruct (lookupLast "tool_input" members) as [[|?|?|?|?|?]|]; simpl;
      try (split; [intros _; right; right; done|done]).
    all: split; [done|].
    all: intros [H|[H|H]]; [by destruct (H name)|by destruct (H sid)|done].
Qed.

Lemma malformed_payload_exits_2 (raw : json) (file : File) :
  MalformedPayload raw -> run raw file = hardExit.
Proof.
  intros H. apply validateInput_refuses in H.
  unfold Validator.run. by rewrite H.
Qed.



(** Input that does not arrive in time, is blank or is not JSON reads as
    [null], which [validateInput] refuses. *)
Lemma unusable_input_exits_2 (JSON_parse : string -> option json)
  (input : Stdin.Arrival) (file : File) :
  input = Stdin.TimedOut
  \/ (exists text, input = Stdin.Text text /\
                   (Str.trim text = "" \/ JSON_parse text = None)) ->
  Validator.main home cwd RegExp JSON_parse input file = hardExit.
Proof.
  intros H. unfold Validator.main. apply malformed_payload_exits_2.
  destruct H as [->|(text & -> & [Ht|Hp])]; simpl.
  - done.
  - by rewrite Ht.
  - rewrite Hp. by destruct (String.eqb _ _).
Qed.



(** *** File paths *)

Lemma checkBash_other_tool (input : Validator.HookInput)
  (ps : Validator.SecurityPatterns) :
  Validator.tool_name input <> "Bash" -> checkBash input ps = None.
Proof.
  intros H. unfold Validator.checkBash. by rewrite (eqb_neq_str _ _ H).
Qed.

(** For a tool other than [Bash], [main] is the check of the path. *)
Lemma run_path_tool (raw : json) (input : Validator.HookInput) (file : File)
  (ps : Validator.SecurityPatterns) :
  Validator.validateInput raw = Some input ->
  Validator.tool_name input <> "Bash" ->
  loadPatterns file = Some ps ->
  run raw file = default (emit Continue) (checkPath input ps).
Proof.
  intros Hv Ht Hl. unfold Validator.run. rewrite Hv, Hl.
  by rewrite checkBash_other_tool.
Qed.

Lemma checkPath_block (input : Validator.HookInput)
  (ps : Validator.SecurityPatterns) (fp : string) :
  Validator.extractPath (Validator.tool_input input) = Some fp ->
  fp <> "" ->
  decisionOf (default (emit Continue) (checkPath input ps)) = Some Block <->
  existsb (fun p => String.prefix (resolve p) (resolve (expandPath fp)))
    (Validator.zeroAccessOf ps) = true.
Proof.
  intros Hp Hne. unfold Validator.checkPath. rewrite Hp, (eqb_neq_str _ _ Hne).
  unfold startsWith.
  destruct (existsb _ (Validator.zeroAccessOf ps)); [done|].
  split; [|done]. by case_match.
Qed.

Lemma path_invocation_blocked (raw : json) (fp : string) (file : File)
  (ps : Validator.SecurityPatterns) :
  PathInvocation raw fp ->
  loadPatterns file = Some ps ->
  decisionOf (run raw file) = Some Block <->
  existsb (fun p => String.prefix (resolve p) (resolve (expandPath fp)))
    (Validator.zeroAccessOf ps) = true.
Proof.
  intros (input & Hv & Ht & Hp & Hne) Hl.
  assert (Validator.tool_name input <> "Bash") as Hnb
    by (destruct Ht as [->|[->| ->]]; done).
  rewrite (run_path_tool raw input file ps Hv Hnb Hl).
  by apply checkPath_block.
Qed.

(** C3, amended. For a [Write], [Edit] or [Read] invocation with a
    non-empty [file_path], the validator blocks exactly when the text of
    the canonical path (home spellings expanded, [..] resolved) starts
    with the text of the canonical form of a zeroAccess path. So a path
    that is a protected path or lies below one is blocked, and two
    invocations whose paths have the same canonical form are decided
    alike; the three home spellings of a path expand to the same text,
    and a [..] after a segment resolves to the path before that segment. *)
Theorem zero_access_blocks_by_prefix (raw : json) (fp : string) (file : File)
  (ps : Validator.SecurityPatterns) :
  PathInvocation raw fp ->
  loadPatterns file = Some ps ->
  let canon := resolve (expandPath fp) in
  (decisionOf (run raw file) = Some Block <->
   exists p, In p (Validator.zeroAccessOf ps) /\
             String.prefix (resolve p) canon = true)
  /\ (forall p, In p (Validator.zeroAccessOf ps) ->
                Under canon (resolve p) ->
                decisionOf (run raw file) = Some Block)
  /\ (forall raw' fp', PathInvocation raw' fp' ->
        resolve (expandPath fp') = canon ->
        (decisionOf (run raw' file) = Some Block <->
         decisionOf (run raw file) = Some Block))
  /\ (forall rest, PlainHome home -> FollowsToken rest ->
        expandPath ("~" +:+ rest) = home +:+ rest /\
        expandPath ("$HOME" +:+ rest) = home +:+ rest /\
        expandPath ("${HOME}" +:+ rest) = home +:+ rest)
  /\ (forall p seg rest, p <> "" -> PlainSegment seg -> FollowsToken rest ->
        resolve (p +:+ "/" +:+ seg +:+ "/.." +:+ rest) = resolve (p +:+ rest)).
Proof.
  intros Hi Hl canon.
  pose proof (path_invocation_blocked raw fp file ps Hi Hl) as Hcb.
  split; [by rewrite Hcb, existsb_exists|]. split; [|split; [|split]].
  - intros p Hin Hu. apply Hcb, existsb_exists. exists p.
    split; [done|]. by apply Under_prefix.
  - intros raw' fp' Hi' Hc.
    rewrite Hcb, (path_invocation_blocked raw' fp' file ps Hi' Hl).
    by rewrite Hc.
  - intros rest. apply expandPath_spellings.
  - intros p seg rest. apply resolve_traversal.
Qed.

(** *** Commands *)

Lemma firstMatch_first (ps : list Validator.CompiledPattern) (text : string)
  (p : Validator.CompiledPattern) :
  FirstMatch ps text p -> Validator.firstMatch ps text = Some p.
Proof.
  intros (before & after & -> & Hm & Hb). unfold Validator.firstMatch.
  induction Hb as [|q before Hq _ IH]; simpl.
  - by rewrite Hm.
  - by rewrite Hq.
Qed.

Lemma firstMatch_none (ps : list Validator.CompiledPattern) (text : string) :
  NoMatch ps text -> Validator.firstMatch ps text = None.
Proof.
  unfold NoMatch, Validator.firstMatch.
  induction 1 as [|q l Hq _ IH]; simpl; [done|]. by rewrite Hq.
Qed.

(** C4, amended. For a [Bash] invocation with a non-empty string command,
    the command is normalized and then: the first block pattern that
    matches, in declared order, gives a block; otherwise a reference to a
    protected path gives a block; otherwise the first confirm pattern that
    matches gives ask; otherwise the run goes on to the check of
    [file_path], and allows when there is none. A command that matches a
    confirm pattern and refers to a protected path is blocked. *)
Theorem bash_decision_order (raw : json) (input : Validator.HookInput)
  (cmd : string) (file : File) (ps : Validator.SecurityPatterns) :
  Validator.validateInput raw = Some input ->
  Validator.tool_name input = "Bash" ->
  Validator.extractCommand (Validator.tool_input input) = Some cmd ->
  cmd <> "" ->
  loadPatterns file = Some ps ->
  let c := Validator.normalizeHomeTokens cmd in
  let refers :=
    Validator.commandReferencesProtectedPath home cwd c
      (Validator.zeroAccessOf ps) in
  (forall p, FirstMatch (Validator.blockOf ps) c p ->
             run raw file = blockedBy p)
  /\ (NoMatch (Validator.blockOf ps) c -> refers = true ->
      run raw file = blockedForPath)
  /\ (forall p, NoMatch (Validator.blockOf ps) c -> refers = false ->
                FirstMatch (Validator.confirmOf ps) c p ->
                run raw file = askedBy p)
  /\ (NoMatch (Validator.blockOf ps) c -> refers = false ->
      NoMatch (Validator.confirmOf ps) c ->
      run raw file = default (emit Continue) (checkPath input ps)
      /\ (Validator.extractPath (Validator.tool_input input) = None ->
          run raw file = emit Continue)).
Proof.
  intros Hv Ht Hc Hne Hl c refers.
  unfold Validator.run. rewrite Hv, Hl.
  unfold Validator.checkBash.
  rewrite Ht, Hc, (eqb_neq_str _ _ Hne). simpl negb. cbv iota.
  fold c. fold refers. split; [|split; [|split]].
  - intros p Hp. by rewrite (firstMatch_first _ _ _ Hp).
  - intros Hb Hr. by rewrite (firstMatch_none _ _ Hb), Hr.
  - intros p Hb Hr Hp.
    by rewrite (firstMatch_none _ _ Hb), Hr, (firstMatch_first _ _ _ Hp).
  - intros Hb Hr Hn.
    rewrite (firstMatch_none _ _ Hb), Hr, (firstMatch_none _ _ Hn).
    split; [done|]. intros Hp. unfold Validator.checkPath. by rewrite Hp.
Qed.

End WithEnvironment.

(** C1. When [security/patterns.yaml] exists and cannot be read, the
    validator kept at [hooks/security-validator.hook.ts] answers a [Bash]
    invocation with [{ continue: true }]: the failed load is taken as an
    empty policy, where the claim (and the hardened revision, see
    [load_failure_blocks]) has a block decision. *)
Theorem legacy_validator_allows_when_patterns_unreadable :
  LegacyValidator.run Sample.home Sample.cwd Sample.plainRegExp
    (Sample.bash "mkfs /dev/sda") Unreadable
  = emit Continue.
Proof. reflexivity. Qed.



Abbreviation sampleRun :=
  (Validator.run Sample.home Sample.cwd Sample.plainRegExp).
Abbreviation sampleLoad :=
  (Validator.loadPatterns Sample.home Sample.plainRegExp).

Lemma sample_zeroAccess (ps : Validator.SecurityPatterns) :
  sampleLoad (Contents Sample.patternsYaml) = Some ps ->
  Validator.zeroAccessOf ps = ["/home/u/.ssh"].
Proof. intros H. vm_compute in H. by injection H as <-. Qed.

(** C3, as stated, fails: [/home/u/.ssh2/id_rsa] is not [/home/u/.ssh]
    and does not lie below it, and reading it is blocked. *)
Lemma sibling_of_protected_path_counterexample :
  let fp := "/home/u/.ssh2/id_rsa" in
  let canon := Paths.resolve Sample.cwd (Paths.expandPath Sample.home fp) in
  exists ps,
    sampleLoad (Contents Sample.patternsYaml) = Some ps /\
    decisionOf (sampleRun (Sample.onPath "Read" fp)
                  (Contents Sample.patternsYaml)) = Some Block /\
    ~ exists p, In p (Validator.zeroAccessOf ps) /\
                Under canon (Paths.resolve Sample.cwd p).
Proof.
  eexists. split; [reflexivity|]. split; [reflexivity|].
  intros (p & Hin & Hu).
  rewrite (sample_zeroAccess _ eq_refl) in Hin.
  destruct Hin as [<-|[]].
  vm_compute in Hu. destruct Hu as [Hu|[Hu|[rest Hu]]]; discriminate.
Qed.

(** The amended C3 at a read of [${HOME}/.config/../.ssh/id_rsa], which
    lies below the protected [~/.ssh]. *)
Lemma zero_access_blocks_by_prefix_witness :
  decisionOf
    (sampleRun (Sample.onPath "Read" "${HOME}/.config/../.ssh/id_rsa")
       (Contents Sample.patternsYaml))
  = Some Block.
Proof.
  destruct (zero_access_blocks_by_prefix Sample.home Sample.cwd
              Sample.plainRegExp
              (Sample.onPath "Read" "${HOME}/.config/../.ssh/id_rsa")
              "${HOME}/.config/../.ssh/id_rsa"
              (Contents Sample.patternsYaml) Sample.patterns)
    as (_ & Hunder & _).
  - exists (Sample.inputOf "Read"
              [ ("file_path", JStr "${HOME}/.config/../.ssh/id_rsa") ]).
    split; [reflexivity|]. split; [right; right; reflexivity|].
    split; [reflexivity|discriminate].
  - vm_compute. reflexivity.
  - apply (Hunder "/home/u/.ssh").
    + vm_compute. left. reflexivity.
    + right. right. exists "id_rsa". vm_compute. reflexivity.
Defined.

(** C4, as stated, fails: [git push ~/.ssh/key] matches a confirm pattern
    and no block pattern, refers to a protected path, and is blocked
    rather than asked about. *)
Lemma confirm_and_protected_path_counterexample :
  let cmd := "git push ~/.ssh/key" in
  let c := Validator.normalizeHomeTokens cmd in
  let o := sampleRun (Sample.bash cmd) (Contents Sample.patternsYaml) in
  exists ps p,
    sampleLoad (Contents Sample.patternsYaml) = Some ps /\
    NoMatch (Validator.blockOf ps) c /\
    FirstMatch (Validator.confirmOf ps) c p /\
    Validator.commandReferencesProtectedPath Sample.home Sample.cwd c
      (Validator.zeroAccessOf ps) = true /\
    decisionOf o = Some Block /\ decisionOf o <> Some Ask.
Proof.
  eexists. eexists. split; [vm_compute; reflexivity|].
  split; [|split; [|split]].
  - repeat constructor.
  - exists [], []. split; [reflexivity|]. split; [reflexivity|constructor].
  - vm_compute. reflexivity.
  - split; [vm_compute; reflexivity|vm_compute; discriminate].
Qed.

(** The amended C4 at [git push ~/.ssh/key]: no block pattern matches, the
    command refers to a protected path, and it is blocked for that. *)
Lemma bash_decision_order_witness :
  sampleRun (Sample.bash "git push ~/.ssh/key") (Contents Sample.patternsYaml)
  = blockedForPath.
Proof.
  destruct (bash_decision_order Sample.home Sample.cwd Sample.plainRegExp
              (Sample.bash "git push ~/.ssh/key")
              (Sample.inputOf "Bash" [ ("command", JStr "git push ~/.ssh/key") ])
              "git push ~/.ssh/key"
              (Contents Sample.patternsYaml) Sample.patterns)
    as (_ & Hpath & _).
  - reflexivity.
  - reflexivity.
  - reflexivity.
  - discriminate.
  - vm_compute. reflexivity.
  - apply Hpath.
    + vm_compute. constructor; [vm_compute; reflexivity|constructor].
    + vm_compute. reflexivity.
Defined.

(** The specification's scenario B: [cat ${HOME}/.ssh/id_rsa] with the
    zero-access path [~/.ssh] is blocked once normalized. *)
Example scenario_braced_home_is_blocked :
  sampleRun (Sample.bash "cat ${HOME}/.ssh/id_rsa")
    (Contents Sample.patternsYaml)
  = blockedForPath.
Proof. vm_compute. reflexivity. Qed.

(** Scenario E: the same command with and without [sudo] in front is
    decided alike. *)
Example scenario_sudo_prefix :
  decisionOf (sampleRun (Sample.bash "sudo mkfs /dev/sda")
                (Contents Sample.patternsYaml))
  = decisionOf (sampleRun (Sample.bash "mkfs /dev/sda")
                  (Contents Sample.patternsYaml)).
Proof. vm_compute. reflexivity. Qed.

(** A [tool_input] that is a list passes for an object: the invocation
    is accepted and, having no [file_path], allowed. *)
Example scenario_list_tool_input_is_accepted :
  sampleRun (JObj [ ("tool_name", JStr "Read");
                    ("tool_input", JArr [ JStr "/etc/passwd" ]);
                    ("session_id", JStr "s1") ])
    (Contents Sample.patternsYaml)
  = emit Continue.
Proof. vm_compute. reflexivity. Qed.

(** A command with no matching rule and no protected path is allowed. *)
Example scenario_plain_command_allowed :
  sampleRun (Sample.bash "ls -la") (Contents Sample.patternsYaml)
  = emit Continue.
Proof. vm_compute. reflexivity. Qed.

End ValidatorProofs.

(** ** Scores *)

Module ScoreFacts.
Import Json Host Num SkillEval Wording.

(** *** Numbers *)

Lemma SFmul_comm (prec emax : Z) (x y : spec_float) :
  SFmul prec emax x y = SFmul prec emax y x.
Proof.
  destruct x as [sx|sx| |sx mx ex], y as [sy|sy| |sy my ey]; simpl;
    try reflexivity; try (by rewrite xorb_comm).
  by rewrite xorb_comm, Pos.mul_comm, Z.add_comm.
Qed.

(** The product of two numbers does not depend on their order. *)
Lemma mul_comm (x y : number) : (x * y)%float = (y * x)%float.
Proof. apply Prim2SF_inj. rewrite !mul_spec. apply SFmul_comm. Qed.

(** *** Sums over the dimensions *)

Lemma rawScore_sum (dims : list Dim) :
  rawScore dims = sumOver (fun d => ofNat (count d) * weight d)%float dims.
Proof. reflexivity. Qed.

Lemma maxScore_sum (dims : list Dim) :
  maxScore dims = sumOver (fun d => ofNat (total d) * weight d)%float dims.
Proof. reflexivity. Qed.

Lemma fold_left_count (dims : list Dim) (a : nat) :
  fold_left (fun s d => s + count d) dims a = a + sum_list_with count dims.
Proof.
  revert a. induction dims as [|d dims IH]; intros a; simpl; [lia|].
  rewrite IH. lia.
Qed.

(** The total is zero exactly when no dimension has a match. *)
Lemma totalMatches_zero (dims : list Dim) :
  totalMatches dims = 0 <-> NoDimensionMatched dims.
Proof.
  unfold totalMatches, NoDimensionMatched. rewrite fold_left_count. simpl.
  induction dims as [|d dims IH]; simpl.
  - split; [constructor|done].
  - rewrite Forall_cons. split.
    + intros H. split; [lia|]. apply IH. lia.
    + intros [Hd H]. apply IH in H. lia.
Qed.

End ScoreFacts.

(** ** The skill activation evaluator *)

Module SkillEvalProofs.
Import Json Host Num SkillEval Wording ScoreFacts.

Section WithEnvironment.
Variable cwd : string.
Variable RegExp : string -> string -> option (string -> bool).
Variable clock : nat -> number.
Variable toFixed0 : number -> string.
Variable skillFile : string -> File.
Variable JSON_parse : string -> option SkillRules.
Variable toLowerCase : string -> string.
Variable sortOrder : list number -> list nat.

Abbreviation dimensions := (SkillEval.dimensions cwd RegExp toLowerCase).
Abbreviation scoreRule := (SkillEval.scoreRule cwd RegExp toLowerCase).
Abbreviation collect := (SkillEval.collect cwd RegExp clock toLowerCase).
Abbreviation isOnCooldown := (SkillEval.isOnCooldown clock).
Abbreviation recordFire := (SkillEval.recordFire clock).
Abbreviation fireAll := (SkillEval.fireAll clock).
Abbreviation evaluate :=
  (SkillEval.evaluate cwd RegExp clock JSON_parse toLowerCase sortOrder).
Abbreviation selected :=
  (SkillEval.selected cwd RegExp clock JSON_parse toLowerCase sortOrder).
Abbreviation run :=
  (SkillEval.run cwd RegExp clock toFixed0 skillFile JSON_parse toLowerCase
     sortOrder).
Abbreviation Considered :=
  (SkillEval.Considered cwd RegExp clock toLowerCase).
Abbreviation sort := (SkillEval.sort sortOrder).
Abbreviation ranked := (SkillEval.ranked sortOrder).

(** *** Scoring one rule *)

Lemma scoreRule_unfold (prompt : string) (r : Rule) (dW : Weights)
  (dT : number) (dims : list Dim) :
  dimensions prompt (triggers r) (mergeWeights dW (weights r)) = Ok dims ->
  scoreRule prompt r dW dT =
  if Nat.eqb (length dims) 0 then Ok None
  else if Nat.eqb (totalMatches dims) 0 then Ok None
  else
    let normalized := (rawScore dims / maxScore dims * 100)%float in
    if (normalized <? orDefault (threshold r) dT)%float then Ok None
    else Ok (Some {| rule := r; normalizedScore := normalized;
                     finalScore :=
                       (normalized
                        * (orDefault (priority r) 5 / 10))%float |}).
Proof. intros H. unfold SkillEval.scoreRule. by rewrite H. Qed.

Lemma scoreRule_throws (prompt : string) (r : Rule) (dW : Weights)
  (dT : number) :
  dimensions prompt (triggers r) (mergeWeights dW (weights r)) = Throw ->
  scoreRule prompt r dW dT = Throw.
Proof. intros H. unfold SkillEval.scoreRule. by rewrite H. Qed.

(** A scored match is a match of the rule scored, which has a matched
    dimension. *)
Lemma scoreRule_Some (prompt : string) (r : Rule) (dW : Weights)
  (dT : number) (m : ScoredMatch) :
  scoreRule prompt r dW dT = Ok (Some m) ->
  rule m = r /\
  exists dims,
    dimensions prompt (triggers r) (mergeWeights dW (weights r)) = Ok dims /\
    ~ NoDimensionMatched dims.
Proof.
  destruct (dimensions prompt (triggers r) (mergeWeights dW (weights r)))
    as [dims|] eqn:Hd.
  - rewrite (scoreRule_unfold _ _ _ _ dims Hd).
    destruct (Nat.eqb (length dims) 0); [done|].
    destruct (Nat.eqb_spec (totalMatches dims) 0) as [|Hne]; [done|].
    simpl. case_match; [done|]. intros [= <-]. split; [done|].
    exists dims. split; [done|]. by rewrite <- totalMatches_zero.
  - by rewrite scoreRule_throws.
Qed.

Lemma dimOf_absent {A} (l : option (list A)) (f : list A -> Result nat)
  (w : number) :
  present l = None -> dimOf l f w = Ok [].
Proof. intros H. unfold dimOf. by rewrite H. Qed.

(** A rule without triggers has no dimension at all. *)
Lemma dimensions_no_triggers (prompt : string) (t : Triggers) (w : Weights) :
  NoTriggers t -> dimensions prompt t w = Ok [].
Proof.
  intros (Hk & Hp & Hd & Hi & Hf). unfold SkillEval.dimensions.
  by rewrite !dimOf_absent.
Qed.

(** C7. For a rule with at least one matched dimension, with [raw] the sum
    of matched count times weight over its dimensions and [max] the sum of
    declared total times weight, the normalized score is 100 times
    [raw / max]; the rule is excluded when that score is below its
    threshold (its own, else the default); otherwise it is kept, with that
    normalized score and with the final score equal to the normalized
    score times priority over 10. The arithmetic is that of JavaScript
    numbers. *)
Theorem score_formula (prompt : string) (r : Rule) (dW : Weights)
  (dT : number) (dims : list Dim) :
  dimensions prompt (triggers r) (mergeWeights dW (weights r)) = Ok dims ->
  ~ NoDimensionMatched dims ->
  let raw := sumOver (fun d => ofNat (count d) * weight d)%float dims in
  let max := sumOver (fun d => ofNat (total d) * weight d)%float dims in
  let normalized := (100 * (raw / max))%float in
  let threshold := orDefault (threshold r) dT in
  let priority := orDefault (priority r) 5%float in
  ((normalized <? threshold)%float = true ->
   scoreRule prompt r dW dT = Ok None)
  /\ ((normalized <? threshold)%float = false ->
      scoreRule prompt r dW dT =
      Ok (Some {| rule := r; normalizedScore := normalized;
                  finalScore := (normalized * (priority / 10))%float |})).
Proof.
  intros Hd Hm raw max normalized thr pr.
  rewrite (scoreRule_unfold _ _ _ _ dims Hd).
  assert (Nat.eqb (length dims) 0 = false) as ->.
  { destruct dims; [|done]. exfalso. apply Hm. constructor. }
  assert (Nat.eqb (totalMatches dims) 0 = false) as ->.
  { apply Nat.eqb_neq. by rewrite totalMatches_zero. }
  cbv zeta. rewrite rawScore_sum, maxScore_sum, (mul_comm _ 100).
  fold raw max normalized thr pr.
  split; by intros ->.
Qed.

(** *** The loop over the rules *)

Lemma isOnCooldown_world (skill : string) (c : number) (w : World) :
  cooldownMap (isOnCooldown skill c w).2 = cooldownMap w /\
  ticks w <= ticks (isOnCooldown skill c w).2.
Proof.
  unfold SkillEval.isOnCooldown.
  destruct (cooldownMap w !! skill) as [last|]; [|done].
  destruct (falsy last); [done|]. simpl. split; [done|lia].
Qed.

(** A rule on cooldown is found on cooldown at any point of the run. *)
Lemma OnCooldown_found (w w0 : World) (r : Rule) (c : number) :
  OnCooldown clock w r ->
  hasCooldown r = Some c ->
  cooldownMap w0 = cooldownMap w -> ticks w <= ticks w0 ->
  (isOnCooldown (skill r) c w0).1 = true.
Proof.
  intros (c' & last & Hc & Hl & Hne & Hlt) Hc' Hm Ht.
  assert (c' = c) as -> by congruence.
  unfold SkillEval.isOnCooldown. rewrite Hm, Hl, Hne. simpl.
  by apply Hlt.
Qed.

Lemma Considered_later (prompt : string) (d : Defaults) (r : Rule)
  (rs : list Rule) (w w1 : World) (m : ScoredMatch) :
  cooldownMap w1 = cooldownMap w -> ticks w <= ticks w1 ->
  Considered prompt d rs w1 m -> Considered prompt d (r :: rs) w m.
Proof.
  intros Hm Ht (Hin & Hty & Hs & Hc). split; [by right|].
  split; [done|]. split; [done|].
  intros c Hcd. destruct (Hc c Hcd) as (w0 & Hm0 & Ht0 & H0).
  exists w0. split; [congruence|]. split; [lia|done].
Qed.

Lemma collect_sound (prompt : string) (d : Defaults) (rs : list Rule)
  (w w' : World) (ms : list ScoredMatch) :
  collect prompt d rs w = Ok (ms, w') ->
  cooldownMap w' = cooldownMap w /\ ticks w <= ticks w' /\
  forall m, In m ms -> Considered prompt d rs w m.
Proof.
  revert w w' ms. induction rs as [|r rs IH]; intros w w' ms; simpl.
  { intros [= <- <-]. split; [done|]. split; [done|]. by intros m []. }
  destruct (type r) eqn:Hty.
  2,3: intros H; apply IH in H as (Hm & Ht & Hms);
       (split; [done|]); (split; [done|]); intros m Hin;
       apply (Considered_later _ _ _ _ w w); [done|lia|by apply Hms].
  set (cw := match hasCooldown r with
             | Some c => isOnCooldown (skill r) c w
             | None => (false, w)
             end).
  assert (cooldownMap cw.2 = cooldownMap w /\ ticks w <= ticks cw.2)
    as [Hcm Hct].
  { unfold cw. destruct (hasCooldown r); [apply isOnCooldown_world|done]. }
  destruct cw as [cooling w1] eqn:Hcw. simpl in Hcm, Hct.
  destruct cooling.
  { intros H. apply IH in H as (Hm & Ht & Hms).
    split; [congruence|]. split; [lia|]. intros m Hin.
    apply (Considered_later _ _ _ _ w w1); [done|done|by apply Hms]. }
  destruct (scoreRule prompt r (defaultWeights d) (defaultThreshold d))
    as [scored|] eqn:Hs; [|done].
  simpl. destruct (collect prompt d rs w1) as [[ms1 w2]|] eqn:Hrest; [|done].
  simpl. intros [= <- <-].
  apply IH in Hrest as (Hm & Ht & Hms).
  split; [congruence|]. split; [lia|]. intros m Hin.
  assert (In m ms1 -> Considered prompt d (r :: rs) w m) as Hold.
  { intros H. apply (Considered_later _ _ _ _ w w1); [done|done|by apply Hms]. }
  destruct scored as [m0|]; [|by apply Hold].
  destruct Hin as [<-|Hin]; [|by apply Hold].
  destruct (scoreRule_Some _ _ _ _ _ Hs) as [Hr _].
  split; [left; done|]. rewrite Hr.
  split; [done|]. split; [done|].
  intros c Hc. exists w. split; [done|]. split; [done|].
  unfold cw in Hcw. rewrite Hc in Hcw. by rewrite Hcw.
Qed.

(** *** Sorting and cutting *)

Lemma insertSorted_perm (x : ScoredMatch) (l : list ScoredMatch) :
  Permutation (insertSorted x l) (x :: l).
Proof.
  induction l as [|y l IH]; simpl; [done|].
  destruct (0 <? compareFn x y)%float; [|done].
  rewrite IH. apply perm_swap.
Qed.

Lemma sortStable_perm (l : list ScoredMatch) : Permutation (sortStable l) l.
Proof.
  induction l as [|x l IH]; simpl; [done|].
  by rewrite insertSorted_perm, IH.
Qed.

Lemma pick_perm {A} (i : nat) (l : list A) (x : A) (rest : list A) :
  pick i l = Some (x, rest) -> Permutation l (x :: rest).
Proof.
  revert i x rest. induction l as [|y l IH]; intros i x rest; simpl; [done|].
  destruct i as [|j]; [intros [= <- <-]; apply Permutation_refl|].
  destruct (pick j l) as [[z r]|] eqn:E.
  - intros [= <- <-]. rewrite (IH j z r E). apply perm_swap.
  - intros [= <- <-]. apply Permutation_refl.
Qed.

(** Whatever the positions named, the result holds the elements of the
    list, each as often as the list does. *)
Lemma arrange_perm {A} (order : list nat) (l : list A) :
  Permutation (arrange order l) l.
Proof.
  revert l. induction order as [|i order IH]; intros l; simpl;
    [apply Permutation_refl|].
  destruct (pick i l) as [[x rest]|] eqn:E.
  - rewrite (pick_perm i l x rest E). by apply perm_skip.
  - destruct l as [|y l]; [apply Permutation_refl|]. exfalso. simpl in E.
    destruct i as [|j]; [done|]. by destruct (pick j l) as [[z r]|].
Qed.

Lemma sort_perm (l : list ScoredMatch) : Permutation (sort l) l.
Proof.
  unfold SkillEval.sort.
  destruct (comparable l); [apply sortStable_perm|apply arrange_perm].
Qed.

Lemma In_take {A} (n : nat) (l : list A) (x : A) : In x (take n l) -> In x l.
Proof.
  revert n. induction l as [|y l IH]; intros [|n]; simpl; try done.
  intros [->|H]; [by left|right; by eapply IH].
Qed.

(** The matches shown are among the matches collected. *)
Lemma ranked_subset (s : Settings) (ms : list ScoredMatch) (m : ScoredMatch) :
  In m (ranked s ms) -> In m ms.
Proof.
  unfold ranked, slice0. intros H.
  apply (Permutation_in _ (sort_perm ms)).
  destruct (maxSuggestions s <? 0)%Z; by eapply In_take.
Qed.

(** *** The run *)

Lemma selected_inv (raw : json) (file : File) (w : World) (m : ScoredMatch) :
  In m (selected raw file w) ->
  exists prompt text rules ms w1,
    promptOf raw = Some prompt /\ file = Contents text /\
    JSON_parse text = Some rules /\
    collect prompt (defaults rules) (SkillEval.rules rules) w = Ok (ms, w1) /\
    In m ms.
Proof.
  unfold SkillEval.selected, SkillEval.evaluate.
  destruct (promptOf raw) as [prompt|] eqn:Hp; [|done].
  destruct file as [| |text]; [done..|].
  destruct (JSON_parse text) as [rules|] eqn:Hj; [|done].
  destruct (isExcluded RegExp toLowerCase prompt (exclusions rules)); [done|].
  destruct (collect prompt (defaults rules) (SkillEval.rules rules) w)
    as [[ms w1]|] eqn:Hc; [|done].
  destruct ms as [|m0 ms]; [done|].
  intros H. apply ranked_subset in H.
  exists prompt, text, rules, (m0 :: ms), w1. repeat split; done.
Qed.

(** What is printed is the rendering of the matches selected, and nothing
    when there is none; the status is 0 on every path. *)
Lemma run_output (raw : json) (file : File) (w : World) :
  status (run raw file w) = 0%Z /\
  ((selected raw file w = [] /\ printed (run raw file w) = None)
   \/ exists s, printed (run raw file w) =
                Some (render toFixed0 skillFile s (selected raw file w))).
Proof.
  unfold SkillEval.run, SkillEval.selected.
  destruct (evaluate raw file w) as [w'|s top w1]; simpl.
  - split; [done|]. by left.
  - split; [done|]. destruct top as [|m top]; [by left|]. right. by exists s.
Qed.

(** *** Firing *)

Lemma fireAll_table (top : list ScoredMatch) (w : World) (k : string) :
  (In k (skillsOf top) ->
   exists n, ticks w <= n /\
             cooldownMap (fireAll top w) !! k = Some (clock n))
  /\ (~ In k (skillsOf top) ->
      cooldownMap (fireAll top w) !! k = cooldownMap w !! k).
Proof.
  revert w. induction top as [|m top IH]; intros w; simpl.
  { split; [done|done]. }
  set (s := skill (rule m)).
  destruct (IH (recordFire s w)) as [IHin IHout]. simpl in IHin, IHout.
  split.
  - intros Hin. destruct (in_dec string_dec k (skillsOf top)) as [Ht|Ht].
    + destruct (IHin Ht) as (n & Hn & Hk). exists n. split; [lia|done].
    + destruct Hin as [->|Hin]; [|done].
      exists (ticks w). split; [done|].
      rewrite (IHout Ht). apply lookup_insert_eq.
  - intros Hout. rewrite IHout by tauto.
    apply lookup_insert_ne. tauto.
Qed.

Lemma evaluate_world (raw : json) (file : File) (w : World) :
  match evaluate raw file w with
  | Quiet w' | Ranked _ _ w' =>
      cooldownMap w' = cooldownMap w /\ ticks w <= ticks w'
  end.
Proof.
  unfold SkillEval.evaluate.
  destruct (promptOf raw) as [prompt|]; [|done].
  destruct file as [| |text]; [done..|].
  destruct (JSON_parse text) as [rules|]; [|done].
  destruct (isExcluded RegExp toLowerCase prompt (exclusions rules)); [done|].
  destruct (collect prompt (defaults rules) (SkillEval.rules rules) w)
    as [[ms w1]|] eqn:Hc; [|done].
  apply collect_sound in Hc as (Hm & Ht & _).
  by destruct ms.
Qed.

(** The table a run leaves is the table it found, with the matches
    selected fired after the rules were considered. *)
Lemma run_world (raw : json) (file : File) (w : World) :
  exists w1, cooldownMap w1 = cooldownMap w /\ ticks w <= ticks w1 /\
             world (run raw file w) = fireAll (selected raw file w) w1.
Proof.
  pose proof (evaluate_world raw file w) as H.
  unfold SkillEval.run, SkillEval.selected.
  destruct (evaluate raw file w) as [w'|s top w']; destruct H as [Hm Ht];
    by exists w'.
Qed.

(** *** The claims about the evaluator *)

(** C6. A rule for which no trigger dimension has a match, a rule all of
    whose trigger lists are absent or empty among them, is never scored
    as a match and is not among the rules shown. *)
Theorem unmatched_rule_never_ranked (raw : json) (file : File) (w : World)
  (prompt text : string) (rules : SkillRules) (r : Rule) :
  promptOf raw = Some prompt ->
  file = Contents text ->
  JSON_parse text = Some rules ->
  NoTriggers (triggers r) \/
  (forall dims,
     dimensions prompt (triggers r)
       (mergeWeights (defaultWeights (defaults rules)) (weights r)) = Ok dims ->
     NoDimensionMatched dims) ->
  (forall m, scoreRule prompt r (defaultWeights (defaults rules))
               (defaultThreshold (defaults rules)) <> Ok (Some m))
  /\ ~ In r (map rule (selected raw file w)).
Proof.
  intros Hp Hf Hj Hno.
  assert (forall m, scoreRule prompt r (defaultWeights (defaults rules))
                      (defaultThreshold (defaults rules)) <> Ok (Some m))
    as Hscore.
  { intros m Hs. apply scoreRule_Some in Hs as (_ & dims & Hd & Hm).
    apply Hm. destruct Hno as [Hno|Hno]; [|by apply Hno].
    rewrite dimensions_no_triggers in Hd by done.
    injection Hd as <-. constructor. }
  split; [done|].
  intros Hin. apply in_map_iff in Hin as (m & Hr & Hin).
  apply selected_inv in Hin
    as (prompt' & text' & rules' & ms & w1 & Hp' & Hf' & Hj' & Hc & Hin).
  assert (prompt' = prompt) as -> by congruence.
  assert (text' = text) as -> by congruence.
  assert (rules' = rules) as -> by congruence.
  apply collect_sound in Hc as (_ & _ & Hms).
  destruct (Hms m Hin) as (_ & _ & Hs & _).
  rewrite Hr in Hs. by apply (Hscore m).
Qed.

(** C8. After a run, the cooldown table holds a time read during the run
    for the skill of each rule shown (the matches left after the sort and
    the cut to [maxSuggestions]) and is unchanged at every other skill;
    and a rule with a cooldown whose skill is on cooldown is not among the
    rules shown. *)
Theorem cooldown_frame (raw : json) (file : File) (w : World) :
  let top := selected raw file w in
  let table := cooldownMap (world (run raw file w)) in
  (forall k, In k (skillsOf top) ->
             exists n, ticks w <= n /\ table !! k = Some (clock n))
  /\ (forall k, ~ In k (skillsOf top) -> table !! k = cooldownMap w !! k)
  /\ (forall r, OnCooldown clock w r -> ~ In r (map rule top)).
Proof.
  intros top table.
  destruct (run_world raw file w) as (w1 & Hm & Ht & Hw).
  subst top table. rewrite Hw. set (top := selected raw file w).
  split; [|split].
  - intros k Hk. destruct (fireAll_table top w1 k) as [Hin _].
    destruct (Hin Hk) as (n & Hn & Hl). exists n. split; [lia|done].
  - intros k Hk. destruct (fireAll_table top w1 k) as [_ Hout].
    by rewrite (Hout Hk), Hm.
  - intros r Hcd Hin. apply in_map_iff in Hin as (m & Hr & Hin).
    apply selected_inv in Hin
      as (prompt & text & rules & ms & w2 & _ & _ & _ & Hc & Hin).
    apply collect_sound in Hc as (_ & _ & Hms).
    destruct (Hms m Hin) as (_ & _ & _ & Hfree). rewrite Hr in Hfree.
    destruct Hcd as (c & last & Hc & Hrest).
    destruct (Hfree c Hc) as (w0 & Hm0 & Ht0 & Hoff).
    rewrite (OnCooldown_found w w0 r c) in Hoff; [done| |done..].
    by exists c, last.
Qed.

(** C9. When the rule file is absent, cannot be read or is not JSON, the
    run prints nothing, ends with status 0, selects no rule and leaves
    the cooldown table as it was. *)
Theorem unloadable_rules_are_silent (raw : json) (file : File) (w : World) :
  file = Missing \/ file = Unreadable
    \/ (exists text, file = Contents text /\ JSON_parse text = None) ->
  printed (run raw file w) = None /\ status (run raw file w) = 0%Z
  /\ selected raw file w = [] /\ world (run raw file w) = w.
Proof.
  intros H. unfold SkillEval.run, SkillEval.selected, SkillEval.evaluate.
  destruct (promptOf raw) as [prompt|]; [|done].
  destruct H as [->|[->|(text & -> & ->)]]; done.
Qed.

(** C10. A rule whose type is not [proactive] is not among the rules
    shown, whatever its triggers, priority, enforcement and cooldown. *)
Theorem only_proactive_rules_shown (raw : json) (file : File) (w : World)
  (r : Rule) :
  type r <> proactive -> ~ In r (map rule (selected raw file w)).
Proof.
  intros Hty Hin. apply in_map_iff in Hin as (m & Hr & Hin).
  apply selected_inv in Hin
    as (prompt & text & rules & ms & w1 & _ & _ & _ & Hc & Hin).
  apply collect_sound in Hc as (_ & _ & Hms).
  destruct (Hms m Hin) as (_ & Hp & _). congruence.
Qed.

End WithEnvironment.

(** C6 at the rule [idle], whose only trigger list is empty. *)
Lemma unmatched_rule_never_ranked_witness :
  (forall m, SkillEval.scoreRule Sample.cwd Sample.plainRegExp
               Sample.toLowerCase Sample.request
               Sample.idle Sample.weights 30%float <> Ok (Some m))
  /\ ~ In Sample.idle
         (map rule (Sample.evalSelected Sample.request (Contents "rules"))).
Proof.
  apply (unmatched_rule_never_ranked Sample.cwd Sample.plainRegExp
           Sample.clock Sample.parseRules Sample.toLowerCase Sample.sortOrder
           (Sample.prompting Sample.request)
           (Contents "rules") Sample.world0 Sample.request "rules"
           Sample.skillRules Sample.idle).
  - reflexivity.
  - reflexivity.
  - reflexivity.
  - left. repeat split.
Defined.

(** C7 at [createSkill]: raw 6 of 8, normalized 75, final 52.5. *)
Lemma score_formula_witness :
  SkillEval.scoreRule Sample.cwd Sample.plainRegExp Sample.toLowerCase
    Sample.request Sample.createSkill Sample.weights 30%float
  = Ok (Some {| rule := Sample.createSkill;
                normalizedScore := 75%float;
                finalScore := 52.5%float |}).
Proof.
  destruct (score_formula Sample.cwd Sample.plainRegExp Sample.toLowerCase
              Sample.request Sample.createSkill Sample.weights 30%float
              Sample.requestDims)
    as (_ & Hkept).
  - vm_compute. reflexivity.
  - intros H. inversion H as [|d l Hd _]. discriminate.
  - rewrite Hkept by (vm_compute; reflexivity). vm_compute. reflexivity.
Defined.

(** C8 at the sample run: [CreateSkill] is shown and fires, the entry of
    [Deploy] stays, and [deploy], on cooldown, is not shown. *)
Lemma cooldown_frame_witness :
  let top := Sample.evalSelected Sample.request (Contents "rules") in
  let table :=
    cooldownMap (world (Sample.evalRun Sample.request (Contents "rules"))) in
  (exists n, table !! "CreateSkill" = Some (Sample.clock n))
  /\ table !! "Deploy" = Some 999000%float
  /\ ~ In Sample.deploy (map rule top).
Proof.
  destruct (cooldown_frame Sample.cwd Sample.plainRegExp Sample.clock
              Sample.toFixed0 Sample.skillFile Sample.parseRules
              Sample.toLowerCase Sample.sortOrder
              (Sample.prompting Sample.request) (Contents "rules") Sample.world0)
    as (Hfired & Hkept & Hcool).
  split; [|split].
  - destruct (Hfired "CreateSkill") as (n & _ & Hn);
      [vm_compute; by left|]. by exists n.
  - transitivity (cooldownMap Sample.world0 !! "Deploy"); [|reflexivity].
    apply (Hkept "Deploy"). intros H. vm_compute in H.
    destruct H as [H|[]]. discriminate.
  - apply Hcool. exists 60%float, 999000%float.
    split; [reflexivity|]. split; [reflexivity|]. split; [reflexivity|].
    intros n _. reflexivity.
Defined.

(** C9 at a rule file that is not JSON. *)
Lemma unloadable_rules_are_silent_witness :
  let r := Sample.evalRun Sample.request (Contents "{") in
  printed r = None /\ status r = 0%Z
  /\ Sample.evalSelected Sample.request (Contents "{") = []
  /\ world r = Sample.world0.
Proof.
  apply (unloadable_rules_are_silent Sample.cwd Sample.plainRegExp
           Sample.clock Sample.toFixed0 Sample.skillFile Sample.parseRules
           Sample.toLowerCase Sample.sortOrder).
  right. right. exists "{". split; reflexivity.
Defined.

(** C10 at the guard rule [guardian], which would match the request. *)
Lemma only_proactive_rules_shown_witness :
  ~ In Sample.guardian
      (map rule (Sample.evalSelected Sample.request (Contents "rules"))).
Proof.
  apply (only_proactive_rules_shown Sample.cwd Sample.plainRegExp
           Sample.clock Sample.parseRules Sample.toLowerCase Sample.sortOrder).
  discriminate.
Defined.

(** The specification's scenario C: the request to create a skill is
    answered with the suggestion of the rule that has the keyword [skill]
    and the intent [create]. *)
Example scenario_create_skill :
  printed (Sample.evalRun Sample.request (Contents "rules"))
  = Some ("<system-reminder>" +:+ nl +:+ "Skill suggestion: Use CreateSkill"
            +:+ nl +:+ "</system-reminder>").
Proof. vm_compute. reflexivity. Qed.

(** Scenario D: a prompt that starts with an excluded prefix prints
    nothing, whatever the rules. *)
Example scenario_excluded_prefix :
  printed (Sample.evalRun "hello there, create a skill" (Contents "rules"))
  = None.
Proof. vm_compute. reflexivity. Qed.

End SkillEvalProofs.

(** * Further properties of the hooks *)

(** ** White space *)

Module TrimFacts.
Import Str StrFacts PathFacts Terms.

(** *** Stripping what a text starts with *)

Lemma stripAny_Some (ws : list string) (s r : string) :
  stripAny ws s = Some r -> exists w, In w ws /\ s = w +:+ r.
Proof.
  induction ws as [|w ws IH]; simpl; [done|].
  destruct (stripPrefix w s) as [r'|] eqn:E.
  - intros [= <-]. exists w. split; [by left|]. by apply stripPrefix_Some.
  - intros H. destruct (IH H) as (w' & Hin & Hs). exists w'.
    split; [by right|done].
Qed.

Lemma stripAll_fixed (ws : list string) (n : nat) (s : string) :
  stripAny ws s = None -> stripAll ws n s = s.
Proof. destruct n; simpl; [done|]. by intros ->. Qed.

Lemma stripAny_empty (ws : list string) :
  (forall w, In w ws -> w <> "") -> stripAny ws "" = None.
Proof.
  induction ws as [|w ws IH]; simpl; [done|]. intros H.
  destruct w as [|c w]; [by destruct (H "" (or_introl eq_refl))|].
  simpl. apply IH. intros w' Hin. apply H. by right.
Qed.

Lemma length_positive (w : string) : w <> "" -> 0 < String.length w.
Proof. destruct w; [done|]. simpl. lia. Qed.

(** With a step for every character, nothing of [ws] is left at the
    start. *)
Lemma stripAll_done (ws : list string) (n : nat) (s : string) :
  (forall w, In w ws -> w <> "") ->
  String.length s <= n -> stripAny ws (stripAll ws n s) = None.
Proof.
  intros Hws. revert s. induction n as [|n IH]; intros s Hn; simpl.
  - destruct s; [|simpl in Hn; lia]. by apply stripAny_empty.
  - destruct (stripAny ws s) as [r|] eqn:E; [|done].
    apply IH. destruct (stripAny_Some _ _ _ E) as (w & Hin & ->).
    rewrite NormalizerProofs.length_app in Hn.
    pose proof (length_positive w (Hws w Hin)). lia.
Qed.

(** What is left is the end of the text. *)
Lemma stripAll_suffix (ws : list string) (n : nat) (s : string) :
  exists u, s = u +:+ stripAll ws n s.
Proof.
  revert s. induction n as [|n IH]; intros s; simpl; [by exists ""|].
  destruct (stripAny ws s) as [r|] eqn:E; [|by exists ""].
  destruct (stripAny_Some _ _ _ E) as (w & _ & ->).
  destruct (IH r) as [u Hu]. exists (w +:+ u).
  by rewrite app_assoc, <- Hu.
Qed.

(** A text that starts with none of [ws] has no start that does. *)
Lemma stripAny_start (ws : list string) (s t : string) :
  stripAny ws (s +:+ t) = None -> (forall w, In w ws -> w <> "") ->
  stripAny ws s = None.
Proof.
  intros H Hws. destruct (stripAny ws s) as [r|] eqn:E; [|done].
  destruct (stripAny_Some _ _ _ E) as (w & Hin & ->).
  exfalso. clear E Hws. induction ws as [|w' ws IH]; [done|].
  simpl in H. destruct (stripPrefix w' ((w +:+ r) +:+ t)) eqn:E'; [done|].
  destruct Hin as [->|Hin]; [|by apply IH].
  by rewrite app_assoc, stripPrefix_app in E'.
Qed.

(** *** The white space of the language *)

Lemma whiteSpace_nonEmpty (w : string) : In w whiteSpace -> w <> "".
Proof.
  assert (forallb (fun w => negb (String.eqb w "")) whiteSpace = true) as H
    by reflexivity.
  intros Hin ->. by apply (proj1 (forallb_forall _ _) H) in Hin.
Qed.

Lemma whiteSpace_rev_nonEmpty (w : string) :
  In w whiteSpaceReversed -> w <> "".
Proof.
  assert (forallb (fun w => negb (String.eqb w ""))
            whiteSpaceReversed = true) as H by reflexivity.
  intros Hin ->. by apply (proj1 (forallb_forall _ _) H) in Hin.
Qed.

Lemma rev_cons (c : ascii) (s : string) :
  String.rev (String c s) = String.rev s +:+ String c "".
Proof. unfold String.rev at 1. simpl. by rewrite rev_app_app. Qed.

Lemma rev_snoc (c : ascii) (s : string) :
  String.rev (s +:+ String c "") = String c (String.rev s).
Proof. by rewrite srev_app_distr. Qed.

Lemma length_rev (s : string) : String.length (String.rev s) = String.length s.
Proof.
  induction s as [|c s IH]; [done|].
  rewrite rev_cons, NormalizerProofs.length_app, IH. simpl. lia.
Qed.

Lemma trimStart_done (s : string) : stripAny whiteSpace (trimStart s) = None.
Proof. apply stripAll_done; [apply whiteSpace_nonEmpty|done]. Qed.

Lemma trimStart_fixed (s : string) :
  stripAny whiteSpace s = None -> trimStart s = s.
Proof. apply stripAll_fixed. Qed.

Lemma trimStart_idem (s : string) : trimStart (trimStart s) = trimStart s.
Proof. apply trimStart_fixed, trimStart_done. Qed.

Lemma trimEnd_idem (s : string) : trimEnd (trimEnd s) = trimEnd s.
Proof.
  unfold trimEnd. rewrite srev_involutive. f_equal.
  apply stripAll_fixed, stripAll_done; [apply whiteSpace_rev_nonEmpty|].
  by rewrite length_rev.
Qed.

(** Trimming the end leaves a start of the text. *)
Lemma trimEnd_start (s : string) : exists v, s = trimEnd s +:+ v.
Proof.
  unfold trimEnd.
  destruct (stripAll_suffix whiteSpaceReversed (String.length s)
              (String.rev s)) as [u Hu].
  exists (String.rev u).
  by rewrite <- srev_app_distr, <- Hu, srev_involutive.
Qed.

(** Trimming what is trimmed changes nothing. *)
Lemma trim_idem (s : string) : trim (trim s) = trim s.
Proof.
  unfold trim. rewrite (trimStart_fixed (trimEnd _)).
  - apply trimEnd_idem.
  - destruct (trimEnd_start (trimStart s)) as [v Hv].
    apply (stripAny_start _ _ v); [|apply whiteSpace_nonEmpty].
    rewrite <- Hv. apply trimStart_done.
Qed.

(** A white space at the start of a text is what [stripAny] finds
    there. *)
Lemma stripAny_white (w s : string) :
  In w whiteSpace -> stripAny whiteSpace (w +:+ s) = Some s.
Proof.
  intros H. vm_compute in H.
  repeat (destruct H as [<-|H]; [reflexivity|]). destruct H.
Qed.

Lemma stripAll_blank (lead t : string) (n : nat) :
  Blank lead -> stripAny whiteSpace t = None -> String.length lead <= n ->
  stripAll whiteSpace n (lead +:+ t) = t.
Proof.
  intros Hl Ht. revert n. induction Hl as [|w s Hw Hs IH]; intros n Hn.
  - by apply stripAll_fixed.
  - rewrite NormalizerProofs.length_app in Hn.
    pose proof (length_positive w (whiteSpace_nonEmpty w Hw)).
    destruct n as [|n]; [lia|]. cbn [stripAll].
    rewrite app_assoc, stripAny_white by done. apply IH. lia.
Qed.

Lemma trimStart_blank (lead t : string) :
  Blank lead -> stripAny whiteSpace t = None -> trimStart (lead +:+ t) = t.
Proof.
  intros Hl Ht. apply stripAll_blank; [done..|].
  rewrite NormalizerProofs.length_app. lia.
Qed.

(** No white space starts with an inked character, read forwards or
    backwards, and none has one. *)
Lemma stripAny_inked (c : ascii) (x : string) :
  inked c = true ->
  stripAny whiteSpace (String c x) = None
  /\ stripAny whiteSpaceReversed (String c x) = None.
Proof.
  destruct c as [[] [] [] [] [] [] [] []]; intros H;
    first [ discriminate H | split; reflexivity ].
Qed.

Lemma whiteSpace_rev_plain (w : string) :
  In w whiteSpaceReversed ->
  allChars (fun c => negb (inked c)) w = true.
Proof.
  assert (forallb (allChars (fun c => negb (inked c)))
            whiteSpaceReversed = true) as H by reflexivity.
  apply (proj1 (forallb_forall _ _) H).
Qed.

Lemma split_before (w a : string) (z : ascii) (q r : string) :
  allChars (fun c => negb (inked c)) w = true -> inked z = true ->
  a +:+ String z q = w +:+ r ->
  exists a', a = w +:+ a' /\ r = a' +:+ String z q.
Proof.
  intros Hw Hz. revert a. induction w as [|c w IH]; intros a H.
  - exists a. by rewrite app_nil_l in H.
  - simpl in Hw. apply andb_prop in Hw as [Hc Hw].
    destruct a as [|x a].
    + rewrite app_nil_l, app_cons in H. injection H as <- _.
      by rewrite Hz in Hc.
    + rewrite !app_cons in H. injection H as -> H.
      destruct (IH Hw a H) as (a' & -> & ->). by exists a'.
Qed.

(** Stripping white space from the reversed text stops before an inked
    character. *)
Lemma stripAll_before (n : nat) (a : string) (z : ascii) (q : string) :
  inked z = true ->
  exists u, stripAll whiteSpaceReversed n (a +:+ String z q)
            = u +:+ String z q.
Proof.
  intros Hz. revert a. induction n as [|n IH]; intros a; cbn [stripAll];
    [by exists a|].
  destruct (stripAny whiteSpaceReversed (a +:+ String z q)) as [r|] eqn:E;
    [|by exists a].
  destruct (stripAny_Some _ _ _ E) as (w & Hin & Hs).
  destruct (split_before w a z q r (whiteSpace_rev_plain w Hin) Hz Hs)
    as (a' & _ & ->).
  apply IH.
Qed.

Lemma solid_inv (p : string) :
  solid p = true ->
  isAscii p = true /\
  exists a k z q, p = String a k /\ inked a = true /\
                  String.rev p = String z q /\ inked z = true.
Proof.
  unfold solid. intros H. apply andb_prop in H as [Hascii H].
  split; [done|]. destruct p as [|a k]; [done|].
  destruct (String.rev (String a k)) as [|z q] eqn:E; [done|].
  apply andb_prop in H as [Ha Hz]. by exists a, k, z, q.
Qed.

(** Trimming takes the white space before a solid text away and keeps
    the text. *)
Lemma trim_solid (lead p rest : string) :
  Blank lead -> solid p = true ->
  exists y, trim (lead +:+ p +:+ rest) = p +:+ y.
Proof.
  intros Hl Hp.
  destruct (solid_inv p Hp) as (_ & a & k & z & q & Ep & Ha & Er & Hz).
  unfold trim. rewrite trimStart_blank; [|done|].
  2: { rewrite Ep, app_cons.
       by destruct (stripAny_inked a (k +:+ rest) Ha) as [H _]. }
  unfold trimEnd. rewrite srev_app_distr, Er.
  destruct (stripAll_before (String.length (p +:+ rest)) (String.rev rest)
              z q Hz) as [u ->].
  rewrite srev_app_distr, <- Er, srev_involutive. by exists (String.rev u).
Qed.

(** A no-break space and a space are white space. *)
Lemma margin_Blank : Blank Cases.margin.
Proof.
  apply (Blank_more Cases.noBreakSpace " "); [vm_compute; tauto|].
  apply (Blank_more " " ""); [vm_compute; tauto|constructor].
Qed.

(** *** Lower case *)

Lemma asciiLower_app (a b : string) :
  asciiLower (a +:+ b) = asciiLower a +:+ asciiLower b.
Proof.
  induction a as [|c a IH]; [done|]. rewrite app_cons. simpl. by rewrite IH.
Qed.

(** Lowering the ASCII letters and nothing else is a lowering as
    [LowersAscii] has it. *)
Lemma asciiLower_LowersAscii : LowersAscii asciiLower.
Proof. intros a b _. exists (asciiLower b). apply asciiLower_app. Qed.

(** A prompt with a solid text after its leading white space, once
    trimmed and in lower case, starts with that text in lower case. *)
Lemma trimmed_prompt_starts (toLowerCase : string -> string)
  (lead p rest : string) :
  LowersAscii toLowerCase -> Blank lead -> solid p = true ->
  startsWith (toLowerCase (trim (lead +:+ p +:+ rest))) (asciiLower p) = true.
Proof.
  intros Hlow Hl Hp. destruct (trim_solid lead p rest Hl Hp) as [y ->].
  destruct (solid_inv p Hp) as [Hascii _].
  destruct (Hlow p y Hascii) as [b' ->]. apply prefix_app.
Qed.

End TrimFacts.

(** ** The decisions of the validator *)

Module DecisionProofs.
Import Json Host Wording Str StrFacts PathFacts ValidatorProofs Terms.

Section WithEnvironment.
Variable home : string.
Variable cwd : string.
Variable RegExp : string -> string -> option (string -> bool).

Abbreviation run := (Validator.run home cwd RegExp).
Abbreviation loadPatterns := (Validator.loadPatterns home RegExp).
Abbreviation expandPath := (Paths.expandPath home).
Abbreviation resolve := (Paths.resolve cwd).

(** X1. When [security/patterns.yaml] does not exist there is no rule:
    every well-formed invocation is allowed, a [Bash] invocation provided
    its command is a string that is not empty. *)
Theorem missing_patterns_file_allows (raw : json)
  (input : Validator.HookInput) :
  Validator.validateInput raw = Some input ->
  (Validator.tool_name input = "Bash" ->
   exists cmd, Validator.extractCommand (Validator.tool_input input) = Some cmd
               /\ cmd <> "") ->
  run raw Missing = emit Continue.
Proof.
  intros Hv Hb. unfold Validator.run. rewrite Hv. simpl.
  unfold Validator.checkBash, Validator.checkPath.
  destruct (String.eqb_spec (Validator.tool_name input) "Bash") as [Ht|Ht];
    simpl.
  - destruct (Hb Ht) as (cmd & -> & Hne). rewrite (eqb_neq_str _ _ Hne). simpl.
    destruct (Validator.extractPath _) as [fp|]; [|done].
    destruct (String.eqb fp ""); [done|]. simpl. by rewrite andb_false_r.
  - destruct (Validator.extractPath _) as [fp|]; [|done].
    destruct (String.eqb fp ""); [done|]. simpl. by rewrite andb_false_r.
Qed.

(** X2. The validator always answers: either the payload is refused and
    the run ends with status 2 and nothing printed, or the payload is
    accepted and the run prints one decision and ends with status 0. *)
Theorem validator_always_answers (raw : json) (file : File) :
  (Validator.validateInput raw = None /\ run raw file = hardExit)
  \/ (Validator.validateInput raw <> None /\ exitCode (run raw file) = 0%Z
      /\ exists o, stdout (run raw file) = Some o).
Proof.
  unfold Validator.run.
  destruct (Validator.validateInput raw) as [input|]; [|by left].
  right. split; [done|].
  destruct (Validator.loadPatterns home RegExp file) as [ps|]; [|by eauto].
  unfold Validator.checkBash, Validator.checkPath.
  repeat case_match; simplify_eq; simpl; eauto.
Qed.

(** X3. Only [Bash], [Write] and [Edit] invocations are ever answered
    with a request to confirm: a [Read], or a tool the validator does not
    know, is blocked or allowed. *)
Theorem only_bash_write_edit_are_asked (raw : json)
  (input : Validator.HookInput) (file : File) :
  Validator.validateInput raw = Some input ->
  decisionOf (run raw file) = Some Ask ->
  Validator.tool_name input = "Bash" \/ Validator.tool_name input = "Write"
  \/ Validator.tool_name input = "Edit".
Proof.
  intros Hv. unfold Validator.run. rewrite Hv.
  destruct (Validator.loadPatterns home RegExp file) as [ps|]; [|done].
  destruct (String.eqb_spec (Validator.tool_name input) "Bash") as [Ht|Ht];
    [by left|].
  rewrite checkBash_other_tool by done.
  unfold Validator.checkPath.
  destruct (Validator.extractPath _) as [fp|]; [|done].
  destruct (String.eqb fp ""); [done|].
  destruct (existsb _ (Validator.zeroAccessOf ps)); [done|].
  destruct (String.eqb_spec (Validator.tool_name input) "Write"); [by auto|].
  destruct (String.eqb_spec (Validator.tool_name input) "Edit"); [by auto|].
  done.
Qed.

(** X4. Outside [Bash], [Write] and [Edit] the name of the tool plays no
    part: two invocations with the same [tool_input] get the same answer,
    so a tool the validator does not know has its [file_path] checked as
    that of a [Read] is. *)
Theorem other_tools_are_checked_alike (raw1 raw2 : json)
  (i1 i2 : Validator.HookInput) (file : File) :
  Validator.validateInput raw1 = Some i1 ->
  Validator.validateInput raw2 = Some i2 ->
  Validator.tool_input i1 = Validator.tool_input i2 ->
  (forall t, In t ["Bash"; "Write"; "Edit"] ->
             Validator.tool_name i1 <> t /\ Validator.tool_name i2 <> t) ->
  run raw1 file = run raw2 file.
Proof.
  intros H1 H2 Hi Ht. unfold Validator.run. rewrite H1, H2.
  destruct (Validator.loadPatterns home RegExp file) as [ps|]; [|done].
  destruct (Ht "Bash") as [Hb1 Hb2]; [by left|].
  destruct (Ht "Write") as [Hw1 Hw2]; [by right; left|].
  destruct (Ht "Edit") as [He1 He2]; [by right; right; left|].
  rewrite !checkBash_other_tool by done.
  unfold Validator.checkPath. rewrite Hi.
  by rewrite !(eqb_neq_str _ _ Hw1), !(eqb_neq_str _ _ Hw2),
    !(eqb_neq_str _ _ He1), !(eqb_neq_str _ _ He2).
Qed.

(** X5. [validateInput] accepts exactly the objects whose [tool_name] and
    [session_id] are strings and whose [tool_input] is an object or an
    array, and hands these three fields on as they are; every other
    member of the payload is ignored. *)
Theorem validateInput_accepts_exactly (raw : json)
  (input : Validator.HookInput) :
  Validator.validateInput raw = Some input <->
  exists members,
    raw = JObj members /\
    lookupLast "tool_name" members = Some (JStr (Validator.tool_name input)) /\
    lookupLast "session_id" members
      = Some (JStr (Validator.session_id input)) /\
    lookupLast "tool_input" members = Some (Validator.tool_input input) /\
    ((exists ms, Validator.tool_input input = JObj ms)
     \/ (exists items, Validator.tool_input input = JArr items)).
Proof.
  unfold Validator.validateInput. split.
  - destruct raw as [|b|x|s|items|members]; simpl; try done.
    { by destruct b. } { by destruct (negb _). } { by destruct (negb _). }
    intros H. exists members. split; [done|].
    destruct (lookupLast "tool_name" members) as [[| | |name| |]|]; try done.
    destruct (lookupLast "session_id" members) as [[| | |sid| |]|]; try done.
    destruct (lookupLast "tool_input" members) as [ti|]; [|done].
    destruct ti; simpl in H; try done; injection H as <-; simpl;
      repeat split; eauto.
  - intros (members & -> & Hn & Hs & Hi & Hshape). simpl.
    rewrite Hn, Hs, Hi. destruct input as [n ti s]. simpl in *.
    by destruct Hshape as [[ms ->]|[items ->]].
Qed.

(** X6. For a tool other than [Bash], an invocation whose [file_path] is
    absent, not a string or the empty string is allowed without any
    check, whatever else its input carries. *)
Theorem invocation_without_file_path_is_allowed (raw : json)
  (input : Validator.HookInput) (file : File)
  (ps : Validator.SecurityPatterns) :
  Validator.validateInput raw = Some input ->
  Validator.tool_name input <> "Bash" ->
  loadPatterns file = Some ps ->
  Validator.extractPath (Validator.tool_input input) = None
  \/ Validator.extractPath (Validator.tool_input input) = Some "" ->
  run raw file = emit Continue.
Proof.
  intros Hv Ht Hl Hp. rewrite (run_path_tool home cwd RegExp raw input file ps) by done.
  unfold Validator.checkPath. by destruct Hp as [->| ->].
Qed.

(** X7. Once the patterns are loaded, a [Bash] invocation is answered
    with the block [Bash command is missing or not a string] exactly when
    its command is absent, not a string, or the empty string. *)
Theorem bash_without_a_command_is_blocked (raw : json)
  (input : Validator.HookInput) (file : File)
  (ps : Validator.SecurityPatterns) :
  Validator.validateInput raw = Some input ->
  Validator.tool_name input = "Bash" ->
  loadPatterns file = Some ps ->
  run raw file = noCommand <->
  Validator.extractCommand (Validator.tool_input input) = None
  \/ Validator.extractCommand (Validator.tool_input input) = Some "".
Proof.
  intros Hv Ht Hl. unfold Validator.run. rewrite Hv, Hl.
  unfold Validator.checkBash, Validator.checkPath. rewrite Ht. simpl.
  destruct (Validator.extractCommand _) as [cmd|]; [|by split; auto].
  destruct (String.eqb_spec cmd "") as [->|Hne]; [by split; auto|].
  split; [|by intros [|[=]]].
  unfold noCommand, emit, dq.
  destruct (Validator.firstMatch (Validator.blockOf ps) _);
    [rewrite !app_cons; by intros [=]|].
  destruct (Validator.commandReferencesProtectedPath _ _ _ _);
    [by intros [=]|].
  destruct (Validator.firstMatch (Validator.confirmOf ps) _);
    [by intros [=]|].
  destruct (Validator.extractPath _) as [fp|]; [|by intros [=]].
  destruct (String.eqb fp ""); [by intros [=]|].
  destruct (existsb _ (Validator.zeroAccessOf ps));
    [rewrite !app_cons; by intros [=]|].
  by intros [=].
Qed.

(** X8. For a tool other than [Bash] with a [file_path] that is not
    empty, the validator asks to confirm exactly when the tool is [Write]
    or [Edit], no zero-access path is the start of the canonical path,
    and a confirm-write entry occurs somewhere in the text of the
    canonical path. *)
Theorem confirm_write_asks_by_substring (raw : json)
  (input : Validator.HookInput) (fp : string) (file : File)
  (ps : Validator.SecurityPatterns) :
  Validator.validateInput raw = Some input ->
  Validator.tool_name input <> "Bash" ->
  Validator.extractPath (Validator.tool_input input) = Some fp ->
  fp <> "" ->
  loadPatterns file = Some ps ->
  let canon := resolve (expandPath fp) in
  decisionOf (run raw file) = Some Ask <->
  (Validator.tool_name input = "Write" \/ Validator.tool_name input = "Edit")
  /\ (forall p, In p (Validator.zeroAccessOf ps) ->
                String.prefix (resolve p) canon = false)
  /\ exists c, In c (Validator.confirmWriteOf ps) /\ includes canon c = true.
Proof.
  intros Hv Ht Hp Hne Hl canon.
  rewrite (run_path_tool home cwd RegExp raw input file ps) by done.
  unfold Validator.checkPath. rewrite Hp, (eqb_neq_str _ _ Hne).
  fold canon. unfold startsWith.
  destruct (existsb (fun p => String.prefix (resolve p) canon)
              (Validator.zeroAccessOf ps)) eqn:Ez.
  { split; [done|]. intros (_ & Hz & _).
    apply existsb_exists in Ez as (p & Hin & Hpre).
    by rewrite (Hz p Hin) in Hpre. }
  assert (forall p, In p (Validator.zeroAccessOf ps) ->
                    String.prefix (resolve p) canon = false) as Hz.
  { intros p Hin. destruct (String.prefix (resolve p) canon) eqn:E; [|done].
    assert (existsb (fun p => String.prefix (resolve p) canon)
              (Validator.zeroAccessOf ps) = true) as Hex
      by (apply existsb_exists; by exists p).
    congruence. }
  destruct (existsb (fun c => includes canon c) (Validator.confirmWriteOf ps))
    eqn:Ec.
  - apply existsb_exists in Ec.
    destruct (String.eqb_spec (Validator.tool_name input) "Write") as [Hw|Hw];
      [by simpl; split; auto|].
    destruct (String.eqb_spec (Validator.tool_name input) "Edit") as [He|He];
      [by simpl; split; auto|].
    simpl. split; [done|]. by intros ([|] & _).
  - rewrite andb_false_r. simpl. split; [done|].
    intros (_ & _ & c & Hin & Hc).
    assert (existsb (fun c => includes canon c) (Validator.confirmWriteOf ps)
            = true) as Hex by (apply existsb_exists; by exists c).
    congruence.
Qed.

End WithEnvironment.

(** X1 at [ls] with no pattern file. *)
Lemma missing_patterns_file_allows_witness :
  sampleRun (Sample.bash "ls") Missing = emit Continue.
Proof.
  apply (missing_patterns_file_allows Sample.home Sample.cwd
           Sample.plainRegExp (Sample.bash "ls")
           (Sample.inputOf "Bash" [ ("command", JStr "ls") ])).
  - reflexivity.
  - intros _. exists "ls". split; [reflexivity|discriminate].
Defined.

(** X3 at an [Edit] of [/work/.env], which the sample patterns ask
    about. *)
Lemma only_bash_write_edit_are_asked_witness :
  let input := Sample.inputOf "Edit" [ ("file_path", JStr "/work/.env") ] in
  Validator.tool_name input = "Bash" \/ Validator.tool_name input = "Write"
  \/ Validator.tool_name input = "Edit".
Proof.
  apply (only_bash_write_edit_are_asked Sample.home Sample.cwd
           Sample.plainRegExp (Sample.onPath "Edit" "/work/.env")
           (Sample.inputOf "Edit" [ ("file_path", JStr "/work/.env") ])
           (Contents Sample.patternsYaml)).
  - reflexivity.
  - vm_compute. reflexivity.
Defined.

(** X4 at a [Read] and a [Glob] of the same protected file. *)
Lemma other_tools_are_checked_alike_witness :
  sampleRun (Sample.onPath "Read" "~/.ssh/id_rsa")
    (Contents Sample.patternsYaml)
  = sampleRun (Sample.onPath "Glob" "~/.ssh/id_rsa")
      (Contents Sample.patternsYaml).
Proof.
  apply (other_tools_are_checked_alike Sample.home Sample.cwd
           Sample.plainRegExp _ _
           (Sample.inputOf "Read" [ ("file_path", JStr "~/.ssh/id_rsa") ])
           (Sample.inputOf "Glob" [ ("file_path", JStr "~/.ssh/id_rsa") ])).
  - reflexivity.
  - reflexivity.
  - reflexivity.
  - intros t [<-|[<-|[<-|[]]]]; split; discriminate.
Defined.

(** X6 at a [Grep], whose input has a [path] and no [file_path]. *)
Lemma invocation_without_file_path_is_allowed_witness :
  sampleRun (Sample.payload "Grep" [ ("path", JStr "~/.ssh") ])
    (Contents Sample.patternsYaml)
  = emit Continue.
Proof.
  apply (invocation_without_file_path_is_allowed Sample.home Sample.cwd
           Sample.plainRegExp _
           (Sample.inputOf "Grep" [ ("path", JStr "~/.ssh") ])
           (Contents Sample.patternsYaml) Sample.patterns).
  - reflexivity.
  - discriminate.
  - vm_compute. reflexivity.
  - left. reflexivity.
Defined.

(** X7 at a [Bash] invocation whose command is the empty string. *)
Lemma bash_without_a_command_is_blocked_witness :
  sampleRun (Sample.bash "") (Contents Sample.patternsYaml) = noCommand.
Proof.
  apply (bash_without_a_command_is_blocked Sample.home Sample.cwd
           Sample.plainRegExp (Sample.bash "")
           (Sample.inputOf "Bash" [ ("command", JStr "") ])
           (Contents Sample.patternsYaml) Sample.patterns).
  - reflexivity.
  - reflexivity.
  - vm_compute. reflexivity.
  - right. reflexivity.
Defined.

(** X8 at an [Edit] of [/work/.env]. *)
Lemma confirm_write_asks_by_substring_witness :
  decisionOf (sampleRun (Sample.onPath "Edit" "/work/.env")
                (Contents Sample.patternsYaml))
  = Some Ask.
Proof.
  apply (confirm_write_asks_by_substring Sample.home Sample.cwd
           Sample.plainRegExp (Sample.onPath "Edit" "/work/.env")
           (Sample.inputOf "Edit" [ ("file_path", JStr "/work/.env") ])
           "/work/.env" (Contents Sample.patternsYaml) Sample.patterns).
  - reflexivity.
  - discriminate.
  - reflexivity.
  - discriminate.
  - vm_compute. reflexivity.
  - split; [right; reflexivity|]. split.
    + intros p Hin. vm_compute in Hin. destruct Hin as [<-|[]].
      vm_compute. reflexivity.
    + exists ".env". split; [|vm_compute; reflexivity].
      vm_compute. left. reflexivity.
Defined.

End DecisionProofs.

(** ** The pattern file *)

Module PatternFileProofs.
Import Json Host Wording Str StrFacts PathFacts TrimFacts Terms.

Section WithEnvironment.
Variable home : string.
Variable RegExp : string -> string -> option (string -> bool).

Abbreviation loadPatterns := (Validator.loadPatterns home RegExp).
Abbreviation scanLine := (Validator.scanLine home RegExp).
Abbreviation FromLines := (Terms.FromLines home RegExp).

(** What holds at the start of a loop and is kept by every turn holds at
    its end. *)
Lemma fold_left_invariant {A B} (P : A -> Prop) (f : A -> B -> A)
  (l : list B) (a : A) :
  P a -> (forall a b, In b l -> P a -> P (f a b)) -> P (fold_left f l a).
Proof.
  revert a. induction l as [|b l IH]; intros a Ha Hf; [done|]. simpl.
  apply IH.
  - apply Hf; [by left|done].
  - intros a' b' Hin. apply Hf. by right.
Qed.

Lemma In_push {A} (l : option (list A)) (v x : A) :
  In x (orEmpty (Validator.push l v)) -> In x (orEmpty l) \/ x = v.
Proof.
  unfold Validator.push. simpl. rewrite in_app_iff.
  intros [H|[->|[]]]; auto.
Qed.

Lemma pushBlock_lists (p : Validator.SecurityPatterns)
  (c : Validator.CompiledPattern) :
  (forall x, In x (Validator.blockOf (Validator.pushBlock p c)) ->
             In x (Validator.blockOf p) \/ x = c)
  /\ Validator.confirmOf (Validator.pushBlock p c) = Validator.confirmOf p
  /\ Validator.zeroAccessOf (Validator.pushBlock p c) = Validator.zeroAccessOf p
  /\ Validator.confirmWriteOf (Validator.pushBlock p c)
     = Validator.confirmWriteOf p.
Proof.
  destruct p as [[[b k]|] rs]; repeat split; try done.
  intros x. apply In_push.
Qed.

Lemma pushConfirm_lists (p : Validator.SecurityPatterns)
  (c : Validator.CompiledPattern) :
  (forall x, In x (Validator.confirmOf (Validator.pushConfirm p c)) ->
             In x (Validator.confirmOf p) \/ x = c)
  /\ Validator.blockOf (Validator.pushConfirm p c) = Validator.blockOf p
  /\ Validator.zeroAccessOf (Validator.pushConfirm p c)
     = Validator.zeroAccessOf p
  /\ Validator.confirmWriteOf (Validator.pushConfirm p c)
     = Validator.confirmWriteOf p.
Proof.
  destruct p as [[[b k]|] rs]; repeat split; try done.
  intros x. apply In_push.
Qed.

Lemma pushZeroAccess_lists (p : Validator.SecurityPatterns) (v : string) :
  (forall x, In x (Validator.zeroAccessOf (Validator.pushZeroAccess p v)) ->
             In x (Validator.zeroAccessOf p) \/ x = v)
  /\ Validator.blockOf (Validator.pushZeroAccess p v) = Validator.blockOf p
  /\ Validator.confirmOf (Validator.pushZeroAccess p v) = Validator.confirmOf p
  /\ Validator.confirmWriteOf (Validator.pushZeroAccess p v)
     = Validator.confirmWriteOf p.
Proof.
  destruct p as [cs [[z w]|]]; repeat split; try done.
  intros x. apply In_push.
Qed.

Lemma pushConfirmWrite_lists (p : Validator.SecurityPatterns) (v : string) :
  (forall x, In x (Validator.confirmWriteOf (Validator.pushConfirmWrite p v)) ->
             In x (Validator.confirmWriteOf p) \/ x = v)
  /\ Validator.blockOf (Validator.pushConfirmWrite p v) = Validator.blockOf p
  /\ Validator.confirmOf (Validator.pushConfirmWrite p v)
     = Validator.confirmOf p
  /\ Validator.zeroAccessOf (Validator.pushConfirmWrite p v)
     = Validator.zeroAccessOf p.
Proof.
  destruct p as [cs [[z w]|]]; repeat split; try done.
  intros x. apply In_push.
Qed.

(** Reading one more line of the file keeps every rule an entry of the
    file. *)
Lemma scanLine_FromLines (lines : list string) (st : Validator.Scan)
  (line : string) :
  In line lines ->
  FromLines lines (Validator.patterns st) ->
  FromLines lines (Validator.patterns (scanLine st line)).
Proof.
  intros Hin (Hc & Hz & Hw). unfold Validator.scanLine.
  fold (entryOf line).
  assert (startsWith (trim line) "- " = true ->
          EntryOf lines (entryOf line)) as Hentry.
  { intros E. by exists line. }
  repeat case_match; try done; simpl; unfold Terms.FromLines.
  - destruct (pushBlock_lists (Validator.patterns st)
                {| Validator.regex := b; Validator.source := entryOf line |})
      as (Hb & -> & -> & ->).
    split; [|done]. intros p [Hp|Hp]; [|by auto].
    destruct (Hb p Hp) as [Hold| ->]; [by auto|]. split; [by apply Hentry|done].
  - destruct (pushConfirm_lists (Validator.patterns st)
                {| Validator.regex := b; Validator.source := entryOf line |})
      as (Hb & -> & -> & ->).
    split; [|done]. intros p [Hp|Hp]; [by auto|].
    destruct (Hb p Hp) as [Hold| ->]; [by auto|]. split; [by apply Hentry|done].
  - destruct (pushZeroAccess_lists (Validator.patterns st)
                (Paths.expandPath home (entryOf line))) as (Hb & -> & -> & ->).
    split; [done|]. split; [|done]. intros z Hin'.
    destruct (Hb z Hin') as [Hold| ->]; [by auto|].
    exists (entryOf line). split; [by apply Hentry|done].
  - destruct (pushConfirmWrite_lists (Validator.patterns st) (entryOf line))
      as (Hb & -> & -> & ->).
    split; [done|]. split; [done|]. intros z Hin'.
    destruct (Hb z Hin') as [Hold| ->]; [by auto|]. by apply Hentry.
Qed.

(** X9. Every rule [loadPatterns] returns is a list entry of the file, a
    line that starts with a hyphen and a space once trimmed: a block or
    confirm pattern is the text after the hyphen and the space, quotes
    removed, compiled by the regular-expression engine; a zero-access
    path is such a text with its home token expanded; a confirm-write
    path is such a text as written. No rule comes from any other line. *)
Theorem loaded_rules_are_entries_of_the_file (content : string)
  (ps : Validator.SecurityPatterns) :
  loadPatterns (Contents content) = Some ps ->
  FromLines (linesOf content) ps.
Proof.
  intros [= <-]. apply (fold_left_invariant
    (fun st => FromLines (linesOf content) (Validator.patterns st))).
  - split; [|split]; by intros ? [].
  - intros st line Hin. by apply scanLine_FromLines.
Qed.

(** *** Lines that do not count *)

Lemma scanLine_trim (st : Validator.Scan) (line : string) :
  scanLine st (trim line) = scanLine st line.
Proof. unfold Validator.scanLine. by rewrite trim_idem. Qed.

Lemma scanLine_insignificant (st : Validator.Scan) (line : string) :
  significant line = false -> scanLine st line = st.
Proof.
  unfold significant, Validator.scanLine. intros H%negb_false_iff. by rewrite H.
Qed.

Lemma fold_scan_significant (lines : list string) (st : Validator.Scan) :
  fold_left scanLine lines st
  = fold_left scanLine (map trim (List.filter significant lines)) st.
Proof.
  revert st. induction lines as [|line lines IH]; intros st; [done|]. simpl.
  destruct (significant line) eqn:E; simpl.
  - by rewrite scanLine_trim.
  - by rewrite scanLine_insignificant.
Qed.

(** X10. Blank lines, comment lines and the white space around a line
    carry no meaning: two pattern files whose other lines, trimmed, are
    the same in the same order load the same patterns. In particular the
    indentation of an entry does not decide the list it joins. *)
Theorem comments_and_indentation_are_ignored (c1 c2 : string) :
  map trim (List.filter significant (linesOf c1))
  = map trim (List.filter significant (linesOf c2)) ->
  loadPatterns (Contents c1) = loadPatterns (Contents c2).
Proof.
  intros H. unfold Validator.loadPatterns. f_equal. f_equal.
  fold (linesOf c1) (linesOf c2).
  by rewrite (fold_scan_significant (linesOf c1)),
    (fold_scan_significant (linesOf c2)), H.
Qed.

(** *** A file without section headers *)

Lemma scanLine_no_section (st : Validator.Scan) (line : string) :
  trim line <> "commands:" -> trim line <> "paths:" ->
  Validator.currentSection st = "" ->
  Validator.currentSection (scanLine st line) = ""
  /\ Validator.patterns (scanLine st line) = Validator.patterns st.
Proof.
  intros H1 H2 Hs. unfold Validator.scanLine.
  rewrite (eqb_neq_str _ _ H1), (eqb_neq_str _ _ H2), Hs. simpl.
  by repeat case_match.
Qed.

(** X11. Entries count only below a line that reads [commands:] or
    [paths:]: a pattern file none of whose lines is one of these two
    headers loads as the patterns without any rule. *)
Theorem entries_need_a_section_header (content : string) :
  (forall line, In line (linesOf content) ->
                trim line <> "commands:" /\ trim line <> "paths:") ->
  loadPatterns (Contents content) = Some Validator.emptyPatterns.
Proof.
  intros H. unfold Validator.loadPatterns. f_equal. fold (linesOf content).
  apply (fold_left_invariant
    (fun st => Validator.currentSection st = ""
               /\ Validator.patterns st = Validator.emptyPatterns)
    scanLine (linesOf content)).
  - done.
  - intros st line Hin [Hs Hp]. destruct (H line Hin) as [H1 H2].
    destruct (scanLine_no_section st line H1 H2 Hs) as [-> ->]. done.
Qed.

End WithEnvironment.

(** X9 at the sample pattern file. *)
Lemma loaded_rules_are_entries_of_the_file_witness :
  Terms.FromLines Sample.home Sample.plainRegExp
    (linesOf Sample.patternsYaml) Sample.patterns.
Proof.
  apply (loaded_rules_are_entries_of_the_file Sample.home Sample.plainRegExp).
  vm_compute. reflexivity.
Defined.

(** X10 at the sample pattern file and the same with a byte order mark
    at its start, a comment, a blank line and other indentation. *)
Lemma comments_and_indentation_are_ignored_witness :
  Validator.loadPatterns Sample.home Sample.plainRegExp
    (Contents Sample.patternsYaml)
  = Validator.loadPatterns Sample.home Sample.plainRegExp
      (Contents Cases.patternsYamlAnnotated).
Proof.
  apply (comments_and_indentation_are_ignored Sample.home Sample.plainRegExp).
  vm_compute. reflexivity.
Defined.

(** X11 at a pattern file whose header reads [Commands:]. *)
Lemma entries_need_a_section_header_witness :
  Validator.loadPatterns Sample.home Sample.plainRegExp
    (Contents Cases.patternsYamlNoHeader)
  = Some Validator.emptyPatterns.
Proof.
  apply (entries_need_a_section_header Sample.home Sample.plainRegExp).
  intros line Hin. vm_compute in Hin.
  repeat (destruct Hin as [<-|Hin]; [split; vm_compute; discriminate|]).
  destruct Hin.
Defined.

End PatternFileProofs.

(** ** Home tokens at the head of a path *)

Module ExpandPathProofs.
Import Str StrFacts Paths Wording PathFacts Terms.

Lemma tokenAtHead_Some (tok p rest : string) :
  tokenAtHead tok p = Some rest -> p = tok +:+ rest /\ FollowsToken rest.
Proof.
  unfold tokenAtHead. destruct (stripPrefix tok p) as [r|] eqn:E; [|done].
  apply stripPrefix_Some in E. destruct r as [|c r].
  - intros [= <-]. split; [done|by left].
  - destruct (Ascii.eqb_spec c "/") as [->|]; [|done].
    intros [= <-]. split; [done|]. right. by exists r.
Qed.

Lemma replaceHead_no_token (tok rep p : string) :
  (forall rest, FollowsToken rest -> p <> tok +:+ rest) ->
  replaceHead tok rep p = p.
Proof.
  intros H. unfold replaceHead.
  destruct (tokenAtHead tok p) as [rest|] eqn:E; [|done].
  apply tokenAtHead_Some in E as [-> Hr]. by destruct (H rest Hr).
Qed.

(** X13. [expandPath] changes a path only when the path is a home token
    ([~], [$HOME] or [${HOME}]) alone or followed by a slash: every other
    path, such as [~user/x], [$HOMEDIR/x] or a path with a token further
    on, is returned as it is. *)
Theorem expandPath_needs_a_leading_token (home p : string) :
  (forall tok rest, In tok homeTokens -> FollowsToken rest ->
                    p <> tok +:+ rest) ->
  expandPath home p = p.
Proof.
  intros H. unfold expandPath.
  rewrite (replaceHead_no_token "$HOME")
    by (intros rest Hr; apply H; [simpl; auto|done]).
  rewrite (replaceHead_no_token "${HOME}")
    by (intros rest Hr; apply H; [simpl; auto|done]).
  apply replaceHead_no_token. intros rest Hr. apply H; [simpl; auto|done].
Qed.

(** A path that starts with a slash has no token at its head. *)
Lemma expandPath_absolute (home t : string) :
  expandPath home (String "/" t) = String "/" t.
Proof.
  unfold expandPath.
  rewrite (replaceHead_other "$HOME" home "$" "/" "HOME") by done.
  rewrite (replaceHead_other "${HOME}" home "$" "/" "{HOME}") by done.
  by rewrite (replaceHead_other "~" home "~" "/" "") by done.
Qed.

Lemma expandPath_cases (home p : string) :
  PlainHome home ->
  expandPath home p = p
  \/ exists rest, FollowsToken rest /\ expandPath home p = home +:+ rest.
Proof.
  intros Hh.
  destruct (tokenAtHead "$HOME" p) as [rest|] eqn:E1.
  { apply tokenAtHead_Some in E1 as [-> Hr]. right. exists rest.
    split; [done|].
    by destruct (expandPath_spellings home rest Hh Hr) as (? & ? & ?). }
  destruct (tokenAtHead "${HOME}" p) as [rest|] eqn:E2.
  { apply tokenAtHead_Some in E2 as [-> Hr]. right. exists rest.
    split; [done|].
    by destruct (expandPath_spellings home rest Hh Hr) as (? & ? & ?). }
  destruct (tokenAtHead "~" p) as [rest|] eqn:E3.
  { apply tokenAtHead_Some in E3 as [-> Hr]. right. exists rest.
    split; [done|].
    by destruct (expandPath_spellings home rest Hh Hr) as (? & ? & ?). }
  left. unfold expandPath, replaceHead. by rewrite E1, E2, E3.
Qed.

(** X12. When the home directory is an absolute path without a dollar
    sign, expanding a path twice is expanding it once. The validator
    relies on it: it expands a zero-access path when it loads the file
    and again when it looks for the path in a command. *)
Theorem expandPath_is_idempotent (home p : string) :
  PlainHome home ->
  expandPath home (expandPath home p) = expandPath home p.
Proof.
  intros Hh. destruct (expandPath_cases home p Hh) as [E|(rest & _ & ->)].
  - by rewrite !E.
  - destruct (home_head home Hh) as [t ->]. rewrite app_cons.
    apply expandPath_absolute.
Qed.

(** X12 at [$HOME/.ssh]. *)
Lemma expandPath_is_idempotent_witness :
  expandPath Sample.home (expandPath Sample.home "$HOME/.ssh")
  = expandPath Sample.home "$HOME/.ssh".
Proof.
  apply (expandPath_is_idempotent Sample.home "$HOME/.ssh").
  split; reflexivity.
Defined.

(** X13 at [~user/x], a path in another user's home. *)
Lemma expandPath_needs_a_leading_token_witness :
  expandPath Sample.home "~user/x" = "~user/x".
Proof.
  apply (expandPath_needs_a_leading_token Sample.home "~user/x").
  intros tok rest [<-|[<-|[<-|[]]]] [->|[r ->]]; discriminate.
Defined.

End ExpandPathProofs.

(** ** More on the text normalizer *)

Module NormalizerLaws.
Import Str StrFacts Validator Wording NormalizerFacts NormalizerProofs Terms.

Lemma not_token_head (c : ascii) (s : string) :
  c <> "$"%char -> ~ BracedAt (String c s) /\ ~ BareAt (String c s).
Proof.
  intros Hc. split.
  - intros [r Hr]. rewrite app_cons in Hr. congruence.
  - intros (r & Hr & _). rewrite app_cons in Hr. congruence.
Qed.

(** A text without a dollar sign goes through the normalizer as it is,
    whatever follows it. *)
Lemma normalize_plain (t r : string) :
  dollarFree t = true ->
  normalizeHomeTokens (t +:+ r) = t +:+ normalizeHomeTokens r.
Proof.
  induction t as [|c t IH]; [done|]. simpl. intros H.
  apply andb_prop in H as [Hc H]. apply negb_true_iff, Ascii.eqb_neq in Hc.
  destruct (not_token_head c (t +:+ r) Hc) as [Hb Hr].
  rewrite app_cons, normalize_keep by done. by rewrite IH.
Qed.

(** X15. A command without a dollar sign is not changed by the
    normalizer: the patterns are tested against it as it was typed. *)
Theorem commands_without_dollar_are_kept (c : string) :
  dollarFree c = true -> normalizeHomeTokens c = c.
Proof.
  intros H. rewrite <- (app_nil_r c) at 1.
  rewrite normalize_plain by done. by rewrite normalize_nil, app_nil_r.
Qed.

(** *** Normalizing twice *)

Lemma TokensReplaced_head (r o : string) :
  TokensReplaced r o -> headIsWord r = headIsWord o.
Proof. by destruct 1. Qed.

Lemma TokensReplaced_plain_prefix (p rest o : string) :
  allChars unmarked p = true ->
  TokensReplaced rest (p +:+ o) ->
  exists r', rest = p +:+ r' /\ TokensReplaced r' o.
Proof.
  revert rest. induction p as [|a p IH]; intros rest Hp H.
  { by exists rest. }
  simpl in Hp. apply andb_prop in Hp as [Ha Hp].
  apply andb_prop in Ha as [Ha1 Ha2].
  apply negb_true_iff, Ascii.eqb_neq in Ha1, Ha2.
  rewrite app_cons in H.
  inversion H; subst; try done.
  match goal with
  | H' : TokensReplaced ?r (p +:+ o) |- _ =>
      destruct (IH r Hp H') as (r' & -> & Hr'); by exists r'
  end.
Qed.

(** The output of the normalizer has no token left in it. *)
Lemma TokensReplaced_fixed (c out : string) :
  TokensReplaced c out -> TokensReplaced out out.
Proof.
  induction 1 as [|r o H IH|r o W H IH|a r o Hb Hr H IH].
  - constructor.
  - rewrite app_cons, app_nil_l.
    by constructor; [apply not_token_head..|].
  - rewrite app_cons, app_nil_l.
    by constructor; [apply not_token_head..|].
  - constructor; [| |done].
    + intros [x Hx]. rewrite app_cons in Hx. injection Hx as -> ->.
      destruct (TokensReplaced_plain_prefix "{HOME}" r x eq_refl H)
        as (r' & -> & _).
      apply Hb. by exists r'.
    + intros (x & Hx & W). rewrite app_cons in Hx. injection Hx as -> ->.
      destruct (TokensReplaced_plain_prefix "HOME" r x eq_refl H)
        as (r' & -> & Hr').
      apply Hr. exists r'. split; [done|].
      by rewrite (TokensReplaced_head _ _ Hr').
Qed.

(** Normalizing what is normalized changes nothing. *)
Lemma normalize_fixed (c : string) :
  normalizeHomeTokens (normalizeHomeTokens c) = normalizeHomeTokens c.
Proof.
  eapply TokensReplaced_functional.
  - apply normalize_replaces_tokens.
  - eapply TokensReplaced_fixed, normalize_replaces_tokens.
Qed.

(** X14. Normalizing a command twice is normalizing it once: the
    replacement of the tokens leaves no token behind and makes no new
    one. So the search for protected paths, which normalizes the command
    it is given, finds the same in the command as typed and in the
    command [main] has already normalized. *)
Theorem normalizing_twice_changes_nothing (c : string) :
  normalizeHomeTokens (normalizeHomeTokens c) = normalizeHomeTokens c
  /\ forall home cwd protectedPaths,
       commandReferencesProtectedPath home cwd (normalizeHomeTokens c)
         protectedPaths
       = commandReferencesProtectedPath home cwd c protectedPaths.
Proof.
  split; [apply normalize_fixed|]. intros home cwd ps.
  unfold commandReferencesProtectedPath. by rewrite normalize_fixed.
Qed.

(** X15 at [ls -la ~/projects]. *)
Lemma commands_without_dollar_are_kept_witness :
  normalizeHomeTokens "ls -la ~/projects" = "ls -la ~/projects".
Proof.
  apply (commands_without_dollar_are_kept "ls -la ~/projects"). reflexivity.
Defined.

End NormalizerLaws.

(** ** Protected paths in commands *)

Module ReferenceFacts.
Import Str StrFacts Validator Wording NormalizerFacts NormalizerProofs.
Import PathFacts NormalizerLaws Terms.

Lemma includes_unfold (s p : string) :
  includes s p =
  String.prefix p s || match s with
                       | EmptyString => false
                       | String _ s' => includes s' p
                       end.
Proof. by destruct s. Qed.

(** A text occurs in whatever is put around it. *)
Lemma includes_app (a t b : string) : includes (a +:+ t +:+ b) t = true.
Proof.
  induction a as [|c a IH].
  - by rewrite app_nil_l, includes_unfold, prefix_app.
  - rewrite app_cons, includes_unfold, IH. apply orb_true_r.
Qed.

Lemma drop_app (a b : string) : drop (String.length a) (a +:+ b) = b.
Proof. induction a as [|c a IH]; [done|]. by rewrite app_cons. Qed.

(** A token found at the head of [pre +:+ x] lies within [pre] when no
    token can run into [x]. *)
Lemma token_within (tok pre x r : string) :
  allChars insideToken (drop 1 tok) = true ->
  startsApart x = true ->
  pre <> "" ->
  pre +:+ x = tok +:+ r ->
  exists pre', pre = tok +:+ pre' /\ r = pre' +:+ x.
Proof.
  intros Htok Hx Hpre.
  destruct pre as [|c pre]; [done|]. clear Hpre.
  destruct tok as [|t tok].
  { rewrite app_nil_l. intros <-. by exists (String c pre). }
  simpl in Htok. rewrite !app_cons. intros [= -> H].
  revert pre H Htok. induction tok as [|k tok IH]; intros pre H Htok.
  { rewrite app_nil_l in H. subst r. by exists pre. }
  simpl in Htok. apply andb_prop in Htok as [Hk Htok].
  destruct pre as [|d pre].
  - rewrite app_nil_l in H. subst x. simpl in Hx. by rewrite Hk in Hx.
  - rewrite !app_cons in H. injection H as -> H.
    destruct (IH pre H Htok) as (pre' & E & ->).
    exists pre'. split; [|done]. rewrite !app_cons in *. congruence.
Qed.

(** What precedes such a text does not change how it is normalized. *)
Lemma normalize_through (pre x : string) :
  startsApart x = true ->
  exists pre', normalizeHomeTokens (pre +:+ x) = pre' +:+ normalizeHomeTokens x.
Proof.
  intros Hx. remember (String.length pre) as n eqn:Hn.
  revert pre Hn. induction (lt_wf n) as [n _ IH]. intros pre ->.
  destruct pre as [|c pre]; [by exists ""|].
  destruct (bracedHome_spec (String c pre +:+ x)) as [[_ Hb]|[_ Hb]].
  { destruct Hb as [r Hr].
    destruct (token_within "${HOME}" (String c pre) x r) as (pre' & E & ->);
      [done..|].
    rewrite E, app_assoc, normalize_braced.
    destruct (IH (String.length pre')) with (pre := pre') as [q ->]; [|done|].
    { rewrite E, length_app. simpl. lia. }
    exists ("~" +:+ q). by rewrite app_assoc. }
  destruct (bareHome_spec (String c pre +:+ x)) as [[_ Hr]|[_ Hr]].
  { destruct Hr as (r & Hr & W).
    destruct (token_within "$HOME" (String c pre) x r) as (pre' & E & ->);
      [done..|].
    rewrite E, app_assoc, normalize_bare by done.
    destruct (IH (String.length pre')) with (pre := pre') as [q ->]; [|done|].
    { rewrite E, length_app. simpl. lia. }
    exists ("~" +:+ q). by rewrite app_assoc. }
  rewrite app_cons in *. rewrite normalize_keep by done.
  destruct (IH (String.length pre)) with (pre := pre) as [q ->]; [|done|].
  { simpl. lia. }
  by exists (String c q).
Qed.

Lemma dollarFree_app (a b : string) :
  dollarFree (a +:+ b) = dollarFree a && dollarFree b.
Proof.
  unfold dollarFree. induction a as [|c a IH]; [done|].
  rewrite app_cons. simpl. by rewrite IH, andb_assoc.
Qed.

(** A text without a dollar sign that no token can run into is still
    there after the normalization. *)
Lemma normalize_keeps_text (pre t post : string) :
  startsApart t = true -> dollarFree t = true ->
  includes (normalizeHomeTokens (pre +:+ t +:+ post)) t = true.
Proof.
  intros Ha Hd.
  destruct (normalize_through pre (t +:+ post)) as [q ->].
  { by destruct t. }
  rewrite normalize_plain by done. apply includes_app.
Qed.

(** A home token followed by a slash becomes a tilde, whatever
    precedes it. *)
Lemma normalize_home_spelling (pre tok suffix post : string) :
  In tok homeTokens ->
  (exists r, suffix = "/" +:+ r) -> dollarFree suffix = true ->
  includes (normalizeHomeTokens (pre +:+ tok +:+ suffix +:+ post))
    ("~" +:+ suffix) = true.
Proof.
  intros Htok [r ->] Hd.
  destruct Htok as [<-|[<-|[<-|[]]]].
  - rewrite <- (app_assoc "~"). by apply normalize_keeps_text.
  - destruct (normalize_through pre ("$HOME" +:+ ("/" +:+ r) +:+ post))
      as [q ->]; [done|].
    rewrite normalize_bare by done. rewrite normalize_plain by done.
    rewrite <- (app_assoc "~"). apply includes_app.
  - destruct (normalize_through pre ("${HOME}" +:+ ("/" +:+ r) +:+ post))
      as [q ->]; [done|].
    rewrite normalize_braced. rewrite normalize_plain by done.
    rewrite <- (app_assoc "~"). apply includes_app.
Qed.

End ReferenceFacts.

Module ReferenceProofs.
Import Json Host Wording Str StrFacts PathFacts ValidatorProofs.
Import NormalizerLaws ReferenceFacts Terms.

Section WithEnvironment.
Variable home : string.
Variable cwd : string.
Variable RegExp : string -> string -> option (string -> bool).

Abbreviation run := (Validator.run home cwd RegExp).
Abbreviation loadPatterns := (Validator.loadPatterns home RegExp).
Abbreviation expandPath := (Paths.expandPath home).
Abbreviation resolve := (Paths.resolve cwd).
Abbreviation Spells := (Terms.Spells home cwd).

Lemma Spells_nonempty (cmd p : string) :
  Spells cmd (resolve p) -> cmd <> "".
Proof.
  intros [(pre & post & ->)|(pre & post & tok & r & Htok & _ & ->)].
  - destruct (resolve_absolute cwd p) as [t ->].
    by destruct pre.
  - destruct pre; [|done]. by destruct Htok as [<-|[<-|[<-|[]]]].
Qed.

Lemma Spells_referenced (cmd p : string) :
  dollarFree (resolve (expandPath p)) = true ->
  Spells cmd (resolve (expandPath p)) ->
  Validator.commandReferencesProtectedPath home cwd
    (Validator.normalizeHomeTokens cmd) [p] = true.
Proof.
  intros Hd Hs. unfold Validator.commandReferencesProtectedPath.
  cbn [existsb]. rewrite orb_false_r, normalize_fixed.
  destruct Hs as [(pre & post & ->)|(pre & post & tok & r & Htok & Ht & ->)].
  - rewrite normalize_keeps_text; [done| |done].
    by destruct (resolve_absolute cwd (expandPath p)) as [t ->].
  - apply orb_true_intro. right.
    rewrite Ht in Hd |- *. unfold startsWith.
    rewrite prefix_app, drop_app. cbn [andb negb String.eqb].
    rewrite dollarFree_app in Hd. apply andb_prop in Hd as [_ Hd].
    apply normalize_home_spelling; [done|by exists r|done].
Qed.

Lemma references_mono (cmd : string) (p : string) (ps : list string) :
  In p ps ->
  Validator.commandReferencesProtectedPath home cwd cmd [p] = true ->
  Validator.commandReferencesProtectedPath home cwd cmd ps = true.
Proof.
  intros Hin. unfold Validator.commandReferencesProtectedPath.
  cbn [existsb]. rewrite orb_false_r. intros H.
  apply existsb_exists. by exists p.
Qed.

(** X16. A [Bash] command in which a zero-access path is spelt out is
    blocked, wherever in the command it stands: spelt as the canonical
    absolute path, or, for a path below the home directory, with [~],
    [$HOME] or [${HOME}] in place of the home directory. (The canonical
    path is taken to have no dollar sign in it.) *)
Theorem bash_command_spelling_a_protected_path_is_blocked
  (raw : json) (input : Validator.HookInput) (cmd : string) (file : File)
  (ps : Validator.SecurityPatterns) (p : string) :
  Validator.validateInput raw = Some input ->
  Validator.tool_name input = "Bash" ->
  Validator.extractCommand (Validator.tool_input input) = Some cmd ->
  loadPatterns file = Some ps ->
  In p (Validator.zeroAccessOf ps) ->
  dollarFree (resolve (expandPath p)) = true ->
  Spells cmd (resolve (expandPath p)) ->
  decisionOf (run raw file) = Some Block.
Proof.
  intros Hv Ht Hc Hl Hin Hd Hs.
  unfold Validator.run. rewrite Hv, Hl. unfold Validator.checkBash.
  rewrite Ht, Hc, (eqb_neq_str _ _ (Spells_nonempty _ _ Hs)). simpl.
  destruct (Validator.firstMatch _ _); [done|].
  by rewrite (references_mono _ p _ Hin (Spells_referenced cmd p Hd Hs)).
Qed.

End WithEnvironment.

(** X16 at [cat $HOME/.ssh/id_rsa] with the zero-access path [~/.ssh]. *)
Lemma bash_command_spelling_a_protected_path_is_blocked_witness :
  decisionOf (sampleRun (Sample.bash "cat $HOME/.ssh/id_rsa")
                (Contents Sample.patternsYaml))
  = Some Block.
Proof.
  apply (bash_command_spelling_a_protected_path_is_blocked Sample.home
           Sample.cwd Sample.plainRegExp
           (Sample.bash "cat $HOME/.ssh/id_rsa")
           (Sample.inputOf "Bash" [ ("command", JStr "cat $HOME/.ssh/id_rsa") ])
           "cat $HOME/.ssh/id_rsa" (Contents Sample.patternsYaml)
           Sample.patterns "/home/u/.ssh").
  - reflexivity.
  - reflexivity.
  - reflexivity.
  - vm_compute. reflexivity.
  - vm_compute. left. reflexivity.
  - vm_compute. reflexivity.
  - right. exists "cat ", "/id_rsa", "$HOME", ".ssh".
    split; [right; left; reflexivity|]. split; vm_compute; reflexivity.
Defined.

End ReferenceProofs.

(** ** The two revisions of the validator *)

Module RevisionProofs.
Import Json Host Wording Str StrFacts PathFacts ValidatorProofs Terms.

Section WithEnvironment.
Variable home : string.
Variable cwd : string.
Variable RegExp : string -> string -> option (string -> bool).

Abbreviation run := (Validator.run home cwd RegExp).
Abbreviation legacyRun := (LegacyValidator.run home cwd RegExp).

Lemma scanLine_SamePaths (a : Validator.Scan) (b : LegacyValidator.Scan)
  (line : string) :
  SamePaths a b ->
  SamePaths (Validator.scanLine home RegExp a line)
    (LegacyValidator.scanLine home b line).
Proof.
  intros (Hs & Hu & Hp).
  unfold Validator.scanLine, LegacyValidator.scanLine.
  rewrite <- Hs, <- Hu.
  repeat case_match; try done; simpl; unfold SamePaths; simpl;
    repeat split; try done; try congruence.
Qed.

Lemma fold_SamePaths (lines : list string) (a : Validator.Scan)
  (b : LegacyValidator.Scan) :
  SamePaths a b ->
  SamePaths (fold_left (Validator.scanLine home RegExp) lines a)
    (fold_left (LegacyValidator.scanLine home) lines b).
Proof.
  revert a b. induction lines as [|l lines IH]; intros a b H; [done|].
  simpl. by apply IH, scanLine_SamePaths.
Qed.

(** The two revisions load the same path rules from a file. *)
Lemma same_path_rules (file : File) (ps : Validator.SecurityPatterns) :
  Validator.loadPatterns home RegExp file = Some ps ->
  LegacyValidator.zeroAccessOf (LegacyValidator.loadPatterns home file)
  = Validator.zeroAccessOf ps
  /\ LegacyValidator.confirmWriteOf (LegacyValidator.loadPatterns home file)
     = Validator.confirmWriteOf ps.
Proof.
  destruct file as [| |content]; simpl; [by intros [= <-]|done|].
  intros [= <-].
  destruct (fold_SamePaths (split (ascii_of_nat 10) content)
    {| Validator.patterns := Validator.emptyPatterns;
       Validator.currentSection := ""; Validator.currentSubSection := "" |}
    {| LegacyValidator.patterns := LegacyValidator.emptyPatterns;
       LegacyValidator.currentSection := "";
       LegacyValidator.currentSubSection := "" |}) as (_ & _ & Hp); [done|].
  unfold LegacyValidator.zeroAccessOf, Validator.zeroAccessOf,
    LegacyValidator.confirmWriteOf, Validator.confirmWriteOf.
  by rewrite Hp.
Qed.

(** X17. For a tool other than [Bash] and a pattern file that is absent
    or can be read, the hardened validator and the earlier one block the
    same invocations, and for a tool that is neither [Write] nor [Edit]
    they give the same answer. (For [Write] and [Edit] the earlier one
    looks for the confirm-write entries in the path as written, the
    hardened one in the canonical path.) *)
Theorem both_revisions_block_the_same_paths (raw : json)
  (input : Validator.HookInput) (file : File) :
  Validator.validateInput raw = Some input ->
  Validator.tool_name input <> "Bash" ->
  file <> Unreadable ->
  (decisionOf (run raw file) = Some Block
   <-> decisionOf (legacyRun raw file) = Some Block)
  /\ (Validator.tool_name input <> "Write" ->
      Validator.tool_name input <> "Edit" ->
      run raw file = legacyRun raw file).
Proof.
  intros Hv Ht Hf.
  unfold Validator.run, LegacyValidator.run. rewrite Hv.
  destruct (Validator.loadPatterns home RegExp file) as [ps|] eqn:Hl.
  2: { by destruct file. }
  destruct (same_path_rules file ps Hl) as [Hz Hw].
  rewrite checkBash_other_tool by done.
  unfold LegacyValidator.checkBash. rewrite (eqb_neq_str _ _ Ht). simpl.
  unfold Validator.checkPath, LegacyValidator.checkPath. rewrite Hz, Hw.
  destruct (Validator.extractPath _) as [fp|]; [|done].
  destruct (String.eqb fp ""); [done|].
  destruct (existsb _ (Validator.zeroAccessOf ps)); [done|].
  split.
  - destruct (_ && existsb _ _), (_ && existsb _ _); by split.
  - intros H1 H2. by rewrite (eqb_neq_str _ _ H1), (eqb_neq_str _ _ H2).
Qed.

End WithEnvironment.

(** X17 at a [Read] of [~/.ssh/id_rsa]. *)
Lemma both_revisions_block_the_same_paths_witness :
  sampleRun (Sample.onPath "Read" "~/.ssh/id_rsa")
    (Contents Sample.patternsYaml)
  = LegacyValidator.run Sample.home Sample.cwd Sample.plainRegExp
      (Sample.onPath "Read" "~/.ssh/id_rsa") (Contents Sample.patternsYaml).
Proof.
  destruct (both_revisions_block_the_same_paths Sample.home Sample.cwd
              Sample.plainRegExp (Sample.onPath "Read" "~/.ssh/id_rsa")
              (Sample.inputOf "Read" [ ("file_path", JStr "~/.ssh/id_rsa") ])
              (Contents Sample.patternsYaml)) as [_ Hsame].
  - reflexivity.
  - discriminate.
  - discriminate.
  - apply Hsame; discriminate.
Defined.

End RevisionProofs.

(** ** Numbers *)

Module NumberFacts.
Import Num.

(** A number rounded with the sign of a negative number is not above
    zero. *)
Lemma binary_round_negative (prec emax : Z) (m : positive) (e : Z) :
  SFltb (S754_zero false) (binary_round prec emax true m e) = false.
Proof.
  unfold binary_round, binary_round_aux.
  destruct (shl_align _ _ _) as [mz ez].
  destruct (shr_fexp _ _ _ _ _) as [mrs' e'].
  destruct (shr_fexp _ _ _ _ _) as [mrs'' e''].
  destruct (shr_m mrs'') as [|q|q]; [done| |done].
  by destruct (_ <=? _)%Z.
Qed.

Lemma SFsub_antisym (prec emax : Z) (x y : spec_float) :
  SFltb (S754_zero false) (SFsub prec emax x y) = true ->
  SFltb (S754_zero false) (SFsub prec emax y x) = false.
Proof.
  destruct x as [sx|sx| |sx mx ex], y as [sy|sy| |sy my ey]; simpl;
    try done; try (by destruct sx, sy); try (by destruct sx);
    try (by destruct sy).
  rewrite (Z.min_comm ey ex).
  set (a := cond_Zopp sx _). set (b := cond_Zopp sy _).
  replace (b - a)%Z with (- (a - b))%Z by lia.
  destruct (a - b)%Z as [|p|p]; simpl.
  - done.
  - intros _. apply binary_round_negative.
  - by rewrite binary_round_negative.
Qed.

(** If [x - y] is above zero, [y - x] is not. *)
Lemma sub_antisym (x y : number) :
  (0 <? x - y)%float = true -> (0 <? y - x)%float = false.
Proof.
  rewrite !ltb_spec, !sub_spec. apply SFsub_antisym.
Qed.

End NumberFacts.

(** ** More on the skill activation evaluator *)

Module RankingProofs.
Import Json Host Num SkillEval Wording ScoreFacts SkillEvalProofs.
Import NumberFacts Terms.

Section WithEnvironment.
Variable cwd : string.
Variable RegExp : string -> string -> option (string -> bool).
Variable clock : nat -> number.
Variable toFixed0 : number -> string.
Variable skillFile : string -> File.
Variable JSON_parse : string -> option SkillRules.
Variable toLowerCase : string -> string.
Variable sortOrder : list number -> list nat.

Abbreviation dimensions := (SkillEval.dimensions cwd RegExp toLowerCase).
Abbreviation scoreRule := (SkillEval.scoreRule cwd RegExp toLowerCase).
Abbreviation collect := (SkillEval.collect cwd RegExp clock toLowerCase).
Abbreviation isOnCooldown := (SkillEval.isOnCooldown clock).
Abbreviation evaluate :=
  (SkillEval.evaluate cwd RegExp clock JSON_parse toLowerCase sortOrder).
Abbreviation selected :=
  (SkillEval.selected cwd RegExp clock JSON_parse toLowerCase sortOrder).
Abbreviation run :=
  (SkillEval.run cwd RegExp clock toFixed0 skillFile JSON_parse toLowerCase
     sortOrder).
Abbreviation kept := (Terms.kept cwd RegExp toLowerCase).
Abbreviation sort := (SkillEval.sort sortOrder).
Abbreviation ranked := (SkillEval.ranked sortOrder).

(** *** Dimensions *)

Lemma countIf_le {A} (f : A -> bool) (l : list A) : countIf f l <= length l.
Proof. unfold countIf. apply length_filter. Qed.

Lemma matchKeywords_le (lower : string) (l : list string) (n : nat) :
  matchKeywords_go RegExp lower l = Ok n -> n <= length l.
Proof.
  revert n. induction l as [|kw l IH]; intros n; simpl.
  - intros [= <-]. lia.
  - destruct (RegExp _ _) as [test|]; [|done].
    destruct (matchKeywords_go RegExp lower l) as [k|]; [|done]. simpl.
    intros [= <-]. specialize (IH k eq_refl). destruct (test lower); lia.
Qed.

Lemma matchIntents_go_cons (lower intent : string) (rest : list string) :
  matchIntents_go lower (intent :: rest) =
  match assoc intent intentKeywords with
  | Some family =>
      n ← matchIntents_go lower rest;
      Ok (if existsb (fun word => Str.includes lower word) family
          then S n else n)
  | None =>
      if existsb (String.eqb intent) inheritedNames then Throw
      else matchIntents_go lower rest
  end.
Proof. reflexivity. Qed.

Lemma matchIntents_le (lower : string) (l : list string) (n : nat) :
  matchIntents_go lower l = Ok n -> n <= length l.
Proof.
  revert n. induction l as [|i l IH]; intros n.
  - intros [= <-]. simpl. lia.
  - rewrite matchIntents_go_cons. cbn [length].
    destruct (assoc i intentKeywords) as [family|].
    + destruct (matchIntents_go lower l) as [k|]; [|done]. simpl.
      intros [= <-]. specialize (IH k eq_refl). destruct (existsb _ _); lia.
    + destruct (existsb _ _); [done|]. intros H. specialize (IH n H). lia.
Qed.

Lemma dimOf_well_formed {A} (l : option (list A)) (f : list A -> Result nat)
  (w : number) (ds : list Dim) :
  (forall l' n, f l' = Ok n -> n <= length l') ->
  dimOf l f w = Ok ds ->
  length ds <= 1 /\ Forall (fun d => 0 < total d /\ count d <= total d) ds.
Proof.
  intros Hf. unfold dimOf, present.
  destruct l as [[|x l]|]; try (intros [= <-]; simpl; split; [lia|constructor]).
  destruct (f (x :: l)) as [n|] eqn:E; [|done]. simpl. intros [= <-].
  split; [simpl; lia|]. constructor; [|constructor].
  split; simpl; [lia|]. by apply (Hf (x :: l)).
Qed.

(** X18. The dimensions [scoreRule] sums over are at most five, one for
    each kind of trigger the rule declares at least one of; each has a
    declared total above zero and a matched count that does not exceed
    it. *)
Theorem dimensions_are_well_formed (prompt : string) (t : Triggers)
  (w : Weights) (dims : list Dim) :
  dimensions prompt t w = Ok dims ->
  length dims <= 5 /\
  Forall (fun d => 0 < total d /\ count d <= total d) dims.
Proof.
  unfold SkillEval.dimensions.
  destruct (dimOf (keywords t) _ _) as [k|] eqn:Ek; [|done].
  destruct (dimOf (patterns t) _ _) as [p|] eqn:Ep; [|done].
  destruct (dimOf (directories t) _ _) as [d|] eqn:Ed; [|done].
  destruct (dimOf (intents t) _ _) as [i|] eqn:Ei; [|done].
  destruct (dimOf (fileTypes t) _ _) as [f|] eqn:Ef; [|done].
  simpl. intros [= <-].
  apply dimOf_well_formed in Ek as [Lk Fk];
    [|intros l' n; apply matchKeywords_le].
  apply dimOf_well_formed in Ep as [Lp Fp];
    [|intros l' n [= <-]; apply countIf_le].
  apply dimOf_well_formed in Ed as [Ld Fd];
    [|intros l' n [= <-]; apply countIf_le].
  apply dimOf_well_formed in Ei as [Li Fi];
    [|intros l' n; apply matchIntents_le].
  apply dimOf_well_formed in Ef as [Lf Ff];
    [|intros l' n [= <-]; apply countIf_le].
  split.
  - rewrite !length_app. clear -Lk Lp Ld Li Lf. lia.
  - rewrite !Forall_app. repeat split; assumption.
Qed.

(** *** The cut to [maxSuggestions] *)

Lemma evaluate_Ranked (raw : json) (file : File) (w w1 : World)
  (s : Settings) (top : list ScoredMatch) :
  evaluate raw file w = Ranked s top w1 ->
  exists prompt text rules ms,
    promptOf raw = Some prompt /\ file = Contents text /\
    JSON_parse text = Some rules /\ s = settings rules /\
    collect prompt (defaults rules) (SkillEval.rules rules) w = Ok (ms, w1) /\
    top = ranked s ms.
Proof.
  unfold SkillEval.evaluate.
  destruct (promptOf raw) as [prompt|] eqn:Hp; [|done].
  destruct file as [| |text]; [done..|].
  destruct (JSON_parse text) as [rules|] eqn:Hj; [|done].
  destruct (isExcluded RegExp toLowerCase prompt (exclusions rules)); [done|].
  destruct (collect prompt (defaults rules) (SkillEval.rules rules) w)
    as [[ms w2]|] eqn:Hc; [|done].
  destruct ms as [|m0 ms]; [done|]. intros [= <- <- <-].
  by exists prompt, text, rules, (m0 :: ms).
Qed.

(** X19. With a [maxSuggestions] that is not negative, no more than
    [maxSuggestions] matches are shown; with a [maxSuggestions] of zero
    nothing is printed and no skill fires, whatever matches. *)
Theorem at_most_maxSuggestions_are_shown (raw : json) (text : string)
  (rules : SkillRules) (w : World) :
  JSON_parse text = Some rules ->
  (0 <= maxSuggestions (settings rules))%Z ->
  length (selected raw (Contents text) w)
    <= Z.to_nat (maxSuggestions (settings rules))
  /\ (maxSuggestions (settings rules) = 0%Z ->
      printed (run raw (Contents text) w) = None /\
      cooldownMap (world (run raw (Contents text) w)) = cooldownMap w).
Proof.
  intros Hj Hmax.
  pose proof (evaluate_world cwd RegExp clock JSON_parse toLowerCase sortOrder
                raw (Contents text) w) as Hw.
  unfold SkillEval.selected, SkillEval.run.
  destruct (evaluate raw (Contents text) w) as [w'|s top w1] eqn:He.
  { simpl. split; [lia|]. intros _. split; [done|]. by destruct Hw. }
  apply evaluate_Ranked in He
    as (prompt & text' & rules' & ms & _ & [= <-] & Hj' & -> & _ & ->).
  assert (rules' = rules) as -> by congruence.
  unfold SkillEval.ranked, slice0.
  destruct (Z.ltb_spec (maxSuggestions (settings rules)) 0) as [|_]; [lia|].
  split.
  - rewrite length_take. lia.
  - intros ->. simpl. split; [done|]. by destruct Hw.
Qed.

(** *** The order of the matches shown *)

Lemma insertSorted_head (x : ScoredMatch) (l : list ScoredMatch)
  (y : ScoredMatch) :
  InOrder y x -> HdRel InOrder y l -> HdRel InOrder y (insertSorted x l).
Proof.
  intros Hx Hl. destruct l as [|z l]; simpl.
  - by constructor.
  - destruct (0 <? compareFn x z)%float; constructor; [|done].
    by inversion Hl.
Qed.

Lemma insertSorted_sorted (x : ScoredMatch) (l : list ScoredMatch) :
  Sorted InOrder l -> Sorted InOrder (insertSorted x l).
Proof.
  induction 1 as [|y l Hs IH Hh]; simpl.
  - by repeat constructor.
  - destruct (0 <? compareFn x y)%float eqn:E.
    + constructor; [done|]. apply insertSorted_head; [|done].
      unfold InOrder, compareFn in *. by apply sub_antisym.
    + constructor; [by constructor|]. by constructor.
Qed.

Lemma sortStable_sorted (l : list ScoredMatch) :
  Sorted InOrder (sortStable l).
Proof.
  induction l as [|x l IH]; simpl; [constructor|].
  by apply insertSorted_sorted.
Qed.

(** Where the comparison is an order the sort is the stable one. *)
Lemma sort_comparable (l : list ScoredMatch) :
  (forall m, In m l -> PrimFloat.is_nan (finalScore m) = false) ->
  sort l = sortStable l.
Proof.
  intros H. unfold SkillEval.sort.
  assert (comparable l = true) as ->; [|done].
  apply forallb_forall. intros m Hin. by rewrite (H m Hin).
Qed.

Lemma take_sorted {A} (R : A -> A -> Prop) (n : nat) (l : list A) :
  Sorted R l -> Sorted R (take n l).
Proof.
  intros H. revert n. induction H as [|x l Hs IH Hh]; intros [|n]; simpl;
    try constructor.
  - apply IH.
  - destruct Hh as [|y l' Hy]; destruct n; simpl; by constructor.
Qed.

(** X20. When no rule has [NaN] for its final score, the matches are
    shown in the order of the comparison function of the sort, final
    score descending: no match shown is directly followed by one that the
    function puts before it. (With a [NaN] among the scores the function
    is not an order, and the result of the sort depends on the engine.) *)
Theorem matches_are_shown_in_order (raw : json) (prompt text : string)
  (rules : SkillRules) (w : World) :
  promptOf raw = Some prompt ->
  JSON_parse text = Some rules ->
  (forall r m, In r (SkillEval.rules rules) ->
     scoreRule prompt r (defaultWeights (defaults rules))
       (defaultThreshold (defaults rules)) = Ok (Some m) ->
     PrimFloat.is_nan (finalScore m) = false) ->
  Sorted InOrder (selected raw (Contents text) w).
Proof.
  intros Hp Hj Hnan. unfold SkillEval.selected.
  destruct (evaluate raw (Contents text) w) as [w'|s top w1] eqn:He;
    [constructor|].
  apply evaluate_Ranked in He
    as (prompt' & text' & rules' & ms & Hp' & [= <-] & Hj' & _ & Hc & ->).
  assert (prompt' = prompt) as -> by congruence.
  assert (rules' = rules) as -> by congruence.
  apply collect_sound in Hc as (_ & _ & Hms).
  unfold SkillEval.ranked, slice0. rewrite sort_comparable.
  - destruct (_ <? _)%Z; apply take_sorted, sortStable_sorted.
  - intros m Hin. destruct (Hms m Hin) as (Hr & _ & Hs & _).
    by apply (Hnan (rule m) m).
Qed.

(** *** A table without entries *)

Lemma isOnCooldown_fresh (skill : string) (c : number) (w : World) :
  cooldownMap w = ∅ -> isOnCooldown skill c w = (false, w).
Proof. intros H. unfold SkillEval.isOnCooldown. by rewrite H, lookup_empty. Qed.

Lemma cooling_fresh (r : Rule) (w : World) :
  cooldownMap w = ∅ ->
  match hasCooldown r with
  | Some c => isOnCooldown (skill r) c w
  | None => (false, w)
  end = (false, w).
Proof.
  intros Hw. destruct (hasCooldown r); [by apply isOnCooldown_fresh|done].
Qed.

(** With an empty table the loop keeps the match of every proactive rule
    and reads no clock. *)
Lemma collect_fresh (prompt : string) (d : Defaults) (rs : list Rule)
  (w : World) :
  cooldownMap w = ∅ ->
  (forall r, In r rs -> type r = proactive ->
     scoreRule prompt r (defaultWeights d) (defaultThreshold d) <> Throw) ->
  collect prompt d rs w = Ok (omap (kept prompt d) rs, w).
Proof.
  intros Hw. induction rs as [|r rs IH]; intros Hs; [done|].
  assert (collect prompt d rs w = Ok (omap (kept prompt d) rs, w)) as Hrest
    by (apply IH; intros r' Hin; apply Hs; by right).
  specialize (Hs r (or_introl eq_refl)).
  cbn [SkillEval.collect omap list_omap]. unfold Terms.kept at 1.
  destruct (type r); [|done..].
  rewrite (cooling_fresh r w Hw), Hrest.
  destruct (scoreRule prompt r _ _) as [[m|]|]; [done|done|].
  by destruct Hs.
Qed.

(** X21. In a process whose cooldown table is empty, as it is when the
    hook starts, cooldowns play no part: when the prompt is not excluded
    and no rule makes the scoring throw, the matches shown are the
    matches of all proactive rules, taken in the order of the rule file,
    put through the sort (the stable one when no final score is [NaN],
    the engine's rearrangement otherwise) and cut to [maxSuggestions]. *)
Theorem fresh_run_ranks_every_proactive_match (raw : json)
  (prompt text : string) (rules : SkillRules) (w : World) :
  cooldownMap w = ∅ ->
  promptOf raw = Some prompt ->
  JSON_parse text = Some rules ->
  isExcluded RegExp toLowerCase prompt (exclusions rules) = false ->
  (forall r, In r (SkillEval.rules rules) -> type r = proactive ->
     scoreRule prompt r (defaultWeights (defaults rules))
       (defaultThreshold (defaults rules)) <> Throw) ->
  selected raw (Contents text) w
  = ranked (settings rules)
      (omap (kept prompt (defaults rules)) (SkillEval.rules rules)).
Proof.
  intros Hw Hp Hj He Hs.
  unfold SkillEval.selected, SkillEval.evaluate.
  rewrite Hp, Hj, He, (collect_fresh _ _ _ _ Hw Hs).
  destruct (omap _ _) as [|m ms] eqn:E; [|done].
  unfold SkillEval.ranked, slice0, SkillEval.sort. simpl.
  by destruct (_ <? _)%Z; rewrite ?take_nil.
Qed.

(** *** Intent names that object literals inherit *)

Lemma matchIntents_inherited (lower name : string) (l : list string) :
  In name l -> In name inheritedNames ->
  matchIntents_go lower l = Throw.
Proof.
  intros Hin Hn. induction l as [|i l IH]; [done|].
  rewrite matchIntents_go_cons. destruct Hin as [->|Hin].
  - assert (assoc name intentKeywords = None) as ->.
    { simpl in Hn. repeat (destruct Hn as [<-|Hn]; [reflexivity|]). done. }
    assert (existsb (String.eqb name) inheritedNames = true) as ->; [|done].
    apply existsb_exists. exists name. split; [done|apply String.eqb_refl].
  - rewrite (IH Hin). by repeat case_match.
Qed.

Lemma scoreRule_inherited (prompt name : string) (r : Rule) (dW : Weights)
  (dT : number) (l : list string) :
  intents (triggers r) = Some l -> In name l -> In name inheritedNames ->
  scoreRule prompt r dW dT = Throw.
Proof.
  intros Hi Hin Hn. apply scoreRule_throws. unfold SkillEval.dimensions.
  destruct (dimOf (keywords _) _ _); [|done].
  destruct (dimOf (patterns _) _ _); [|done].
  destruct (dimOf (directories _) _ _); [|done].
  simpl. rewrite Hi. unfold dimOf, present.
  destruct l as [|x l]; [done|].
  unfold matchIntents. by rewrite (matchIntents_inherited _ name).
Qed.

Lemma collect_throws (prompt : string) (d : Defaults) (rs : list Rule)
  (w : World) (r : Rule) :
  cooldownMap w = ∅ ->
  In r rs -> type r = proactive ->
  scoreRule prompt r (defaultWeights d) (defaultThreshold d) = Throw ->
  collect prompt d rs w = Throw.
Proof.
  intros Hw Hin Hty Hs. induction rs as [|r' rs IH]; [done|]. simpl.
  pose proof (cooling_fresh r' w Hw) as Hc.
  destruct Hin as [->|Hin].
  - by rewrite Hty, Hc, Hs.
  - rewrite Hc, (IH Hin). destruct (type r'); [|done..].
    by destruct (scoreRule prompt r' _ _).
Qed.

(** X22. A proactive rule that lists an intent named like a property
    every object inherits ([constructor], [toString], [__proto__], ...)
    makes the scoring throw: started with an empty cooldown table, the
    run then prints nothing for any prompt, also when other rules
    match. *)
Theorem inherited_intent_name_silences_the_run (raw : json)
  (prompt text name : string) (rules : SkillRules) (w : World) (r : Rule)
  (l : list string) :
  cooldownMap w = ∅ ->
  promptOf raw = Some prompt ->
  JSON_parse text = Some rules ->
  In r (SkillEval.rules rules) -> type r = proactive ->
  intents (triggers r) = Some l -> In name l -> In name inheritedNames ->
  run raw (Contents text) w = silent w.
Proof.
  intros Hw Hp Hj Hin Hty Hi Hl Hn.
  unfold SkillEval.run, SkillEval.evaluate. rewrite Hp, Hj.
  destruct (isExcluded _ _ _); [done|].
  by rewrite (collect_throws _ _ _ _ r Hw Hin Hty
                (scoreRule_inherited _ name _ _ _ l Hi Hl Hn)).
Qed.

(** *** Thresholds *)

Lemma scoreRule_scores (prompt : string) (r : Rule) (dW : Weights)
  (dT : number) (m : ScoredMatch) :
  scoreRule prompt r dW dT = Ok (Some m) ->
  (normalizedScore m <? orDefault (threshold r) dT)%float = false /\
  finalScore m
  = (normalizedScore m * (orDefault (priority r) 5 / 10))%float.
Proof.
  unfold SkillEval.scoreRule.
  destruct (SkillEval.dimensions _ _ _ _ _) as [dims|]; [|done]. simpl.
  destruct (Nat.eqb (length dims) 0); [done|].
  destruct (Nat.eqb (totalMatches dims) 0); [done|].
  destruct (_ <? _)%float eqn:E; [done|]. by intros [= <-].
Qed.

(** X25. Every match shown belongs to a rule of the rule file, has a
    normalized score that is not below the threshold of its rule (the
    rule's own, else the default), and has for final score its
    normalized score times a tenth of the rule's priority (5 when the
    rule has none). *)
Theorem shown_matches_pass_their_threshold (raw : json) (text : string)
  (rules : SkillRules) (w : World) (m : ScoredMatch) :
  JSON_parse text = Some rules ->
  In m (selected raw (Contents text) w) ->
  In (rule m) (SkillEval.rules rules)
  /\ (normalizedScore m
        <? orDefault (threshold (rule m))
             (defaultThreshold (defaults rules)))%float = false
  /\ finalScore m
     = (normalizedScore m * (orDefault (priority (rule m)) 5 / 10))%float.
Proof.
  intros Hj Hin.
  apply (selected_inv cwd RegExp clock JSON_parse toLowerCase sortOrder) in Hin
    as (prompt & text' & rules' & ms & w1 & _ & [= <-] & Hj' & Hc & Hin).
  assert (rules' = rules) as -> by congruence.
  apply collect_sound in Hc as (_ & _ & Hms).
  destruct (Hms m Hin) as (Hr & _ & Hs & _).
  split; [done|]. by apply scoreRule_scores in Hs.
Qed.

End WithEnvironment.

Abbreviation sampleSelected :=
  (SkillEval.selected Sample.cwd Sample.plainRegExp Sample.clock
     Sample.parseRules Sample.toLowerCase Sample.sortOrder).

(** X18 at [createSkill] and the sample request. *)
Lemma dimensions_are_well_formed_witness :
  length Sample.requestDims <= 5 /\
  Forall (fun d => 0 < total d /\ count d <= total d) Sample.requestDims.
Proof.
  apply (dimensions_are_well_formed Sample.cwd Sample.plainRegExp
           Sample.toLowerCase Sample.request (triggers Sample.createSkill)
           Sample.weights).
  vm_compute. reflexivity.
Defined.

(** X19 at the sample rules, which show three matches at most. *)
Lemma at_most_maxSuggestions_are_shown_witness :
  length (Sample.evalSelected Sample.request (Contents "rules")) <= 3.
Proof.
  destruct (at_most_maxSuggestions_are_shown Sample.cwd Sample.plainRegExp
              Sample.clock Sample.toFixed0 Sample.skillFile Sample.parseRules
              Sample.toLowerCase Sample.sortOrder
              (Sample.prompting Sample.request) "rules" Sample.skillRules
              Sample.world0) as [Hle _].
  - reflexivity.
  - vm_compute. discriminate.
  - exact Hle.
Defined.

(** X20 at the sample rules in a process that starts. *)
Lemma matches_are_shown_in_order_witness :
  Sorted InOrder
    (sampleSelected (Sample.prompting Sample.request) (Contents "rules")
       Cases.fresh).
Proof.
  apply (matches_are_shown_in_order Sample.cwd Sample.plainRegExp
           Sample.clock Sample.parseRules Sample.toLowerCase Sample.sortOrder
           (Sample.prompting Sample.request) Sample.request "rules"
           Sample.skillRules).
  - reflexivity.
  - reflexivity.
  - intros r m Hin Hs. vm_compute in Hin.
    repeat (destruct Hin as [<-|Hin];
            [vm_compute in Hs; try discriminate;
             injection Hs as <-; reflexivity|]).
    destruct Hin.
Defined.

(** X21 at the sample rules in a process that starts: [deploy], whose
    skill would be on cooldown had the table its entry, is ranked. *)
Lemma fresh_run_ranks_every_proactive_match_witness :
  sampleSelected (Sample.prompting Sample.request) (Contents "rules")
    Cases.fresh
  = SkillEval.ranked Sample.sortOrder (settings Sample.skillRules)
      (omap (Terms.kept Sample.cwd Sample.plainRegExp Sample.toLowerCase
               Sample.request (defaults Sample.skillRules))
         (SkillEval.rules Sample.skillRules)).
Proof.
  apply (fresh_run_ranks_every_proactive_match Sample.cwd Sample.plainRegExp
           Sample.clock Sample.parseRules Sample.toLowerCase
           Sample.sortOrder).
  - reflexivity.
  - reflexivity.
  - reflexivity.
  - vm_compute. reflexivity.
  - intros r Hin _ Hs. vm_compute in Hin.
    repeat (destruct Hin as [<-|Hin]; [vm_compute in Hs; discriminate|]).
    destruct Hin.
Defined.

(** X22 at rules with an intent named [constructor]: the request that
    [createSkill] matches gets no answer. *)
Lemma inherited_intent_name_silences_the_run_witness :
  SkillEval.run Sample.cwd Sample.plainRegExp Sample.clock Sample.toFixed0
    Sample.skillFile Cases.parseTrapRules Sample.toLowerCase Sample.sortOrder
    (Sample.prompting Sample.request) (Contents "trap") Cases.fresh
  = silent Cases.fresh.
Proof.
  apply (inherited_intent_name_silences_the_run Sample.cwd Sample.plainRegExp
           Sample.clock Sample.toFixed0 Sample.skillFile Cases.parseTrapRules
           Sample.toLowerCase Sample.sortOrder
           (Sample.prompting Sample.request) Sample.request "trap"
           "constructor" Cases.trapRules Cases.fresh Cases.trap
           ["constructor"]).
  - reflexivity.
  - reflexivity.
  - reflexivity.
  - right. left. reflexivity.
  - reflexivity.
  - reflexivity.
  - left. reflexivity.
  - left. reflexivity.
Defined.

(** X25 at the match of [createSkill]: 75 is not below the threshold 30,
    and 52.5 is 75 times 7 tenths. *)
Lemma shown_matches_pass_their_threshold_witness :
  In (rule Cases.createSkillMatch) (SkillEval.rules Sample.skillRules)
  /\ (75 <? 30)%float = false
  /\ 52.5%float = (75 * (7 / 10))%float.
Proof.
  apply (shown_matches_pass_their_threshold Sample.cwd Sample.plainRegExp
           Sample.clock Sample.parseRules Sample.toLowerCase Sample.sortOrder
           (Sample.prompting Sample.request)
           "rules" Sample.skillRules Sample.world0 Cases.createSkillMatch).
  - reflexivity.
  - vm_compute. left. reflexivity.
Defined.

End RankingProofs.

(** ** Escaping a keyword *)

Module EscapeProofs.
Import Str SkillEval.

Lemma backslash_special : isRegexSpecial "\" = true.
Proof. reflexivity. Qed.

Lemma escapeRegex_inj (a b : string) :
  escapeRegex a = escapeRegex b -> a = b.
Proof.
  revert b. induction a as [|c a IH]; intros [|d b]; simpl.
  - done.
  - by destruct (isRegexSpecial d).
  - by destruct (isRegexSpecial c).
  - destruct (isRegexSpecial c) eqn:Ec, (isRegexSpecial d) eqn:Ed.
    + intros [= -> H]. f_equal. by apply IH.
    + intros [= <- _]. by rewrite backslash_special in Ed.
    + intros [= -> _]. by rewrite backslash_special in Ec.
    + intros [= -> H]. f_equal. by apply IH.
Qed.

(** X23. [escapeRegex] loses nothing: two keywords that differ are
    escaped to texts that differ, so no two keywords are searched for
    with the same expression. *)
Theorem escapeRegex_is_injective (a b : string) :
  a <> b -> escapeRegex a <> escapeRegex b.
Proof. intros Hne H. by apply Hne, escapeRegex_inj. Qed.

(** X23 at [a.b] and [a-b]. *)
Lemma escapeRegex_is_injective_witness :
  escapeRegex "a.b" <> escapeRegex "a-b".
Proof. apply (escapeRegex_is_injective "a.b" "a-b"). discriminate. Defined.

End EscapeProofs.

(** ** Excluded prompts *)

Module ExclusionProofs.
Import Json Host Num SkillEval Wording Str StrFacts TrimFacts Terms.

Section WithEnvironment.
Variable cwd : string.
Variable RegExp : string -> string -> option (string -> bool).
Variable clock : nat -> number.
Variable toFixed0 : number -> string.
Variable skillFile : string -> File.
Variable JSON_parse : string -> option SkillRules.
Variable toLowerCase : string -> string.
Variable sortOrder : list number -> list nat.

Abbreviation run :=
  (SkillEval.run cwd RegExp clock toFixed0 skillFile JSON_parse toLowerCase
     sortOrder).

(** X24. A prompt that, after any leading white space (that of ASCII or
    any other the language has), starts with an ASCII text that is an
    exclusion prefix up to the case of the letters gets no answer:
    nothing is printed and the cooldown table and the clock are left as
    they were. The text is taken not to start or end with white space,
    and the engine to lower ASCII as every engine does. *)
Theorem excluded_prefix_ignores_case_and_margin (raw : json)
  (lead p rest prefix text : string) (rules : SkillRules) (w : World) :
  LowersAscii toLowerCase ->
  promptOf raw = Some (lead +:+ p +:+ rest) ->
  Blank lead -> solid p = true ->
  toLowerCase prefix = asciiLower p ->
  JSON_parse text = Some rules ->
  In prefix (prefixes (exclusions rules)) ->
  run raw (Contents text) w = silent w.
Proof.
  intros Hlow Hp Hl Hs Hc Hj Hin.
  unfold SkillEval.run, SkillEval.evaluate. rewrite Hp, Hj.
  assert (isExcluded RegExp toLowerCase (lead +:+ p +:+ rest)
            (exclusions rules) = true) as ->; [|done].
  unfold isExcluded. apply orb_true_intro. left.
  apply existsb_exists. exists prefix. split; [done|].
  rewrite Hc. by apply trimmed_prompt_starts.
Qed.

End WithEnvironment.

(** X24 at [Hello there] after a no-break space and a space, with the
    exclusion prefix [hello]. *)
Lemma excluded_prefix_ignores_case_and_margin_witness :
  Sample.evalRun
    (Cases.margin +:+ "Hello" +:+ " there, create a skill")
    (Contents "rules")
  = silent Sample.world0.
Proof.
  apply (excluded_prefix_ignores_case_and_margin Sample.cwd
           Sample.plainRegExp Sample.clock Sample.toFixed0 Sample.skillFile
           Sample.parseRules Sample.toLowerCase Sample.sortOrder
           (Sample.prompting
              (Cases.margin +:+ "Hello"
                 +:+ " there, create a skill"))
           Cases.margin "Hello" " there, create a skill"
           "hello" "rules" Sample.skillRules Sample.world0).
  - apply asciiLower_LowersAscii.
  - reflexivity.
  - apply margin_Blank.
  - reflexivity.
  - reflexivity.
  - reflexivity.
  - right. left. reflexivity.
Defined.

End ExclusionProofs.

(** ** The format reminder *)

Module FormatEnforcerProofs.
Import Json Host Hook Str StrFacts PathFacts TrimFacts FormatEnforcer Terms.

Section WithEngine.
Variable toLowerCase : string -> string.

Abbreviation main := (FormatEnforcer.main toLowerCase).

(** X26. A prompt that, after any leading white space (that of ASCII or
    any other the language has), starts with an ASCII text that is one of
    the skip prefixes up to the case of the letters gets no format
    reminder. The test is on the first characters, not on the first
    word: [history of the repo] starts with [hi] and is skipped. The
    engine is taken to lower ASCII as every engine does. *)
Theorem trivial_prompts_get_no_reminder (raw : json)
  (lead p rest : string) (claudeMd : File) :
  LowersAscii toLowerCase ->
  SkillEval.promptOf raw = Some (lead +:+ p +:+ rest) ->
  Blank lead -> solid p = true ->
  In (asciiLower p) SKIP_PREFIXES ->
  main raw claudeMd = quiet.
Proof.
  intros Hlow Hp Hl Hs Hin. unfold FormatEnforcer.main. rewrite Hp.
  assert (existsb (fun q => startsWith
            (toLowerCase (trim (lead +:+ p +:+ rest))) q) SKIP_PREFIXES = true)
    as ->; [|done].
  apply existsb_exists. exists (asciiLower p). split; [done|].
  by apply trimmed_prompt_starts.
Qed.

(** *** The format block of [CLAUDE.md] *)

Lemma stripPrefix_fence_head (tok : string) (c : ascii) (s : string) :
  c <> "`"%char -> stripPrefix (String "`" tok) (String c s) = None.
Proof.
  intros Hc. rewrite stripPrefix_cons.
  destruct (Ascii.eqb_spec "`" c); congruence.
Qed.

Lemma cut_fenceFree (body rest : string) :
  fenceFree body = true ->
  cut fence (body +:+ fence +:+ rest) = Some (body, rest).
Proof.
  induction body as [|c body IH]; intros H.
  - rewrite app_nil_l. unfold cut. destruct (fence +:+ rest) eqn:E;
      by rewrite <- E, stripPrefix_app.
  - apply andb_prop in H as [Hc H]. apply negb_true_iff, Ascii.eqb_neq in Hc.
    rewrite app_cons. cbn [cut]. unfold fence at 1.
    rewrite stripPrefix_fence_head by done. fold fence. by rewrite IH.
Qed.

Lemma formatMatch_unfold (content : string) :
  formatMatch content =
  let later :=
    match content with
    | EmptyString => None
    | String _ rest => formatMatch rest
    end in
  match stripPrefix opening content with
  | Some rest =>
      match cut fence rest with
      | Some (body, _) => Some ("SUMMARY:" +:+ body)
      | None => later
      end
  | None => later
  end.
Proof. by destruct content. Qed.

(** No match starts in a text without a backtick. *)
Lemma formatMatch_skip (pre s : string) :
  fenceFree pre = true -> formatMatch (pre +:+ s) = formatMatch s.
Proof.
  induction pre as [|c pre IH]; intros H; [done|].
  apply andb_prop in H as [Hc H]. apply negb_true_iff, Ascii.eqb_neq in Hc.
  rewrite app_cons, formatMatch_unfold. unfold opening at 1.
  rewrite stripPrefix_fence_head by done. cbn zeta. by apply IH.
Qed.

Lemma formatMatch_none (s : string) :
  fenceFree s = true -> formatMatch s = None.
Proof.
  intros H. rewrite <- (app_nil_r s). by rewrite formatMatch_skip.
Qed.

Lemma formatMatch_block (pre body post : string) :
  fenceFree pre = true -> fenceFree body = true ->
  formatMatch (pre +:+ opening +:+ body +:+ fence +:+ post)
  = Some ("SUMMARY:" +:+ body).
Proof.
  intros Hpre Hbody. rewrite formatMatch_skip by done.
  rewrite formatMatch_unfold, stripPrefix_app. cbn zeta.
  by rewrite cut_fenceFree.
Qed.

(** X27. For a prompt that is not skipped: when [CLAUDE.md] has a fenced
    block that starts with [SUMMARY:], no backtick before the block or
    inside it, the reminder carries that block, trimmed; when [CLAUDE.md]
    is absent, cannot be read or has no backtick at all, the reminder
    carries the built-in format. *)
Theorem format_block_of_CLAUDE_md_is_injected (raw : json) (prompt : string)
  (claudeMd : File) :
  SkillEval.promptOf raw = Some prompt ->
  existsb (fun p => startsWith (toLowerCase (trim prompt)) p) SKIP_PREFIXES
    = false ->
  (forall pre body post,
     fenceFree pre = true -> fenceFree body = true ->
     claudeMd = Contents (pre +:+ opening +:+ body +:+ fence +:+ post) ->
     main raw claudeMd = say (reminder (trim ("SUMMARY:" +:+ body))))
  /\ (claudeMd = Missing \/ claudeMd = Unreadable
      \/ (exists content, claudeMd = Contents content
                          /\ fenceFree content = true) ->
      main raw claudeMd = say (reminder defaultFormat)).
Proof.
  intros Hp Hs. unfold FormatEnforcer.main. rewrite Hp, Hs. split.
  - intros pre body post Hpre Hbody ->. by rewrite formatMatch_block.
  - intros [->|[->|(content & -> & Hc)]]; [done..|].
    by rewrite formatMatch_none.
Qed.

End WithEngine.

(** X26 at [Hi there] after a no-break space and a space. *)
Lemma trivial_prompts_get_no_reminder_witness :
  FormatEnforcer.main Sample.toLowerCase
    (Sample.prompting (Cases.margin +:+ "Hi" +:+ " there"))
    Missing
  = quiet.
Proof.
  apply (trivial_prompts_get_no_reminder Sample.toLowerCase
           (Sample.prompting
              (Cases.margin +:+ "Hi" +:+ " there"))
           Cases.margin "Hi" " there" Missing).
  - apply asciiLower_LowersAscii.
  - reflexivity.
  - apply margin_Blank.
  - reflexivity.
  - right. left. reflexivity.
Defined.

(** X27 at the sample [CLAUDE.md], whose block has two lines. *)
Lemma format_block_of_CLAUDE_md_is_injected_witness :
  FormatEnforcer.main Sample.toLowerCase
    (Sample.prompting "refactor the parser") (Contents Cases.claudeMd)
  = say (reminder
"SUMMARY: one line
DONE: what changed").
Proof.
  destruct (format_block_of_CLAUDE_md_is_injected Sample.toLowerCase
              (Sample.prompting "refactor the parser") "refactor the parser"
              (Contents Cases.claudeMd)) as [Hblock _].
  - reflexivity.
  - reflexivity.
  - rewrite (Hblock
"# Project

" " one line
DONE: what changed
" "
"); reflexivity.
Defined.

End FormatEnforcerProofs.

(** ** The identity loader and the session context *)

Module IdentityProofs.
Import Json Host Hook SkillEval Identity Terms.

Section WithParser.
Variable JSON_parse : string -> option json.
Abbreviation load := (Identity.load JSON_parse).
Abbreviation getIdentityName := (Identity.getIdentityName JSON_parse).
Abbreviation getDisplayName := (Identity.getDisplayName JSON_parse).
Abbreviation getPrincipalName := (Identity.getPrincipalName JSON_parse).
Abbreviation Unusable := (Terms.Unusable JSON_parse).

Lemma load_cached (file : File) (cached : json) :
  truthy cached = true -> load file cached = (cached, cached).
Proof. intros H. unfold Identity.load. by rewrite H. Qed.

Lemma load_parsed (text : string) (cached v : json) :
  truthy cached = false -> JSON_parse text = Some v ->
  load (Contents text) cached = (v, v).
Proof. intros H Hj. unfold Identity.load. by rewrite H, Hj. Qed.

Lemma load_unusable (file : File) (cached : json) :
  truthy cached = false -> Unusable file ->
  load file cached = (JObj [], cached).
Proof.
  intros H Hu. unfold Identity.load. rewrite H.
  by destruct Hu as [->|[->|(text & -> & ->)]].
Qed.

(** X28. The settings are read once: after a call that found nothing
    cached and parsed [settings.json] to a truthy value, that value is
    what is cached, and every later call of the three getters answers
    from it, whatever has become of the file. *)
Theorem settings_are_read_once (text : string) (cached v : json)
  (later : File) :
  truthy cached = false ->
  JSON_parse text = Some v -> truthy v = true ->
  let remembered := (getIdentityName (Contents text) cached).2 in
  remembered = v
  /\ getIdentityName later remembered = getIdentityName (Contents text) cached
  /\ getDisplayName later remembered = getDisplayName (Contents text) cached
  /\ getPrincipalName later remembered
     = getPrincipalName (Contents text) cached.
Proof.
  intros Hc Hj Hv.
  unfold Identity.getIdentityName, Identity.getDisplayName,
    Identity.getPrincipalName, Identity.getIdentityName.
  rewrite !(load_parsed text cached v) by done. simpl.
  rewrite !(load_cached _ v) by done.
  repeat split; done.
Qed.

(** X29. When nothing is cached and [settings.json] is absent, cannot be
    read or is not JSON, the getters answer with the defaults,
    [Assistant] and [User], and nothing is cached: the next call tries
    the file again. *)
Theorem unusable_settings_give_the_default_names (file : File)
  (cached : json) :
  truthy cached = false -> Unusable file ->
  getIdentityName file cached = (Ok (JStr "Assistant"), cached)
  /\ getDisplayName file cached = (Ok (JStr "Assistant"), cached)
  /\ getPrincipalName file cached = (Ok (JStr "User"), cached).
Proof.
  intros Hc Hu.
  unfold Identity.getDisplayName, Identity.getPrincipalName,
    Identity.getIdentityName.
  by rewrite !(load_unusable file cached) by done.
Qed.

End WithParser.

(** X28 at the sample settings, the file being gone afterwards. *)
Lemma settings_are_read_once_witness :
  Identity.getIdentityName Cases.parseSettings Missing Cases.settingsValue
  = (Ok (JStr "Hook"), Cases.settingsValue)
  /\ Identity.getPrincipalName Cases.parseSettings Missing Cases.settingsValue
     = (Ok (JStr "Ada"), Cases.settingsValue).
Proof.
  destruct (settings_are_read_once Cases.parseSettings "settings" JNull
              Cases.settingsValue Missing) as (_ & Hi & _ & Hp).
  - reflexivity.
  - reflexivity.
  - reflexivity.
  - split; [exact Hi|exact Hp].
Defined.

(** X29 at a [settings.json] that is not JSON. *)
Lemma unusable_settings_give_the_default_names_witness :
  Identity.getIdentityName Cases.parseSettings (Contents "{") JNull
  = (Ok (JStr "Assistant"), JNull)
  /\ Identity.getDisplayName Cases.parseSettings (Contents "{") JNull
     = (Ok (JStr "Assistant"), JNull)
  /\ Identity.getPrincipalName Cases.parseSettings (Contents "{") JNull
     = (Ok (JStr "User"), JNull).
Proof.
  apply (unusable_settings_give_the_default_names Cases.parseSettings).
  - reflexivity.
  - right. right. exists "{". split; reflexivity.
Defined.

End IdentityProofs.

Module ContextLoaderProofs.
Import Json Host Hook SkillEval Identity ContextLoader IdentityProofs Terms.

Section WithEnvironment.
Variable JSON_parse : string -> option json.
Variable String_ : json -> string.

Abbreviation main := (ContextLoader.main JSON_parse String_).

(** X30. With a truthy [session_id], the context loader prints the
    identity sentence with the default names when [settings.json] is
    absent, cannot be read or is not JSON, followed by the CORE skill
    and the project instructions that can be read; and it prints nothing
    at all when [settings.json] holds [null], since reading the identity
    of [null] throws. *)
Theorem context_is_injected_whatever_the_settings (raw sid : json)
  (settings core claudeMd : File) :
  getProp raw "session_id" = Some sid -> truthy sid = true ->
  (Terms.Unusable JSON_parse settings ->
   main raw settings core claudeMd
   = say ("<system-reminder>" +:+ nl
          +:+ Str.join (nl +:+ nl)
                ("You are Assistant, User's AI assistant."
                 :: filePart "--- CORE Skill ---" core
                 ++ filePart "--- Project Instructions ---" claudeMd)
          +:+ nl +:+ "</system-reminder>"))
  /\ (forall text, settings = Contents text ->
        JSON_parse text = Some JNull ->
        main raw settings core claudeMd = quiet).
Proof.
  intros Hs Ht. unfold ContextLoader.main. rewrite Hs, Ht. simpl. split.
  - intros Hu.
    unfold Identity.getIdentityName, Identity.getPrincipalName.
    by rewrite !(load_unusable JSON_parse settings JNull eq_refl Hu).
  - intros text -> Hj.
    unfold Identity.getIdentityName, Identity.getPrincipalName, Identity.load.
    simpl. by rewrite Hj.
Qed.

End WithEnvironment.

(** X30 at a session without [settings.json] and a [settings.json] that
    holds [null]. *)
Lemma context_is_injected_whatever_the_settings_witness :
  ContextLoader.main Cases.parseSettings Cases.String_ Cases.session
    Missing (Contents "Be brief.") Unreadable
  = say ("<system-reminder>" +:+ nl
         +:+ "You are Assistant, User's AI assistant." +:+ nl +:+ nl
         +:+ "--- CORE Skill ---" +:+ nl +:+ "Be brief."
         +:+ nl +:+ "</system-reminder>")
  /\ ContextLoader.main Cases.parseSettings Cases.String_ Cases.session
       (Contents "null") (Contents "Be brief.") Unreadable
     = quiet.
Proof.
  split.
  - destruct (context_is_injected_whatever_the_settings Cases.parseSettings
                Cases.String_ Cases.session (JStr "s1") Missing
                (Contents "Be brief.") Unreadable) as [Hdefault _].
    + reflexivity.
    + reflexivity.
    + rewrite Hdefault by (left; reflexivity). reflexivity.
  - destruct (context_is_injected_whatever_the_settings Cases.parseSettings
                Cases.String_ Cases.session (JStr "s1") (Contents "null")
                (Contents "Be brief.") Unreadable) as [_ Hnull].
    + reflexivity.
    + reflexivity.
    + apply (Hnull "null"); reflexivity.
Defined.

End ContextLoaderProofs.
